(** * Casio Watches storefront: cart, order and auth services

    A shallow embedding of [app/services/cart_service.py],
    [app/services/order_service.py], [app/services/auth_service.py] and
    [ProductService.update_stock], over the tables of
    [app/core/database.py].

    - A table is the list of its rows in primary-key order; the products
      table, which the services only ever read by primary key, is a finite
      map from the id to the row.
    - A SQLAlchemy session is a pair of the committed database and the
      working copy of the open transaction; [commit] promotes the working
      copy, [rollback] discards it, [close] leaves the committed database.
    - Python exceptions are values of [exn]; a service method that catches
      [Exception] turns them into a failure record, one that does not lets
      them escape.
    - Python floats are kept abstract: the services are written over any
      implementation [Arith F] of the float operations they use, and the
      exact rationals [Q] are the instance used to run them. *)

From Stdlib Require Import ZArith QArith Qround String Ascii List Lia.
From stdpp Require Import gmap strings list pretty.

Local Open Scope Z_scope.

(** ** Exceptions and results *)

Inductive exn : Type :=
| NameError (name : string)
| AttributeError (msg : string)
| IntegrityError (constraint : string).

(** [str(e)], as the handlers of the services interpolate it. For the
    storage engine's integrity errors only the violated constraint is kept. *)
Definition str_exn (e : exn) : string :=
  match e with
  | NameError name => String.append "name '" (String.append name "' is not defined")
  | AttributeError msg => msg
  | IntegrityError constraint => String.append "UNIQUE constraint failed: " constraint
  end.

(** A computation that returns a value or raises. *)
Definition Exn (A : Type) : Type := (exn + A)%type.

Definition ret {A} (a : A) : Exn A := inr a.
Definition raise {A} (e : exn) : Exn A := inl e.
Definition bind {A B} (m : Exn A) (k : A -> Exn B) : Exn B :=
  match m with
  | inl e => inl e
  | inr a => k a
  end.

Notation "x <- m ;; k" := (bind m (fun x => k))
  (at level 100, m at next level, right associativity, only parsing).

(** The [{"success": ..., "message": ...}] dictionaries of the mutating calls. *)
Record ServiceResult : Type := mkResult { success : bool; message : string }.

Definition ok (msg : string) : ServiceResult := mkResult true msg.
Definition failure (msg : string) : ServiceResult := mkResult false msg.

(** ** Module namespaces

    A name used in a method body is looked up in the globals of the module
    that defines the method when the expression is evaluated. *)

Definition lookup_global (globals : list string) (name : string) : Exn unit :=
  if existsb (String.eqb name) globals then ret tt else raise (NameError name).

(** The names bound at the top of [auth_service.py]. *)
Definition auth_service_globals : list string :=
  ["hashlib"; "secrets"; "datetime"; "timedelta"; "Optional"; "Dict"; "Any";
   "Session"; "and_"; "get_session"; "User"; "settings"; "AuthService"]%string.

(** The names bound at the top of [order_service.py]. *)
Definition order_service_globals : list string :=
  ["secrets"; "datetime"; "List"; "Dict"; "Any"; "Optional"; "Session";
   "and_"; "desc"; "get_session"; "Order"; "Product"; "CartItem"; "User";
   "CartService"; "OrderService"]%string.

(** ** Float arithmetic *)

Class Arith (F : Type) : Type := {
  of_int : Z -> F;            (* an int operand converted for a float operation *)
  of_literal : Q -> F;        (* a float literal such as 0.08 *)
  fadd : F -> F -> F;
  fsub : F -> F -> F;
  fmul : F -> F -> F;
  flt : F -> F -> bool;       (* x < y *)
  fge : F -> F -> bool;       (* x >= y *)
  round2 : F -> F             (* round(x, 2) *)
}.

(** [round(x, 2)] on exact rationals: to the nearest hundredth, ties to the
    even one. *)
Definition Qround_half_even (q : Q) : Z :=
  let f := Qfloor q in
  match Qcompare (q - inject_Z f) (1 # 2) with
  | Lt => f
  | Gt => f + 1
  | Eq => if Z.even f then f else f + 1
  end.

Definition Qround2 (q : Q) : Q := Qmake (Qround_half_even (q * 100)) 100.

Definition Qlt_bool (x y : Q) : bool :=
  match Qcompare x y with Lt => true | _ => false end.

#[export] Instance Q_arith : Arith Q := {|
  of_int := inject_Z;
  of_literal := fun q => q;
  fadd := Qplus;
  fsub := Qminus;
  fmul := Qmult;
  flt := Qlt_bool;
  fge := fun x y => Qle_bool y x;
  round2 := Qround2
|}.

(** ** Tables ([app/core/database.py]) *)

Module User.
Record t : Type := mk {
  id : Z;
  username : string;
  email : string;
  full_name : option string;
  hashed_password : string;
  is_active : bool;
  is_admin : bool;
  updated_at : Z
}.
End User.

Module Product.
Record t {F : Type} : Type := mk {
  name : string;
  model : string;
  price : F;
  stock_quantity : Z;
  primary_image_url : string;
  is_active : bool
}.
Arguments t : clear implicits.
Arguments mk {F}.

Definition set_stock_quantity {F} (p : t F) (n : Z) : t F :=
  mk (name p) (model p) (price p) n (primary_image_url p) (is_active p).
End Product.

Module CartItem.
Record t : Type := mk {
  id : Z;
  user_id : Z;
  product_id : Z;
  quantity : Z
}.

Definition set_quantity (c : t) (n : Z) : t :=
  mk (id c) (user_id c) (product_id c) n.
End CartItem.

(** The [shipping_info] dictionary after its [.get(key, default)] reads. *)
Record ShippingInfo : Type := mkShipping {
  shipping_name : string;
  shipping_email : string;
  shipping_phone : string;
  shipping_address : string;
  shipping_city : string;
  shipping_state : string;
  shipping_zip : string;
  shipping_country : string
}.

Module Order.
Record t {F : Type} : Type := mk {
  id : Z;
  order_number : string;
  user_id : Z;
  total_amount : F;
  tax_amount : F;
  shipping_amount : F;
  discount_amount : F;
  status : string;
  payment_status : string;
  payment_method : string;
  shipping : ShippingInfo;
  created_at : Z;
  updated_at : Z
}.
Arguments t : clear implicits.
Arguments mk {F}.

Definition set_status {F} (o : t F) (s : string) (now : Z) : t F :=
  mk (id o) (order_number o) (user_id o) (total_amount o) (tax_amount o)
     (shipping_amount o) (discount_amount o) s (payment_status o)
     (payment_method o) (shipping o) (created_at o) now.
End Order.

(** The database: one field per table. [order_items] is the association
    table of orders and products, a row being [(order_id, product_id)];
    its [quantity] and [price_at_time] columns are never written or read by
    the services. *)
Record DB {F : Type} : Type := mkDB {
  users : list User.t;
  products : gmap Z (Product.t F);
  cart_items : list CartItem.t;
  orders : list (Order.t F);
  order_items : list (Z * Z)
}.
Arguments DB : clear implicits.
Arguments mkDB {F}.

(** ** Sessions *)

Record Session {F : Type} : Type := mkSession {
  committed : DB F;
  working : DB F
}.
Arguments Session : clear implicits.
Arguments mkSession {F}.

Definition get_session {F} (db : DB F) : Session F := mkSession db db.
Definition commit {F} (s : Session F) : Session F := mkSession (working s) (working s).
Definition rollback {F} (s : Session F) : Session F := mkSession (committed s) (committed s).
Definition close {F} (s : Session F) : DB F := committed s.
Definition stage {F} (s : Session F) (w : DB F) : Session F := mkSession (committed s) w.

(** The id the engine gives to a row inserted into a table whose ids are
    [ids]: one more than the largest, starting at 1. *)
Definition next_id (ids : list Z) : Z := 1 + fold_right Z.max 0 ids.

(** ** Cart service ([app/services/cart_service.py]) *)

(** Replace, or delete, the first row that satisfies [f]: the row an ORM
    object fetched with [.first()] stands for. *)
Fixpoint update_first {T} (f : T -> bool) (g : T -> T) (l : list T) : list T :=
  match l with
  | [] => []
  | x :: l' => if f x then g x :: l' else x :: update_first f g l'
  end.

Fixpoint delete_first {T} (f : T -> bool) (l : list T) : list T :=
  match l with
  | [] => []
  | x :: l' => if f x then l' else x :: delete_first f l'
  end.

(** One entry of the list [get_cart_items] returns. *)
Record CartLine {F : Type} : Type := mkLine {
  line_id : Z;
  line_product_id : Z;
  line_product_name : string;
  line_product_model : string;
  line_product_price : F;
  line_product_image : string;
  line_quantity : Z;
  line_subtotal : F;
  line_stock_available : Z
}.
Arguments CartLine : clear implicits.
Arguments mkLine {F}.

(** The dictionary [get_cart_summary] returns. *)
Record CartSummary {F : Type} : Type := mkSummary {
  items : list (CartLine F);
  total_items : Z;
  subtotal : F;
  tax_amount : F;
  shipping_amount : F;
  total_amount : F;
  free_shipping_eligible : bool;
  free_shipping_remaining : F
}.
Arguments CartSummary : clear implicits.
Arguments mkSummary {F}.

(** The dictionary [validate_cart_for_checkout] returns. *)
Record CartValidation : Type := mkValidation {
  valid : bool;
  validation_message : string;
  issues : list string
}.

Section CartService.
Context {F : Type} {arith : Arith F}.

Definition set_cart_items (db : DB F) (rows : list CartItem.t) : DB F :=
  mkDB (users db) (products db) rows (orders db) (order_items db).

Definition set_products (db : DB F) (ps : gmap Z (Product.t F)) : DB F :=
  mkDB (users db) ps (cart_items db) (orders db) (order_items db).

(** [filter(and_(CartItem.user_id == user_id, CartItem.product_id == product_id))] *)
Definition is_cart_row (user_id product_id : Z) (c : CartItem.t) : bool :=
  (CartItem.user_id c =? user_id) && (CartItem.product_id c =? product_id).

(** [filter(CartItem.user_id == user_id)] *)
Definition in_cart_of (user_id : Z) (c : CartItem.t) : bool :=
  CartItem.user_id c =? user_id.

(** [query(Product).filter(and_(Product.id == product_id, Product.is_active == True)).first()] *)
Definition active_product (db : DB F) (product_id : Z) : option (Product.t F) :=
  match products db !! product_id with
  | Some p => if Product.is_active p then Some p else None
  | None => None
  end.

Definition add_to_cart (db : DB F) (user_id product_id quantity : Z)
  : ServiceResult * DB F :=
  let session := get_session db in
  match active_product (working session) product_id with
  | None => (failure "Product not found", close session)
  | Some product =>
    if Product.stock_quantity product <? quantity
    then (failure "Insufficient stock", close session)
    else
      match find (is_cart_row user_id product_id) (cart_items (working session)) with
      | Some existing_item =>
        let new_quantity := CartItem.quantity existing_item + quantity in
        if Product.stock_quantity product <? new_quantity
        then (failure "Insufficient stock", close session)
        else
          let rows := update_first (is_cart_row user_id product_id)
                        (fun c => CartItem.set_quantity c new_quantity)
                        (cart_items (working session)) in
          let session := stage session (set_cart_items (working session) rows) in
          (ok "Item added to cart", close (commit session))
      | None =>
        let cart_item :=
          CartItem.mk (next_id (map CartItem.id (cart_items (working session))))
                      user_id product_id quantity in
        let rows := cart_items (working session) ++ [cart_item] in
        let session := stage session (set_cart_items (working session) rows) in
        (ok "Item added to cart", close (commit session))
      end
  end.

Definition remove_from_cart (db : DB F) (user_id product_id : Z)
  : ServiceResult * DB F :=
  let session := get_session db in
  match find (is_cart_row user_id product_id) (cart_items (working session)) with
  | None => (failure "Item not found in cart", close session)
  | Some _ =>
    let rows := delete_first (is_cart_row user_id product_id)
                  (cart_items (working session)) in
    let session := stage session (set_cart_items (working session) rows) in
    (ok "Item removed from cart", close (commit session))
  end.

Definition update_cart_item_quantity (db : DB F) (user_id product_id quantity : Z)
  : ServiceResult * DB F :=
  let session := get_session db in
  if quantity <=? 0 then remove_from_cart (close session) user_id product_id
  else
    match find (is_cart_row user_id product_id) (cart_items (working session)) with
    | None => (failure "Item not found in cart", close session)
    | Some _ =>
      match products (working session) !! product_id with
      | None => (failure "Insufficient stock", close session)
      | Some product =>
        if Product.stock_quantity product <? quantity
        then (failure "Insufficient stock", close session)
        else
          let rows := update_first (is_cart_row user_id product_id)
                        (fun c => CartItem.set_quantity c quantity)
                        (cart_items (working session)) in
          let session := stage session (set_cart_items (working session) rows) in
          (ok "Cart updated", close (commit session))
      end
    end.

Definition clear_cart (db : DB F) (user_id : Z) : ServiceResult * DB F :=
  let session := get_session db in
  let rows := filter (fun c => negb (in_cart_of user_id c))
                (cart_items (working session)) in
  let session := stage session (set_cart_items (working session) rows) in
  (ok "Cart cleared", close (commit session)).

(** The body of the loop of [get_cart_items]: the entry for one row, when
    its product exists and is active. *)
Definition cart_line (db : DB F) (item : CartItem.t) : option (CartLine F) :=
  match products db !! CartItem.product_id item with
  | Some product =>
    if Product.is_active product
    then Some (mkLine (CartItem.id item) (CartItem.product_id item)
                 (Product.name product) (Product.model product)
                 (Product.price product) (Product.primary_image_url product)
                 (CartItem.quantity item)
                 (fmul (Product.price product) (of_int (CartItem.quantity item)))
                 (Product.stock_quantity product))
    else None
  | None => None
  end.

Definition get_cart_items (db : DB F) (user_id : Z) : list (CartLine F) :=
  omap (cart_line db) (filter (in_cart_of user_id) (cart_items db)).

(** Python's [sum]: a left fold from the int 0. *)
Definition sum_int (l : list Z) : Z := fold_left Z.add l 0.
Definition sum_float (l : list F) : F := fold_left fadd l (of_int 0).

Definition get_cart_summary (db : DB F) (user_id : Z) : CartSummary F :=
  let cart_items := get_cart_items db user_id in
  let total_items := sum_int (map line_quantity cart_items) in
  let subtotal := sum_float (map line_subtotal cart_items) in
  let tax_rate := of_literal (8 # 100) in
  let tax_amount := fmul subtotal tax_rate in
  let shipping_amount :=
    if fge subtotal (of_int 100) then of_literal 0 else of_literal (999 # 100) in
  let total_amount := fadd (fadd subtotal tax_amount) shipping_amount in
  mkSummary cart_items total_items
    (round2 subtotal) (round2 tax_amount) (round2 shipping_amount)
    (round2 total_amount)
    (fge subtotal (of_int 100))
    (if flt subtotal (of_int 100)
     then (let d := fsub (of_int 100) subtotal in
           if flt (of_int 0) d then d else of_int 0)
     else of_int 0).

Definition get_cart_count (db : DB F) (user_id : Z) : Z :=
  sum_int (map CartItem.quantity (filter (in_cart_of user_id) (cart_items db))).

(** The body of the loop of [validate_cart_for_checkout]: the issue a row
    raises, if any. *)
Definition cart_issue (db : DB F) (item : CartItem.t) : option string :=
  match active_product db (CartItem.product_id item) with
  | None =>
    Some ("Product " +:+ pretty (CartItem.product_id item)
          +:+ " is no longer available")
  | Some product =>
    if Product.stock_quantity product <? CartItem.quantity item
    then Some (Product.name product +:+ " has insufficient stock (available: "
               +:+ pretty (Product.stock_quantity product) +:+ ", requested: "
               +:+ pretty (CartItem.quantity item) +:+ ")")
    else None
  end.

Definition validate_cart_for_checkout (db : DB F) (user_id : Z) : CartValidation :=
  let cart_items := filter (in_cart_of user_id) (cart_items db) in
  match cart_items with
  | [] => mkValidation false "Cart is empty" []
  | _ :: _ =>
    let issues := omap (cart_issue db) cart_items in
    match issues with
    | [] => mkValidation true "Cart is valid for checkout" []
    | _ :: _ => mkValidation false "Cart validation failed" issues
    end
  end.

End CartService.

(** ** Order numbers ([OrderService._generate_order_number]) *)

(** A calendar date, as [datetime.now()] gives it to [strftime]. *)
Record Date : Type := mkDate { year : Z; month : Z; day : Z }.

Definition digit_char (d : Z) : ascii := ascii_of_N (48 + Z.to_N d).

(** The last [width] decimal digits of [n], most significant first. *)
Fixpoint zero_pad (width : nat) (n : Z) : string :=
  match width with
  | O => EmptyString
  | S w => String.append (zero_pad w (n / 10)) (String (digit_char (n mod 10)) EmptyString)
  end.

(** [strftime("%Y%m%d")]: the year on four digits, month and day on two. *)
Definition strftime_Ymd (d : Date) : string :=
  String.append (zero_pad 4 (year d))
    (String.append (zero_pad 2 (month d)) (zero_pad 2 (day d))).

Definition hex_char (n : N) : ascii :=
  if (n <? 10)%N then ascii_of_N (48 + n) else ascii_of_N (87 + n).

(** [secrets.token_hex(n)] on the [n] bytes the entropy source returned:
    two lowercase hexadecimal digits per byte. *)
Fixpoint token_hex (random_bytes : list Byte.byte) : string :=
  match random_bytes with
  | [] => EmptyString
  | b :: rest =>
    let n := Byte.to_N b in
    String (hex_char (n / 16)) (String (hex_char (n mod 16)) (token_hex rest))
  end.

Definition upper_char (c : ascii) : ascii :=
  let n := N_of_ascii c in
  if ((97 <=? n) && (n <=? 122))%N then ascii_of_N (n - 32) else c.

(** [str.upper()] on ASCII text. *)
Fixpoint upper (s : string) : string :=
  match s with
  | EmptyString => EmptyString
  | String c s' => String (upper_char c) (upper s')
  end.

Definition _generate_order_number (today : Date) (random_bytes : list Byte.byte) : string :=
  let timestamp := strftime_Ymd today in
  let random_suffix := upper (token_hex random_bytes) in
  String.append "CW" (String.append timestamp random_suffix).

(** ** Order service ([app/services/order_service.py]) *)

Section OrderService.
Context {F : Type} {arith : Arith F}.

Definition set_orders (db : DB F) (os : list (Order.t F)) : DB F :=
  mkDB (users db) (products db) (cart_items db) os (order_items db).

Definition set_order_items (db : DB F) (rows : list (Z * Z)) : DB F :=
  mkDB (users db) (products db) (cart_items db) (orders db) rows.

(** [session.add(order); session.flush()]: the INSERT into [orders], which
    the unique index on [order_number] can refuse. The row gets its id. *)
Definition flush_order (w : DB F) (order : Order.t F) : Exn (DB F) :=
  if existsb (fun o => String.eqb (Order.order_number o) (Order.order_number order))
       (orders w)
  then raise (IntegrityError "orders.order_number")
  else ret (set_orders w (orders w ++ [order])).

Definition same_pair (a b : Z * Z) : bool :=
  (fst a =? fst b) && (snd a =? snd b).

(** The INSERTs into [order_items] for the products appended to
    [order.products], one per element of the collection; the primary key
    [(order_id, product_id)] refuses a pair that is already there. *)
Fixpoint flush_order_items (table : list (Z * Z)) (order_id : Z) (appended : list Z)
  : Exn (list (Z * Z)) :=
  match appended with
  | [] => ret table
  | product_id :: rest =>
    if existsb (same_pair (order_id, product_id)) table
    then raise (IntegrityError "order_items.order_id, order_items.product_id")
    else flush_order_items (table ++ [(order_id, product_id)]) order_id rest
  end.

(** The loop over the cart rows of [create_order_from_cart]. Products are
    shared objects of the session, so the stock read for a row is the one
    left by the rows before it. The result is the message of the early
    return, or the products and the collection [order.products] at the end
    of the loop. *)
Fixpoint order_lines (ps : gmap Z (Product.t F)) (appended : list Z)
    (rows : list CartItem.t) : Exn (string + gmap Z (Product.t F) * list Z) :=
  match rows with
  | [] => ret (inr (ps, appended))
  | cart_item :: rest =>
    match ps !! CartItem.product_id cart_item with
    | None => raise (AttributeError "'NoneType' object has no attribute 'stock_quantity'")
    | Some product =>
      if Product.stock_quantity product <? CartItem.quantity cart_item
      then ret (inl ("Insufficient stock for " +:+ Product.name product))
      else
        let product := Product.set_stock_quantity product
                         (Product.stock_quantity product - CartItem.quantity cart_item) in
        order_lines (<[CartItem.product_id cart_item := product]> ps)
                    (appended ++ [CartItem.product_id cart_item]) rest
    end
  end.

(** The [Order(...)] row built from the summary, with the id and the
    creation time the INSERT gives it. *)
Definition new_order (w : DB F) (summary : CartSummary F) (user_id : Z)
    (shipping_info : ShippingInfo) (payment_method : string)
    (today : Date) (random_bytes : list Byte.byte) (now : Z) : Order.t F :=
  let order_number := _generate_order_number today random_bytes in
  Order.mk (next_id (map Order.id (orders w)))
    order_number user_id
    (total_amount summary) (tax_amount summary) (shipping_amount summary)
    (of_literal 0) "pending" "pending" payment_method shipping_info now now.

(** The [try] block after the two early returns: what the method returns
    together with the session it leaves, or the exception it raises. *)
Definition create_order_body (session : Session F) (summary : CartSummary F)
    (user_id : Z) (shipping_info : ShippingInfo) (payment_method : string)
    (today : Date) (random_bytes : list Byte.byte) (now : Z)
  : Exn (ServiceResult * option (Order.t F) * Session F) :=
  let order := new_order (working session) summary user_id shipping_info
                 payment_method today random_bytes now in
  w <- flush_order (working session) order ;;
  let session := stage session w in
  let lines := filter (in_cart_of user_id) (cart_items (working session)) in
  outcome <- order_lines (products (working session)) [] lines ;;
  match outcome with
  | inl msg => ret (failure msg, None, rollback session)
  | inr (ps, appended) =>
    let w := set_products (working session) ps in
    let w := set_cart_items w
               (filter (fun c => negb (in_cart_of user_id c)) (cart_items w)) in
    rows <- flush_order_items (order_items w) (Order.id order) appended ;;
    let session := commit (stage session (set_order_items w rows)) in
    ret (ok "Order created successfully", Some order, session)
  end.

Definition create_order_from_cart (db : DB F) (user_id : Z)
    (shipping_info : ShippingInfo) (payment_method : string)
    (today : Date) (random_bytes : list Byte.byte) (now : Z)
  : ServiceResult * option (Order.t F) * DB F :=
  let session := get_session db in
  let cart_validation := validate_cart_for_checkout db user_id in
  if negb (valid cart_validation)
  then (failure (validation_message cart_validation), None, close session)
  else
    let cart_summary := get_cart_summary db user_id in
    match items cart_summary with
    | [] => (failure "Cart is empty", None, close session)
    | _ :: _ =>
      match create_order_body session cart_summary user_id shipping_info
              payment_method today random_bytes now with
      | inr (result, order, session) => (result, order, close session)
      | inl e =>
        let session := rollback session in
        (failure ("Order creation failed: " +:+ str_exn e), None, close session)
      end
    end.

(** [if user_id:] on an [Optional[int]]: [None] and [0] are both false. *)
Definition truthy (user_id : option Z) : option Z :=
  match user_id with
  | Some u => if u =? 0 then None else Some u
  | None => None
  end.

(** [query(Order).filter(Order.id == order_id)], narrowed to the owner
    when a user id is given. *)
Definition order_matches (order_id : Z) (user_id : option Z) (o : Order.t F) : bool :=
  (Order.id o =? order_id) &&
  match truthy user_id with
  | Some u => Order.user_id o =? u
  | None => true
  end.

(** [order.products]: the products the association table links to the
    order, one per association row. *)
Definition order_product_ids (db : DB F) (order_id : Z) : list Z :=
  map snd (filter (fun row => fst row =? order_id) (order_items db)).

Definition restore_one (ps : gmap Z (Product.t F)) (product_id : Z)
  : gmap Z (Product.t F) :=
  alter (fun p => Product.set_stock_quantity p (Product.stock_quantity p + 1))
        product_id ps.

Definition not_cancellable (status : string) : bool :=
  existsb (String.eqb status) ["shipped"; "delivered"; "cancelled"]%string.

Definition cancel_order (db : DB F) (order_id : Z) (user_id : option Z) (now : Z)
  : ServiceResult * DB F :=
  let session := get_session db in
  match find (order_matches order_id user_id) (orders (working session)) with
  | None => (failure "Order not found", close session)
  | Some order =>
    if not_cancellable (Order.status order)
    then (failure "Order cannot be cancelled", close session)
    else
      let ps := fold_left restore_one
                  (order_product_ids (working session) (Order.id order))
                  (products (working session)) in
      let os := update_first (order_matches order_id user_id)
                  (fun o => Order.set_status o "cancelled" now)
                  (orders (working session)) in
      let w := set_orders (set_products (working session) ps) os in
      (ok "Order cancelled successfully", close (commit (stage session w)))
  end.

(** [ProductService.update_stock] *)
Definition update_stock (db : DB F) (product_id quantity_change : Z) : bool * DB F :=
  let session := get_session db in
  match products (working session) !! product_id with
  | None => (false, close session)
  | Some product =>
    let new_quantity := Product.stock_quantity product + quantity_change in
    if new_quantity <? 0 then (false, close session)
    else
      let ps := <[product_id := Product.set_stock_quantity product new_quantity]>
                  (products (working session)) in
      (true, close (commit (stage session (set_products (working session) ps))))
  end.

(** One entry of [recent_orders]. *)
Record RecentOrder : Type := mkRecent {
  recent_id : Z;
  recent_order_number : string;
  recent_total_amount : F;
  recent_status : string;
  recent_created_at : Z
}.

(** The dictionary [get_order_statistics] returns. *)
Record OrderStatistics : Type := mkStatistics {
  total_orders : Z;
  pending_orders : Z;
  completed_orders : Z;
  total_revenue : F;
  recent_orders : list RecentOrder
}.

Definition count_orders (f : Order.t F -> bool) (db : DB F) : Z :=
  Z.of_nat (length (filter f (orders db))).

(** [ORDER BY created_at DESC]: newest first, rows of equal time in table
    order. *)
Fixpoint insert_desc (o : Order.t F) (sorted : list (Order.t F)) : list (Order.t F) :=
  match sorted with
  | [] => [o]
  | x :: rest =>
    if Order.created_at x <? Order.created_at o
    then o :: x :: rest
    else x :: insert_desc o rest
  end.

Definition order_by_created_desc (os : list (Order.t F)) : list (Order.t F) :=
  fold_left (fun sorted o => insert_desc o sorted) os [].

(** [func.sum(Order.total_amount)] then [or 0]: no row gives 0. *)
Definition sum_total_amount (os : list (Order.t F)) : F :=
  match os with
  | [] => of_int 0
  | o :: rest => fold_left (fun acc x => fadd acc (Order.total_amount x)) rest
                   (Order.total_amount o)
  end.

(** [get_order_statistics] has a [try]/[finally] and no [except]: an
    exception raised in its body leaves the method. [globals] is the
    namespace the body is evaluated in. *)
Definition get_order_statistics (globals : list string) (db : DB F)
  : Exn OrderStatistics :=
  let total_orders := count_orders (fun _ => true) db in
  let pending_orders := count_orders (fun o => String.eqb (Order.status o) "pending") db in
  let completed_orders :=
    count_orders (fun o => String.eqb (Order.status o) "delivered") db in
  _ <- lookup_global globals "func" ;;
  let total_revenue :=
    sum_total_amount
      (filter (fun o => String.eqb (Order.payment_status o) "paid") (orders db)) in
  _ <- lookup_global globals "desc" ;;
  let recent_orders := firstn 5 (order_by_created_desc (orders db)) in
  ret (mkStatistics total_orders pending_orders completed_orders total_revenue
         (map (fun o => mkRecent (Order.id o) (Order.order_number o)
                          (Order.total_amount o) (Order.status o)
                          (Order.created_at o))
              recent_orders)).

End OrderService.

(** ** Auth service ([app/services/auth_service.py]) *)

(** [str.split(sep)]: the pieces between the occurrences of [sep]. *)
Fixpoint split_on (sep : ascii) (s : string) : list string :=
  match s with
  | EmptyString => [EmptyString]
  | String c s' =>
    if Ascii.eqb c sep then EmptyString :: split_on sep s'
    else match split_on sep s' with
         | [] => [String c EmptyString]
         | piece :: pieces => String c piece :: pieces
         end
  end.

Section AuthService.
Context {F : Type}.

(** [hashlib.sha256(text.encode()).hexdigest()] *)
Variable sha256_hexdigest : string -> string.

(** The globals of the module the methods are evaluated in. *)
Variable globals : list string.

Definition set_users (db : DB F) (us : list User.t) : DB F :=
  mkDB us (products db) (cart_items db) (orders db) (order_items db).

(** [_hash_password], on the 16 bytes drawn for the salt. *)
Definition _hash_password (password : string) (random_bytes : list Byte.byte) : string :=
  let salt := token_hex random_bytes in
  let password_hash := sha256_hexdigest (password +:+ salt) in
  salt +:+ ":" +:+ password_hash.

(** [_verify_password]: the unpacking of the split raises [ValueError]
    unless there are exactly two pieces, and the handler returns [False]. *)
Definition _verify_password (password hashed_password : string) : bool :=
  match split_on ":" hashed_password with
  | [salt; password_hash] =>
    String.eqb (sha256_hexdigest (password +:+ salt)) password_hash
  | _ => false
  end.

(** [session.add(user); session.commit()]: the INSERT into [users], which
    the unique indexes on [username] and [email] can refuse. *)
Definition flush_user (w : DB F) (user : User.t) : Exn (DB F) :=
  if existsb (fun u => String.eqb (User.username u) (User.username user)) (users w)
  then raise (IntegrityError "users.username")
  else if existsb (fun u => String.eqb (User.email u) (User.email user)) (users w)
  then raise (IntegrityError "users.email")
  else ret (set_users w (users w ++ [user])).

Definition register_body (session : Session F) (username email password : string)
    (full_name : option string) (random_bytes : list Byte.byte) (now : Z)
  : Exn (ServiceResult * option User.t * Session F) :=
  _ <- lookup_global globals "or_" ;;
  match find (fun u => String.eqb (User.username u) username
                       || String.eqb (User.email u) email)
             (users (working session)) with
  | Some existing_user =>
    if String.eqb (User.username existing_user) username
    then ret (failure "Username already exists", None, session)
    else ret (failure "Email already registered", None, session)
  | None =>
    let hashed_password := _hash_password password random_bytes in
    let user :=
      User.mk (next_id (map User.id (users (working session))))
        username email full_name hashed_password true false now in
    w <- flush_user (working session) user ;;
    ret (ok "User registered successfully", Some user, commit (stage session w))
  end.

Definition register_user (db : DB F) (username email password : string)
    (full_name : option string) (random_bytes : list Byte.byte) (now : Z)
  : ServiceResult * option User.t * DB F :=
  let session := get_session db in
  match register_body session username email password full_name random_bytes now with
  | inr (result, user, session) => (result, user, close session)
  | inl e =>
    let session := rollback session in
    (failure ("Registration failed: " +:+ str_exn e), None, close session)
  end.

Definition touch (u : User.t) (now : Z) : User.t :=
  User.mk (User.id u) (User.username u) (User.email u) (User.full_name u)
    (User.hashed_password u) (User.is_active u) (User.is_admin u) now.

Definition authenticate_body (session : Session F) (username password : string) (now : Z)
  : Exn (ServiceResult * option User.t * Session F) :=
  _ <- lookup_global globals "or_" ;;
  let is_user u :=
    (String.eqb (User.username u) username || String.eqb (User.email u) username)
    && User.is_active u in
  match find is_user (users (working session)) with
  | None => ret (failure "Invalid credentials", None, session)
  | Some user =>
    if negb (_verify_password password (User.hashed_password user))
    then ret (failure "Invalid credentials", None, session)
    else
      let us := update_first is_user (fun u => touch u now) (users (working session)) in
      let session := commit (stage session (set_users (working session) us)) in
      ret (ok "Authentication successful", Some (touch user now), session)
  end.

Definition authenticate_user (db : DB F) (username password : string) (now : Z)
  : ServiceResult * option User.t * DB F :=
  let session := get_session db in
  match authenticate_body session username password now with
  | inr (result, user, session) => (result, user, close session)
  | inl e => (failure ("Authentication failed: " +:+ str_exn e), None, close session)
  end.

Definition create_admin_user (db : DB F) (random_bytes : list Byte.byte) (now : Z)
  : ServiceResult * DB F :=
  let session := get_session db in
  match find User.is_admin (users (working session)) with
  | Some _ => (failure "Admin user already exists", close session)
  | None =>
    let admin_password := "admin123" in
    let hashed_password := _hash_password admin_password random_bytes in
    let admin :=
      User.mk (next_id (map User.id (users (working session))))
        "admin" "admin@casio-watches.com" (Some "Administrator"%string)
        hashed_password true true now in
    match flush_user (working session) admin with
    | inr w => (ok "Admin user created successfully", close (commit (stage session w)))
    | inl e =>
      (failure ("Admin creation failed: " +:+ str_exn e), close (rollback session))
    end
  end.

End AuthService.

(** ** Operation sequences *)

(** One call into the services, with the values the environment supplies
    to it (the date, the clock and the random bytes). *)
Inductive Op : Type :=
| OpAdd (user_id product_id quantity : Z)
| OpSetQuantity (user_id product_id quantity : Z)
| OpRemove (user_id product_id : Z)
| OpClear (user_id : Z)
| OpCheckout (user_id : Z) (shipping_info : ShippingInfo) (payment_method : string)
             (today : Date) (random_bytes : list Byte.byte) (now : Z)
| OpCancel (order_id : Z) (user_id : option Z) (now : Z)
| OpUpdateStock (product_id quantity_change : Z).

Section Run.
Context {F : Type} {arith : Arith F}.

(** The database a call leaves. *)
Definition step (db : DB F) (op : Op) : DB F :=
  match op with
  | OpAdd u p q => snd (add_to_cart db u p q)
  | OpSetQuantity u p q => snd (update_cart_item_quantity db u p q)
  | OpRemove u p => snd (remove_from_cart db u p)
  | OpClear u => snd (clear_cart db u)
  | OpCheckout u info pm today rb now =>
    snd (create_order_from_cart db u info pm today rb now)
  | OpCancel o u now => snd (cancel_order db o u now)
  | OpUpdateStock p d => snd (update_stock db p d)
  end.

(** Calls executed one after the other. *)
Definition run (db : DB F) (ops : list Op) : DB F := fold_left step ops db.

End Run.

(** ** The summary, as a function of the joined rows *)

Section SummarySpec.
Context {F : Type} {arith : Arith F}.

(** The cart rows of a user joined with the active products. *)
Definition joined_rows (db : DB F) (user_id : Z) : list (CartItem.t * Product.t F) :=
  omap (fun c => match active_product db (CartItem.product_id c) with
                 | Some p => Some (c, p)
                 | None => None
                 end)
       (filter (in_cart_of user_id) (cart_items db)).

Definition line_of (row : CartItem.t * Product.t F) : CartLine F :=
  let (c, p) := row in
  mkLine (CartItem.id c) (CartItem.product_id c) (Product.name p) (Product.model p)
    (Product.price p) (Product.primary_image_url p) (CartItem.quantity c)
    (fmul (Product.price p) (of_int (CartItem.quantity c)))
    (Product.stock_quantity p).

(** The sum of price x quantity over the joined rows, not rounded. *)
Definition raw_subtotal (rows : list (CartItem.t * Product.t F)) : F :=
  fold_left (fun acc row =>
               fadd acc (fmul (Product.price (snd row))
                              (of_int (CartItem.quantity (fst row)))))
            rows (of_int 0).

Definition raw_tax (rows : list (CartItem.t * Product.t F)) : F :=
  fmul (raw_subtotal rows) (of_literal (8 # 100)).

Definition raw_shipping (rows : list (CartItem.t * Product.t F)) : F :=
  if fge (raw_subtotal rows) (of_int 100) then of_literal 0 else of_literal (999 # 100).

Definition raw_total (rows : list (CartItem.t * Product.t F)) : F :=
  fadd (fadd (raw_subtotal rows) (raw_tax rows)) (raw_shipping rows).

(** The amount still needed for free shipping: [max(0, 100 - subtotal)]
    below 100, else 0, on the subtotal that is not rounded. *)
Definition raw_remaining (rows : list (CartItem.t * Product.t F)) : F :=
  if flt (raw_subtotal rows) (of_int 100)
  then (if flt (of_int 0) (fsub (of_int 100) (raw_subtotal rows))
        then fsub (of_int 100) (raw_subtotal rows)
        else of_int 0)
  else of_int 0.

(** The four totals are rounded where the result is built; the amount
    needed for free shipping is returned as computed. *)
Definition summary_of_rows (rows : list (CartItem.t * Product.t F)) : CartSummary F :=
  mkSummary (map line_of rows)
    (fold_left Z.add (map (fun row => CartItem.quantity (fst row)) rows) 0)
    (round2 (raw_subtotal rows))
    (round2 (raw_tax rows))
    (round2 (raw_shipping rows))
    (round2 (raw_total rows))
    (fge (raw_subtotal rows) (of_int 100))
    (raw_remaining rows).

End SummarySpec.

(** Every monetary value of a summary, the amount needed for free shipping
    included, is a multiple of 0.01. *)
Definition all_money_rounded (s : CartSummary Q) : Prop :=
  (subtotal s == Qround2 (subtotal s))%Q /\
  (tax_amount s == Qround2 (tax_amount s))%Q /\
  (shipping_amount s == Qround2 (shipping_amount s))%Q /\
  (total_amount s == Qround2 (total_amount s))%Q /\
  (free_shipping_remaining s == Qround2 (free_shipping_remaining s))%Q.

(** ** Further methods of the services *)

(** The columns of [orders] that [Order.t] does not carry, kept row for
    row beside the table; a row without an entry has them all NULL, as the
    INSERT of [create_order_from_cart] leaves them. *)
Record OrderExtra : Type := mkExtra {
  payment_reference : option string;
  shipped_at : option Z;
  delivered_at : option Z
}.

Definition no_extra : OrderExtra := mkExtra None None None.

(** [if payment_reference:] on an [Optional[str]]: [None] and the empty
    string are both false. *)
Definition truthy_str (s : option string) : bool :=
  match s with
  | Some EmptyString => false
  | Some _ => true
  | None => false
  end.

Definition valid_statuses : list string :=
  ["pending"; "confirmed"; "processing"; "shipped"; "delivered"; "cancelled"]%string.

Section OrderStatus.
Context {F : Type}.

(** The writes of [update_order_status] to the columns of [Order.t]. *)
Definition set_order_status (o : Order.t F) (status : string)
    (reference : option string) (now : Z) : Order.t F :=
  Order.mk (Order.id o) (Order.order_number o) (Order.user_id o)
    (Order.total_amount o) (Order.tax_amount o) (Order.shipping_amount o)
    (Order.discount_amount o) status
    (if truthy_str reference then "paid"%string else Order.payment_status o)
    (Order.payment_method o) (Order.shipping o) (Order.created_at o) now.

(** The writes of [update_order_status] to the other columns; [stamped] is
    the second reading of the clock. *)
Definition stamp_extra (x : OrderExtra) (status : string)
    (reference : option string) (stamped : Z) : OrderExtra :=
  mkExtra
    (if truthy_str reference then reference else payment_reference x)
    (if String.eqb status "shipped" then Some stamped else shipped_at x)
    (if String.eqb status "shipped" then delivered_at x
     else if String.eqb status "delivered" then Some stamped else delivered_at x).

(** The entry beside the first row that satisfies [f] is replaced. *)
Fixpoint update_extra (f : Order.t F -> bool) (g : OrderExtra -> OrderExtra)
    (os : list (Order.t F)) (extra : list OrderExtra) : list OrderExtra :=
  match os with
  | [] => extra
  | o :: os' =>
    if f o then g (hd no_extra extra) :: tl extra
    else hd no_extra extra :: update_extra f g os' (tl extra)
  end.

(** The entry beside the first row that satisfies [f]. *)
Fixpoint extra_of (f : Order.t F -> bool) (os : list (Order.t F))
    (extra : list OrderExtra) : option OrderExtra :=
  match os with
  | [] => None
  | o :: os' =>
    if f o then Some (hd no_extra extra) else extra_of f os' (tl extra)
  end.

Definition has_id (order_id : Z) (o : Order.t F) : bool := Order.id o =? order_id.

Definition update_order_status (db : DB F) (extra : list OrderExtra)
    (order_id : Z) (status : string) (reference : option string) (now stamped : Z)
  : ServiceResult * DB F * list OrderExtra :=
  let session := get_session db in
  match find (has_id order_id) (orders (working session)) with
  | None => (failure "Order not found", close session, extra)
  | Some _ =>
    if negb (existsb (String.eqb status) valid_statuses)
    then (failure "Invalid status", close session, extra)
    else
      let os := update_first (has_id order_id)
                  (fun o => set_order_status o status reference now)
                  (orders (working session)) in
      let extra' := update_extra (has_id order_id)
                      (fun x => stamp_extra x status reference stamped)
                      (orders (working session)) extra in
      let session := commit (stage session (set_orders (working session) os)) in
      (ok ("Order status updated to " +:+ status), close session, extra')
  end.

(** [ProductService.check_stock_availability] *)
Definition check_stock_availability (db : DB F) (product_id requested_quantity : Z)
  : bool :=
  match products db !! product_id with
  | None => false
  | Some product => Product.stock_quantity product >=? requested_quantity
  end.

End OrderStatus.

Section AuthAccount.
Context {F : Type}.

(** [hashlib.sha256(text.encode()).hexdigest()] *)
Variable sha256_hexdigest : string -> string.

Definition has_user_id (user_id : Z) (u : User.t) : bool := User.id u =? user_id.

Definition set_password (u : User.t) (hashed_password : string) (now : Z) : User.t :=
  User.mk (User.id u) (User.username u) (User.email u) (User.full_name u)
    hashed_password (User.is_active u) (User.is_admin u) now.

Definition change_password (db : DB F) (user_id : Z)
    (current_password new_password : string)
    (random_bytes : list Byte.byte) (now : Z) : ServiceResult * DB F :=
  let session := get_session db in
  match find (has_user_id user_id) (users (working session)) with
  | None => (failure "User not found", close session)
  | Some user =>
    if negb (_verify_password sha256_hexdigest current_password
               (User.hashed_password user))
    then (failure "Current password is incorrect", close session)
    else
      let hashed := _hash_password sha256_hexdigest new_password random_bytes in
      let us := update_first (has_user_id user_id)
                  (fun u => set_password u hashed now)
                  (users (working session)) in
      let session := commit (stage session (set_users (working session) us)) in
      (ok "Password changed successfully", close session)
  end.

Definition set_profile (u : User.t) (email : string) (full_name : option string)
    (now : Z) : User.t :=
  User.mk (User.id u) (User.username u) email
    (match full_name with Some n => Some n | None => User.full_name u end)
    (User.hashed_password u) (User.is_active u) (User.is_admin u) now.

(** [email and email != user.email]: the address to write, if any. *)
Definition email_change (user : User.t) (email : option string) : option string :=
  match email with
  | Some e =>
    if negb (String.eqb e EmptyString) && negb (String.eqb e (User.email user))
    then Some e else None
  | None => None
  end.

(** [filter(and_(User.email == email, User.id != user_id))] *)
Definition other_with_email (email : string) (user_id : Z) (u : User.t) : bool :=
  String.eqb (User.email u) email && negb (User.id u =? user_id).

Definition update_user_profile (db : DB F) (user_id : Z)
    (email full_name : option string) (now : Z)
  : ServiceResult * option User.t * DB F :=
  let session := get_session db in
  match find (has_user_id user_id) (users (working session)) with
  | None => (failure "User not found", None, close session)
  | Some user =>
    let write new_email :=
      let us := update_first (has_user_id user_id)
                  (fun u => set_profile u new_email full_name now)
                  (users (working session)) in
      let session := commit (stage session (set_users (working session) us)) in
      (ok "Profile updated successfully",
       Some (set_profile user new_email full_name now), close session) in
    match email_change user email with
    | Some e =>
      match find (other_with_email e user_id) (users (working session)) with
      | Some _ => (failure "Email already in use", None, close session)
      | None => write e
      end
    | None => write (User.email user)
    end
  end.

End AuthAccount.

(** ** Listing the orders of a user *)

Section OrderListing.
Context {F : Type}.

(** The rows of [orders] with the columns kept beside them. *)
Fixpoint with_extra (os : list (Order.t F)) (extra : list OrderExtra)
  : list (Order.t F * OrderExtra) :=
  match os with
  | [] => []
  | o :: os' => (o, hd no_extra extra) :: with_extra os' (tl extra)
  end.

(** [ORDER BY created_at DESC] on those rows: newest first, rows of equal
    time in table order. *)
Fixpoint insert_newest (row : Order.t F * OrderExtra)
    (sorted : list (Order.t F * OrderExtra)) : list (Order.t F * OrderExtra) :=
  match sorted with
  | [] => [row]
  | x :: rest =>
    if Order.created_at (fst x) <? Order.created_at (fst row)
    then row :: x :: rest
    else x :: insert_newest row rest
  end.

Definition newest_first (rows : list (Order.t F * OrderExtra))
  : list (Order.t F * OrderExtra) :=
  fold_left (fun sorted row => insert_newest row sorted) rows [].

(** [.offset(offset).limit(limit)] as SQLite reads them: a negative offset
    skips nothing, a negative limit does not limit. *)
Definition page {T : Type} (offset limit : Z) (l : list T) : list T :=
  let rest := skipn (Z.to_nat offset) l in
  if limit <? 0 then rest else firstn (Z.to_nat limit) rest.

(** [len(order.products)]: the association rows of the order whose product
    is in the table. *)
Definition item_count (db : DB F) (order_id : Z) : Z :=
  Z.of_nat (length (filter (fun product_id => bool_decide (is_Some (products db !! product_id)))
                      (order_product_ids db order_id))).

(** [get_user_orders]: an entry is the row of the order, with the columns
    kept beside it, and its [item_count]. *)
Definition get_user_orders (db : DB F) (extra : list OrderExtra)
    (user_id limit offset : Z) : list (Order.t F * OrderExtra * Z) :=
  let rows := filter (fun row => Order.user_id (fst row) =? user_id)
                (with_extra (orders db) extra) in
  map (fun row => (row, item_count db (Order.id (fst row))))
      (page offset limit (newest_first rows)).

End OrderListing.

(** ** Vocabulary of the properties *)

(** The total an add asks for: the quantity of the row already in the cart
    plus the new quantity, or the new quantity alone. *)
Definition requested_total {F : Type} (db : DB F) (user_id product_id quantity : Z) : Z :=
  match find (is_cart_row user_id product_id) (cart_items db) with
  | Some existing_item => CartItem.quantity existing_item + quantity
  | None => quantity
  end.

(** The invariant of the cart table: quantities of at least 1 and at most
    one row per user and product. *)
Definition cart_wf (rows : list CartItem.t) : Prop :=
  Forall (fun c => 1 <= CartItem.quantity c) rows /\
  forall user_id product_id,
    (length (filter (is_cart_row user_id product_id) rows) <= 1)%nat.

(** The units of a product that the rows ask for. *)
Fixpoint units_of (product_id : Z) (rows : list CartItem.t) : Z :=
  match rows with
  | [] => 0
  | c :: rest =>
    (if CartItem.product_id c =? product_id then CartItem.quantity c else 0)
    + units_of product_id rest
  end.

Section CheckoutSpec.
Context {F : Type} {arith : Arith F}.
Variables (db : DB F) (user_id : Z) (shipping_info : ShippingInfo)
          (payment_method : string) (today : Date)
          (random_bytes : list Byte.byte) (now : Z).

(** The rows the loop of the checkout goes through. *)
Definition checkout_lines : list CartItem.t :=
  filter (in_cart_of user_id) (cart_items db).

(** The order a checkout inserts. *)
Definition checkout_order : Order.t F :=
  new_order db (get_cart_summary db user_id) user_id shipping_info
    payment_method today random_bytes now.

(** The database a successful checkout commits, given the products the
    loop leaves and the collection [order.products]. *)
Definition checkout_db (ps : gmap Z (Product.t F)) (appended : list Z) : DB F :=
  mkDB (users db) ps
    (filter (fun c => negb (in_cart_of user_id c)) (cart_items db))
    (orders db ++ [checkout_order])
    (order_items db
     ++ map (fun product_id => (Order.id checkout_order, product_id)) appended).

End CheckoutSpec.

(** Decimal and uppercase hexadecimal digits. *)
Definition is_digit (c : ascii) : bool :=
  let n := N_of_ascii c in ((48 <=? n) && (n <=? 57))%N.

Definition is_upper_hex (c : ascii) : bool :=
  let n := N_of_ascii c in (is_digit c || ((65 <=? n) && (n <=? 70)))%N.

(** "CW", then 8 decimal digits, then 8 uppercase hexadecimal digits. *)
Definition order_number_ok (s : string) : bool :=
  match list_ascii_of_string s with
  | "C"%char :: "W"%char :: rest =>
    (length rest =? 16)%nat
    && forallb is_digit (firstn 8 rest)
    && forallb is_upper_hex (skipn 8 rest)
  | _ => false
  end.

(** The number that decimal digits spell. *)
Definition digits_value (digits : list ascii) : Z :=
  fold_left (fun acc c => acc * 10 + (Z.of_N (N_of_ascii c) - 48)) digits 0.

(** The number spelled by the 8 characters after "CW". *)
Definition order_number_date (s : string) : Z :=
  digits_value (firstn 8 (skipn 2 (list_ascii_of_string s))).

(** How many times a product occurs in a list of product ids. *)
Fixpoint times_in (product_id : Z) (ids : list Z) : Z :=
  match ids with
  | [] => 0
  | i :: rest => (if i =? product_id then 1 else 0) + times_in product_id rest
  end.

(** The product ids that the association rows give to an order. *)
Definition ids_of_order (rows : list (Z * Z)) (order_id : Z) : list Z :=
  map snd (filter (fun row => fst row =? order_id) rows).

(** The product exists and its stock is not negative. *)
Definition stock_ok {F : Type} (ps : gmap Z (Product.t F)) (product_id : Z) : Prop :=
  exists p, ps !! product_id = Some p /\ 0 <= Product.stock_quantity p.

(** The filter of the query of [register_user]. *)
Definition taken (username email : string) (u : User.t) : bool :=
  String.eqb (User.username u) username || String.eqb (User.email u) email.

(** A cart row that the checkout can serve: its product is active and has
    the units in stock. *)
Definition row_in_stock {F : Type} (db : DB F) (c : CartItem.t) : Prop :=
  exists p, active_product db (CartItem.product_id c) = Some p /\
            CartItem.quantity c <= Product.stock_quantity p.

(** A cart row that [get_cart_items] leaves out: its product is missing or
    not active. *)
Definition hidden_row {F : Type} (db : DB F) (c : CartItem.t) : bool :=
  match active_product db (CartItem.product_id c) with
  | Some _ => false
  | None => true
  end.

(** The calls that touch the cart of a user only. *)
Definition is_cart_op (op : Op) : bool :=
  match op with
  | OpAdd _ _ _ | OpSetQuantity _ _ _ | OpRemove _ _ | OpClear _ => true
  | _ => false
  end.

(** The user a cart call is made for. *)
Definition cart_op_user (op : Op) : option Z :=
  match op with
  | OpAdd u _ _ | OpSetQuantity u _ _ | OpRemove u _ | OpClear u => Some u
  | _ => None
  end.

(** Every add of the run asks for at least one unit. *)
Definition adds_positive (ops : list Op) : Prop :=
  Forall (fun op => match op with OpAdd _ _ q => 1 <= q | _ => True end) ops.

(** The keys of the order tables: ids and order numbers are pairwise
    distinct, and so are the rows of the association table. *)
Definition order_keys_ok {F : Type} (db : DB F) : Prop :=
  NoDup (map Order.id (orders db)) /\
  NoDup (map Order.order_number (orders db)) /\
  NoDup (order_items db).

(** Every association row belongs to an order of the table. *)
Definition order_items_owned {F : Type} (db : DB F) : Prop :=
  forall row, In row (order_items db) -> In (fst row) (map Order.id (orders db)).

(** No colon in a text. *)
Definition colon_free (s : string) : Prop :=
  ~ In ":"%char (list_ascii_of_string s).

(** The number of colons in a text. *)
Definition colons (s : string) : nat :=
  length (filter (fun c => Ascii.eqb c ":") (list_ascii_of_string s)).

(** The value of an uppercase hexadecimal digit. *)
Definition unhex (c : ascii) : N :=
  let n := N_of_ascii c in if (n <? 58)%N then (n - 48)%N else (n - 55)%N.

(** The bytes that a text of uppercase hexadecimal digits spells, two
    digits per byte. *)
Fixpoint decode_hex (s : string) : option (list Byte.byte) :=
  match s with
  | EmptyString => Some []
  | String c1 (String c2 rest) =>
    match Byte.of_N (16 * unhex c1 + unhex c2), decode_hex rest with
    | Some b, Some bytes => Some (b :: bytes)
    | _, _ => None
    end
  | String _ EmptyString => None
  end.

(** A text without its first [n] characters. *)
Fixpoint drop_chars (n : nat) (s : string) : string :=
  match n, s with
  | O, _ => s
  | S n', String _ s' => drop_chars n' s'
  | S _, EmptyString => EmptyString
  end.

(** What no call changes in an order once it is created. *)
Definition order_core {F : Type} (o : Order.t F)
  : Z * string * Z * F * F * F * F * string * Z :=
  (Order.id o, Order.order_number o, Order.user_id o, Order.total_amount o,
   Order.tax_amount o, Order.shipping_amount o, Order.discount_amount o,
   Order.payment_method o, Order.created_at o).

(** A list of times that never goes up. *)
Fixpoint descending (times : list Z) : Prop :=
  match times with
  | [] => True
  | t :: rest => Forall (fun t' => t' <= t) rest /\ descending rest
  end.

(** The creation time of a row of [orders]. *)
Definition row_time {F : Type} (row : Order.t F * OrderExtra) : Z :=
  Order.created_at (fst row).

(** The creation time of an entry of [get_user_orders]. *)
Definition entry_created_at {F : Type} (entry : Order.t F * OrderExtra * Z) : Z :=
  Order.created_at (fst (fst entry)).

(** ** Sample data *)

Definition sample_shipping : ShippingInfo :=
  mkShipping "Alice" "alice@x.com" "" "1 Main St" "Springfield" "IL" "62701" "USA".

Definition sample_date : Date := mkDate 2026 11 3.

Definition sample_bytes : list Byte.byte := [Byte.x00; Byte.xab; Byte.xff; Byte.x1f].

(** A watch priced 0.125 with 5 in stock, as product 7. *)
Definition sample_watch : Product.t Q :=
  Product.mk "GA-2100" "GA-2100-1A" (1 # 8)%Q 5 "ga2100.jpg" true.

Definition sample_db : DB Q := mkDB [] {[ 7 := sample_watch ]} [] [] [].

(** User 1 holds one watch in the cart. *)
Definition sample_cart_db : DB Q :=
  mkDB [] {[ 7 := sample_watch ]} [CartItem.mk 1 1 7 1] [] [].

(** Two cart rows of user 1 for the same product, 3 units each: a state the
    tables admit, since [cart_items] has no unique index on the pair. *)
Definition sample_double_db : DB Q :=
  mkDB [] {[ 7 := sample_watch ]} [CartItem.mk 1 1 7 3; CartItem.mk 2 1 7 3] [] [].

(** Order 1 of user 1, pending, holding product 7. *)
Definition sample_order : Order.t Q :=
  Order.mk 1 "CW2026110300ABFF1F" 1 (1012 # 100)%Q (1 # 100)%Q (999 # 100)%Q 0%Q
    "pending" "pending" "stripe" sample_shipping 100 100.

Definition sample_order_db : DB Q :=
  mkDB [] {[ 7 := Product.set_stock_quantity sample_watch 2 ]} [] [sample_order] [(1, 7)].

(** A stand-in for the digest in executable examples. *)
Definition sample_digest (text : string) : string := "h(" +:+ text +:+ ")".

(** The watch withdrawn from sale while user 1 holds one in the cart. *)
Definition sample_inactive_db : DB Q :=
  mkDB []
    {[ 7 := Product.mk "GA-2100" "GA-2100-1A" (1 # 8)%Q 5 "ga2100.jpg" false ]}
    [CartItem.mk 1 1 7 1] [] [].

(** Users 1 and 2 each hold watches in the cart. *)
Definition sample_two_carts_db : DB Q :=
  mkDB [] {[ 7 := sample_watch ]} [CartItem.mk 1 1 7 2; CartItem.mk 2 2 7 1] [] [].

(** User 1 holds three watches in the cart. *)
Definition sample_three_db : DB Q :=
  mkDB [] {[ 7 := sample_watch ]} [CartItem.mk 1 1 7 3] [] [].

(** The sample order once cancelled. *)
Definition sample_cancelled_db : DB Q :=
  mkDB [] {[ 7 := Product.set_stock_quantity sample_watch 3 ]} []
    [Order.set_status sample_order "cancelled" 200] [(1, 7)].

(** The users table after [create_admin_user], and with a second user. *)
Definition sample_admin : User.t :=
  User.mk 1 "admin" "admin@casio-watches.com" (Some "Administrator"%string)
    (_hash_password sample_digest "admin123" sample_bytes) true true 0.

Definition sample_bob : User.t :=
  User.mk 2 "bob" "bob@x.com" None
    (_hash_password sample_digest "pw2" sample_bytes) false false 0.

Definition sample_users_db : DB Q := mkDB [sample_admin; sample_bob] ∅ [] [] [].

(** Two orders of user 1, made at times 100 and 150, and one of user 2. *)
Definition sample_orders_db : DB Q :=
  mkDB [] {[ 7 := sample_watch ]} []
    [sample_order;
     Order.mk 2 "CW2026110300000002" 2 (1012 # 100)%Q (1 # 100)%Q (999 # 100)%Q 0%Q
       "pending" "pending" "stripe" sample_shipping 120 120;
     Order.mk 3 "CW2026110300000003" 1 (1012 # 100)%Q (1 # 100)%Q (999 # 100)%Q 0%Q
       "pending" "pending" "stripe" sample_shipping 150 150]
    [(1, 7); (3, 7)].

(** * Properties *)

(** ** The cart summary *)

Section SummaryFacts.
Context {F : Type} {arith : Arith F}.

Lemma get_cart_items_joined (db : DB F) (user_id : Z) :
  get_cart_items db user_id = map line_of (joined_rows db user_id).
Proof.
  unfold get_cart_items, joined_rows.
  induction (filter (in_cart_of user_id) (cart_items db)) as [|c l IH]; [reflexivity|].
  cbn [omap list_omap]. unfold cart_line at 1, active_product at 1.
  destruct (products db !! CartItem.product_id c) as [p|]; [|exact IH].
  destruct (Product.is_active p); [|exact IH].
  cbn [map line_of]. now rewrite <- IH.
Qed.

Lemma sum_float_lines (rows : list (CartItem.t * Product.t F)) (acc : F) :
  fold_left fadd (map line_subtotal (map line_of rows)) acc =
  fold_left (fun a row => fadd a (fmul (Product.price (snd row))
                                       (of_int (CartItem.quantity (fst row)))))
            rows acc.
Proof.
  revert acc. induction rows as [|[c p] rows IH]; intros acc; [reflexivity|].
  cbn. apply IH.
Qed.

Lemma sum_int_lines (rows : list (CartItem.t * Product.t F)) :
  map line_quantity (map line_of rows) =
  map (fun row => CartItem.quantity (fst row)) rows.
Proof.
  induction rows as [|[c p] rows IH]; [reflexivity|]. cbn. now rewrite IH.
Qed.

End SummaryFacts.

(** C3, as amended. For every arithmetic, database and user, the summary is
    a function of the user's cart rows joined with the active products:
    [total_items] is the sum of the quantities; [subtotal], [tax_amount],
    [shipping_amount] and [total_amount] are [round2] of, in turn, the sum
    of price x quantity, that sum x 0.08, 0 if that sum >= 100 else 9.99,
    and the sum of those three, none of them rounded before;
    [free_shipping_eligible] is [sum >= 100]; and
    [free_shipping_remaining] is [max(0, 100 - sum)] below 100, else 0,
    returned without rounding. *)
Theorem get_cart_summary_of_rows {F : Type} {arith : Arith F} (db : DB F) (user_id : Z) :
  get_cart_summary db user_id = summary_of_rows (joined_rows db user_id).
Proof.
  unfold get_cart_summary, summary_of_rows.
  rewrite get_cart_items_joined.
  unfold sum_float, sum_int. rewrite sum_float_lines, sum_int_lines.
  reflexivity.
Qed.

(** C3, the claim as stated, fails: with one watch priced 0.125 in the cart
    the amount needed for free shipping is 99.875, which is not a multiple
    of 0.01. *)
Lemma get_cart_summary_remaining_not_rounded :
  ~ all_money_rounded (get_cart_summary sample_cart_db 1).
Proof.
  intros (_ & _ & _ & _ & H). vm_compute in H. discriminate H.
Qed.

(** The scenario of the specification: a subtotal of 95.00 leaves 9.99 of
    shipping and 5.00 to go; 120.00 ships free. *)
Example summary_95 :
  let db : DB Q :=
    mkDB [] {[ 1 := Product.mk "A" "A-1" 95%Q 9 "" true ]} [CartItem.mk 1 1 1 1] [] [] in
  let s := get_cart_summary db 1 in
  (shipping_amount s == 999 # 100)%Q /\ (free_shipping_remaining s == 5)%Q /\
  free_shipping_eligible s = false.
Proof. vm_compute. repeat split; discriminate. Qed.

Example summary_120 :
  let db : DB Q :=
    mkDB [] {[ 1 := Product.mk "A" "A-1" 120%Q 9 "" true ]} [CartItem.mk 1 1 1 1] [] [] in
  let s := get_cart_summary db 1 in
  (shipping_amount s == 0)%Q /\ (free_shipping_remaining s == 0)%Q /\
  free_shipping_eligible s = true.
Proof. vm_compute. repeat split; discriminate. Qed.

(** ** Rows found first, replaced and deleted *)

Section ListFacts.
Context {T : Type}.
Implicit Types (f p : T -> bool) (g : T -> T) (l : list T).

Lemma filter_cons_bool f x l :
  filter f (x :: l) = if f x then x :: filter f l else filter f l.
Proof. rewrite filter_cons. destruct (f x); reflexivity. Qed.

Lemma filter_app_bool f l l' : filter f (l ++ l') = filter f l ++ filter f l'.
Proof.
  induction l as [|x l IH]; [reflexivity|].
  cbn [app]. rewrite !filter_cons_bool, IH. now destruct (f x).
Qed.

Lemma find_none_filter f l : find f l = None -> filter f l = [].
Proof.
  induction l as [|x l IH]; [reflexivity|]. cbn [find].
  rewrite filter_cons_bool. destruct (f x); [discriminate|exact IH].
Qed.

Lemma find_some_in f l x : find f l = Some x -> In x l /\ f x = true.
Proof. apply find_some. Qed.

Lemma find_app_none f l l' : find f l = None -> find f (l ++ l') = find f l'.
Proof.
  induction l as [|x l IH]; [reflexivity|]. cbn [find app].
  destruct (f x); [discriminate|exact IH].
Qed.

Lemma update_first_app_none f g l l' :
  find f l = None -> update_first f g (l ++ l') = l ++ update_first f g l'.
Proof.
  induction l as [|x l IH]; [reflexivity|]. cbn [find app update_first].
  destruct (f x); [discriminate|]. intros H. now rewrite IH.
Qed.

Lemma filter_negb_none f l : find f l = None -> filter (fun x => negb (f x)) l = l.
Proof.
  induction l as [|x l IH]; [reflexivity|]. cbn [find].
  rewrite filter_cons_bool. destruct (f x); [discriminate|].
  intros H. cbn. now rewrite IH.
Qed.

(** Replacing a row by one that [p] cannot tell from it leaves the number
    of rows [p] selects. *)
Lemma filter_update_first_length p f g l :
  (forall x, p (g x) = p x) ->
  length (filter p (update_first f g l)) = length (filter p l).
Proof.
  intros Hg. induction l as [|x l IH]; [reflexivity|]. cbn [update_first].
  destruct (f x); rewrite !filter_cons_bool.
  - rewrite Hg. now destruct (p x).
  - destruct (p x); cbn [length]; now rewrite IH.
Qed.

Lemma filter_delete_first_length p f l :
  (length (filter p (delete_first f l)) <= length (filter p l))%nat.
Proof.
  induction l as [|x l IH]; [reflexivity|]. cbn [delete_first].
  destruct (f x); rewrite !filter_cons_bool.
  - destruct (p x); cbn [length]; lia.
  - destruct (p x); cbn [length]; lia.
Qed.

Lemma filter_filter_length p f l :
  (length (filter p (filter f l)) <= length (filter p l))%nat.
Proof.
  induction l as [|x l IH]; [reflexivity|].
  rewrite !filter_cons_bool.
  destruct (f x); rewrite ?filter_cons_bool; destruct (p x); cbn [length]; lia.
Qed.

Lemma Forall_update_first (P : T -> Prop) f g l :
  Forall P l -> (forall x, In x l -> f x = true -> P (g x)) ->
  Forall P (update_first f g l).
Proof.
  induction l as [|x l IH]; intros Hl Hg; [constructor|].
  apply Forall_cons_iff in Hl. destruct Hl as [Hx Hl]. cbn [update_first].
  destruct (f x) eqn:Hfx.
  - apply Forall_cons_iff. split; [apply Hg; [now left|exact Hfx]|exact Hl].
  - apply Forall_cons_iff. split; [exact Hx|].
    apply IH; [exact Hl|]. intros y Hy. apply Hg. now right.
Qed.

Lemma Forall_delete_first (P : T -> Prop) f l :
  Forall P l -> Forall P (delete_first f l).
Proof.
  induction l as [|x l IH]; intros Hl; [constructor|].
  apply Forall_cons_iff in Hl. destruct Hl as [Hx Hl]. cbn [delete_first].
  destruct (f x); [exact Hl|]. apply Forall_cons_iff. split; [exact Hx|now apply IH].
Qed.

Lemma Forall_filter_bool (P : T -> Prop) f l : Forall P l -> Forall P (filter f l).
Proof.
  induction l as [|x l IH]; intros Hl; [constructor|].
  apply Forall_cons_iff in Hl. destruct Hl as [Hx Hl].
  rewrite filter_cons_bool. destruct (f x); [|now apply IH].
  apply Forall_cons_iff. split; [exact Hx|now apply IH].
Qed.

End ListFacts.

(** ** Adding to the cart *)


Section CartFacts.
Context {F : Type} {arith : Arith F}.

Lemma is_cart_row_set_quantity u p c n :
  is_cart_row u p (CartItem.set_quantity c n) = is_cart_row u p c.
Proof. reflexivity. Qed.

Lemma active_product_set_cart_items (db : DB F) rows product_id :
  active_product (set_cart_items db rows) product_id = active_product db product_id.
Proof. reflexivity. Qed.

(** An add that asks for more than the stock fails and changes nothing. *)
Lemma add_to_cart_insufficient (db : DB F) user_id product_id product quantity :
  active_product db product_id = Some product ->
  Product.stock_quantity product < requested_total db user_id product_id quantity ->
  add_to_cart db user_id product_id quantity = (failure "Insufficient stock", db).
Proof.
  intros Hactive Hlt. unfold add_to_cart, requested_total in *.
  cbn [get_session working close committed]. rewrite Hactive.
  destruct (Product.stock_quantity product <? quantity) eqn:Hq; [reflexivity|].
  destruct (find (is_cart_row user_id product_id) (cart_items db)) as [e|].
  - apply Z.ltb_lt in Hlt. now rewrite Hlt.
  - apply Z.ltb_ge in Hq. lia.
Qed.

(** The first add of a product the user does not hold appends a row. *)
Lemma add_to_cart_new_row (db : DB F) user_id product_id product quantity :
  active_product db product_id = Some product ->
  find (is_cart_row user_id product_id) (cart_items db) = None ->
  quantity <= Product.stock_quantity product ->
  add_to_cart db user_id product_id quantity =
  (ok "Item added to cart",
   set_cart_items db
     (cart_items db ++
      [CartItem.mk (next_id (map CartItem.id (cart_items db)))
         user_id product_id quantity])).
Proof.
  intros Hactive Hfind Hq. unfold add_to_cart.
  cbn [get_session working close committed]. rewrite Hactive.
  apply Z.ltb_ge in Hq. rewrite Hq, Hfind. reflexivity.
Qed.

(** An add of a product the user holds replaces the quantity of the row
    by the sum. *)
Lemma add_to_cart_existing_row (db : DB F) user_id product_id product existing quantity :
  active_product db product_id = Some product ->
  find (is_cart_row user_id product_id) (cart_items db) = Some existing ->
  quantity <= Product.stock_quantity product ->
  CartItem.quantity existing + quantity <= Product.stock_quantity product ->
  add_to_cart db user_id product_id quantity =
  (ok "Item added to cart",
   set_cart_items db
     (update_first (is_cart_row user_id product_id)
        (fun c => CartItem.set_quantity c (CartItem.quantity existing + quantity))
        (cart_items db))).
Proof.
  intros Hactive Hfind Hq Hsum. unfold add_to_cart.
  cbn [get_session working close committed]. rewrite Hactive.
  apply Z.ltb_ge in Hq, Hsum. rewrite Hq, Hfind, Hsum. reflexivity.
Qed.

End CartFacts.

(** C4. For an active product that the user does not hold yet, adding [q1]
    and then [q2], each of them and their sum within the stock (so for all
    non-negative [q1] and [q2] with [q1 + q2] within the stock), succeeds
    twice and leaves exactly one row for the pair, of quantity [q1 + q2],
    the other rows being as before. And an add whose requested total
    (quantity in the cart plus the new quantity when a row exists, else the
    new quantity) exceeds the stock fails with "Insufficient stock" and
    leaves the database, the existing row included, unchanged. *)
Theorem add_to_cart_twice_merges {F : Type} {arith : Arith F}
    (db : DB F) (user_id product_id : Z) (product : Product.t F) (q1 q2 : Z)
    (Hactive : active_product db product_id = Some product) :
  (find (is_cart_row user_id product_id) (cart_items db) = None ->
   q1 <= Product.stock_quantity product ->
   q2 <= Product.stock_quantity product ->
   q1 + q2 <= Product.stock_quantity product ->
   exists db1 db2 row,
     add_to_cart db user_id product_id q1 = (ok "Item added to cart", db1) /\
     add_to_cart db1 user_id product_id q2 = (ok "Item added to cart", db2) /\
     filter (is_cart_row user_id product_id) (cart_items db2) = [row] /\
     CartItem.quantity row = q1 + q2 /\
     filter (fun c => negb (is_cart_row user_id product_id c)) (cart_items db2)
     = cart_items db) /\
  (forall q,
     Product.stock_quantity product < requested_total db user_id product_id q ->
     add_to_cart db user_id product_id q = (failure "Insufficient stock", db)).
Proof.
  split.
  - intros Hfind H1 H2 H12.
    set (row1 := CartItem.mk (next_id (map CartItem.id (cart_items db)))
                   user_id product_id q1).
    set (db1 := set_cart_items db (cart_items db ++ [row1])).
    assert (Hrow : is_cart_row user_id product_id row1 = true).
    { unfold is_cart_row, row1. cbn. now rewrite !Z.eqb_refl. }
    assert (Hfind1 : find (is_cart_row user_id product_id) (cart_items db1) = Some row1).
    { unfold db1. cbn [cart_items set_cart_items].
      rewrite find_app_none by exact Hfind. cbn [find]. now rewrite Hrow. }
    exists db1, (set_cart_items db1
                   (update_first (is_cart_row user_id product_id)
                      (fun c => CartItem.set_quantity c (CartItem.quantity row1 + q2))
                      (cart_items db1))),
           (CartItem.set_quantity row1 (q1 + q2)).
    split; [now apply (add_to_cart_new_row db user_id product_id product)|].
    split.
    { apply (add_to_cart_existing_row db1 user_id product_id product row1);
        [exact Hactive|exact Hfind1|exact H2|exact H12]. }
    unfold db1. cbn [cart_items set_cart_items].
    rewrite update_first_app_none by exact Hfind.
    cbn [update_first]. rewrite Hrow.
    rewrite !filter_app_bool, !filter_cons_bool.
    rewrite is_cart_row_set_quantity, Hrow. cbn [negb].
    rewrite (find_none_filter _ _ Hfind), (filter_negb_none _ _ Hfind).
    repeat split. now rewrite app_nil_r.
  - intros q Hq. now apply (add_to_cart_insufficient db user_id product_id product).
Qed.

(** C4 at product 7 (stock 5): adding 2 and then 3 leaves one row of 5, and
    adding 6 is refused. *)
Lemma add_to_cart_twice_merges_witness :
  (exists db1 db2 row,
     add_to_cart sample_db 1 7 2 = (ok "Item added to cart", db1) /\
     add_to_cart db1 1 7 3 = (ok "Item added to cart", db2) /\
     filter (is_cart_row 1 7) (cart_items db2) = [row] /\
     CartItem.quantity row = 5 /\
     filter (fun c => negb (is_cart_row 1 7 c)) (cart_items db2) = []) /\
  add_to_cart sample_db 1 7 6 = (failure "Insufficient stock", sample_db).
Proof.
  pose proof (add_to_cart_twice_merges sample_db 1 7 sample_watch 2 3 eq_refl) as [H1 H2].
  split.
  - apply H1; [reflexivity|cbn; lia|cbn; lia|cbn; lia].
  - apply H2. cbn. lia.
Defined.

(** The scenario of the specification: stock 5, add 3, add 3 more; the
    second add is refused and the cart keeps 3. *)
Example add_three_then_three :
  let db1 := snd (add_to_cart sample_db 1 7 3) in
  add_to_cart db1 1 7 3 = (failure "Insufficient stock", db1) /\
  map CartItem.quantity (cart_items db1) = [3].
Proof. split; reflexivity. Qed.

(** ** The invariant of the cart table *)

Section CartInvariant.
Context {F : Type} {arith : Arith F}.

Lemma cart_wf_update_first rows u p n :
  cart_wf rows -> 1 <= n ->
  cart_wf (update_first (is_cart_row u p) (fun c => CartItem.set_quantity c n) rows).
Proof.
  intros [Hq Hu] Hn. split.
  - apply Forall_update_first; [exact Hq|]. intros x _ _. exact Hn.
  - intros u' p'. rewrite filter_update_first_length; [apply Hu|].
    intros x. apply is_cart_row_set_quantity.
Qed.

Lemma cart_wf_delete_first rows u p :
  cart_wf rows -> cart_wf (delete_first (is_cart_row u p) rows).
Proof.
  intros [Hq Hu]. split.
  - now apply Forall_delete_first.
  - intros u' p'. etransitivity; [apply filter_delete_first_length|apply Hu].
Qed.

Lemma cart_wf_filter rows (f : CartItem.t -> bool) :
  cart_wf rows -> cart_wf (filter f rows).
Proof.
  intros [Hq Hu]. split.
  - now apply Forall_filter_bool.
  - intros u' p'. etransitivity; [apply filter_filter_length|apply Hu].
Qed.

Lemma cart_wf_append rows id u p n :
  cart_wf rows -> 1 <= n -> find (is_cart_row u p) rows = None ->
  cart_wf (rows ++ [CartItem.mk id u p n]).
Proof.
  intros [Hq Hu] Hn Hfind. split.
  - apply Forall_app. split; [exact Hq|]. constructor; [exact Hn|constructor].
  - intros u' p'. rewrite filter_app_bool, filter_cons_bool, length_app.
    destruct (is_cart_row u' p' (CartItem.mk id u p n)) eqn:Hrow.
    + unfold is_cart_row in Hrow. cbn in Hrow.
      apply andb_true_iff in Hrow. destruct Hrow as [Hu' Hp'].
      apply Z.eqb_eq in Hu', Hp'. subst u' p'.
      rewrite (find_none_filter _ _ Hfind). cbn. lia.
    + cbn. specialize (Hu u' p'). lia.
Qed.

(** Adding a quantity of at least 1 keeps the invariant. *)
Lemma cart_wf_add_to_cart (db : DB F) u p q :
  cart_wf (cart_items db) -> 1 <= q ->
  cart_wf (cart_items (snd (add_to_cart db u p q))).
Proof.
  intros Hwf Hq. unfold add_to_cart. cbn [get_session working close committed].
  destruct (active_product db p) as [product|]; [|exact Hwf].
  destruct (Product.stock_quantity product <? q); [exact Hwf|].
  destruct (find (is_cart_row u p) (cart_items db)) as [e|] eqn:Hfind.
  - destruct (Product.stock_quantity product <? CartItem.quantity e + q); [exact Hwf|].
    cbn. apply cart_wf_update_first; [exact Hwf|].
    apply find_some_in in Hfind. destruct Hfind as [Hin _].
    destruct Hwf as [Hall _]. rewrite List.Forall_forall in Hall.
    specialize (Hall e Hin). cbn in Hall. lia.
  - cbn. now apply cart_wf_append.
Qed.

Lemma cart_wf_remove_from_cart (db : DB F) u p :
  cart_wf (cart_items db) -> cart_wf (cart_items (snd (remove_from_cart db u p))).
Proof.
  intros Hwf. unfold remove_from_cart. cbn [get_session working close committed].
  destruct (find (is_cart_row u p) (cart_items db)); [|exact Hwf].
  cbn. now apply cart_wf_delete_first.
Qed.

(** Setting a quantity keeps the invariant, whatever the quantity: one
    that is not positive removes the row. *)
Lemma cart_wf_update_cart_item_quantity (db : DB F) u p q :
  cart_wf (cart_items db) ->
  cart_wf (cart_items (snd (update_cart_item_quantity db u p q))).
Proof.
  intros Hwf. unfold update_cart_item_quantity.
  cbn [get_session working close committed].
  destruct (q <=? 0) eqn:Hq0; [now apply cart_wf_remove_from_cart|].
  destruct (find (is_cart_row u p) (cart_items db)); [|exact Hwf].
  destruct (products db !! p) as [product|]; [|exact Hwf].
  destruct (Product.stock_quantity product <? q); [exact Hwf|].
  cbn. apply cart_wf_update_first; [exact Hwf|]. apply Z.leb_gt in Hq0. lia.
Qed.

Lemma cart_wf_clear_cart (db : DB F) u :
  cart_wf (cart_items db) -> cart_wf (cart_items (snd (clear_cart db u))).
Proof. intros Hwf. cbn. now apply cart_wf_filter. Qed.

End CartInvariant.

(** C10 fails on the code. [add_to_cart] has no guard on the sign of the
    quantity, unlike [update_cart_item_quantity]: adding 0 units of product
    7 to an empty cart succeeds and leaves a row of quantity 0, so the
    invariant that held before the call does not hold after it. *)
Theorem add_to_cart_zero_breaks_invariant :
  cart_wf (cart_items sample_db) /\
  add_to_cart sample_db 1 7 0 =
    (ok "Item added to cart",
     mkDB [] {[ 7 := sample_watch ]} [CartItem.mk 1 1 7 0] [] []) /\
  ~ cart_wf (cart_items (snd (add_to_cart sample_db 1 7 0))).
Proof.
  split; [|split].
  - split; [constructor|]. intros u p. cbn. lia.
  - reflexivity.
  - intros [Hq _]. apply Forall_cons_iff in Hq. destruct Hq as [Hq _].
    cbn in Hq. lia.
Qed.

(** A negative quantity is merged into an existing row as well: adding -5
    to a row of 3 leaves a row of -2. *)
Example add_to_cart_negative_merge :
  let db1 := snd (add_to_cart sample_db 1 7 3) in
  map CartItem.quantity (cart_items (snd (add_to_cart db1 1 7 (-5)))) = [-2].
Proof. reflexivity. Qed.

(** ** Checkout *)


Section CheckoutFacts.
Context {F : Type} {arith : Arith F}.

Lemma flush_order_items_ok table order_id appended rows :
  flush_order_items table order_id appended = inr rows ->
  rows = table ++ map (fun product_id => (order_id, product_id)) appended.
Proof.
  revert table. induction appended as [|pid rest IH]; intros table H; cbn in H.
  - injection H as <-. now rewrite app_nil_r.
  - destruct (existsb (same_pair (order_id, pid)) table); [discriminate|].
    apply IH in H. rewrite H, <- app_assoc. reflexivity.
Qed.

(** When the loop ends without an early return, every product has lost
    the units the rows ask for, and nothing else has changed. *)
Lemma order_lines_stock (rows : list CartItem.t) :
  forall (ps ps' : gmap Z (Product.t F)) appended appended',
  order_lines ps appended rows = inr (inr (ps', appended')) ->
  appended' = appended ++ map CartItem.product_id rows /\
  forall product_id,
    ps' !! product_id =
    (fun p => Product.set_stock_quantity p
                (Product.stock_quantity p - units_of product_id rows))
      <$> ps !! product_id.
Proof.
  induction rows as [|c rest IH]; intros ps ps' appended appended' H; cbn in H.
  - injection H as <- <-. split; [now rewrite app_nil_r|].
    intros pid. cbn. destruct (ps !! pid) as [p|]; [|reflexivity].
    destruct p. unfold Product.set_stock_quantity. cbn.
    now rewrite Z.sub_0_r.
  - destruct (ps !! CartItem.product_id c) as [product|] eqn:Hp; [|discriminate].
    destruct (Product.stock_quantity product <? CartItem.quantity c); [discriminate|].
    apply IH in H. destruct H as [-> H]. split; [now rewrite <- app_assoc|].
    intros pid. rewrite H. cbn [units_of].
    destruct (Z.eqb_spec (CartItem.product_id c) pid) as [<-|Hne].
    + rewrite lookup_insert_eq, Hp. cbn. f_equal.
      unfold Product.set_stock_quantity. cbn. f_equal. lia.
    + rewrite lookup_insert_ne by exact Hne.
      reflexivity.
Qed.

End CheckoutFacts.

Section CheckoutCases.
Context {F : Type} {arith : Arith F}.
Variables (db : DB F) (user_id : Z) (shipping_info : ShippingInfo)
          (payment_method : string) (today : Date)
          (random_bytes : list Byte.byte) (now : Z).

Local Abbreviation checkout_lines := (checkout_lines db user_id).
Local Abbreviation checkout_order :=
  (checkout_order db user_id shipping_info payment_method today random_bytes now).
Local Abbreviation checkout_db :=
  (checkout_db db user_id shipping_info payment_method today random_bytes now).

(** A checkout either fails and leaves the database as it was, or the
    loop went through every row and the order, the stock of every line
    and the emptied cart are committed at once. *)
Lemma create_order_from_cart_cases :
  (exists msg,
     create_order_from_cart db user_id shipping_info payment_method today
       random_bytes now = (failure msg, None, db)) \/
  (exists ps appended,
     order_lines (products db) [] checkout_lines = inr (inr (ps, appended)) /\
     create_order_from_cart db user_id shipping_info payment_method today
       random_bytes now =
     (ok "Order created successfully", Some checkout_order, checkout_db ps appended)).
Proof.
  unfold create_order_from_cart.
  destruct (valid (validate_cart_for_checkout db user_id)); cbn [negb];
    [|left; eexists; reflexivity].
  destruct (items (get_cart_summary db user_id)); [left; eexists; reflexivity|].
  unfold create_order_body. cbn [get_session working committed stage].
  fold checkout_order. unfold flush_order.
  destruct (existsb _ (orders db)); cbn [bind raise ret];
    [left; eexists; reflexivity|].
  cbn [set_orders cart_items products]. fold checkout_lines.
  destruct (order_lines (products db) [] checkout_lines)
    as [e|[msg|[ps appended]]]; cbn [bind];
    [left; eexists; reflexivity|left; eexists; reflexivity|].
  cbn [set_orders set_products set_cart_items set_order_items working committed
       stage commit get_session order_items cart_items users products orders].
  destruct (flush_order_items (order_items db) (Order.id checkout_order) appended)
    as [e|rows] eqn:Hflush; cbn [bind ret];
    [left; eexists; reflexivity|].
  right. exists ps, appended. split; [reflexivity|].
  apply flush_order_items_ok in Hflush. subst rows. reflexivity.
Qed.

(** A row that fails the stock check inside the loop makes the checkout
    fail. *)
Lemma create_order_from_cart_recheck msg :
  order_lines (products db) [] checkout_lines = inr (inl msg) ->
  success (fst (fst (create_order_from_cart db user_id shipping_info payment_method
                       today random_bytes now))) = false.
Proof.
  intros Hloop. destruct create_order_from_cart_cases as [[m ->]|(ps & app & H & _)].
  - reflexivity.
  - rewrite Hloop in H. discriminate H.
Qed.

End CheckoutCases.

(** C1. A checkout is all or nothing. Whenever the call returns a failure,
    and so whenever a line fails the stock check inside the loop, the
    database after the call is the database before it: no stock has
    changed, no order row exists, the cart is as it was. Whenever it returns
    a success, the loop went through every line of the user, and the
    committed database differs from the old one in exactly the new order
    row, one association row per line, the stock of every product lowered by
    the units of its lines, and the rows of the user removed from the
    cart. *)
Theorem create_order_all_or_nothing {F : Type} {arith : Arith F}
    (db db' : DB F) (user_id : Z) (shipping_info : ShippingInfo)
    (payment_method : string) (today : Date) (random_bytes : list Byte.byte) (now : Z)
    (result : ServiceResult) (order : option (Order.t F))
    (Hcall : create_order_from_cart db user_id shipping_info payment_method today
               random_bytes now = (result, order, db')) :
  (forall msg,
     order_lines (products db) [] (checkout_lines db user_id) = inr (inl msg) ->
     success result = false) /\
  (success result = false -> order = None /\ db' = db) /\
  (success result = true ->
   exists o ps appended,
     order = Some o /\
     order_lines (products db) [] (checkout_lines db user_id) = inr (inr (ps, appended)) /\
     users db' = users db /\
     orders db' = orders db ++ [o] /\
     order_items db' =
       order_items db ++ map (fun product_id => (Order.id o, product_id))
                             (map CartItem.product_id (checkout_lines db user_id)) /\
     cart_items db' = filter (fun c => negb (in_cart_of user_id c)) (cart_items db) /\
     products db' = ps /\
     forall product_id,
       products db' !! product_id =
       (fun p => Product.set_stock_quantity p
                   (Product.stock_quantity p
                    - units_of product_id (checkout_lines db user_id)))
         <$> products db !! product_id).
Proof.
  split; [|split].
  - intros msg Hloop.
    pose proof (create_order_from_cart_recheck db user_id shipping_info payment_method
                  today random_bytes now msg Hloop) as H.
    now rewrite Hcall in H.
  - intros Hfail.
    destruct (create_order_from_cart_cases db user_id shipping_info payment_method
                today random_bytes now) as [[m H]|(ps & app & _ & H)];
      rewrite Hcall in H; injection H as -> -> ->.
    + now split.
    + discriminate Hfail.
  - intros Hok.
    destruct (create_order_from_cart_cases db user_id shipping_info payment_method
                today random_bytes now) as [[m H]|(ps & app & Hloop & H)];
      rewrite Hcall in H; injection H as -> -> ->.
    + discriminate Hok.
    + destruct (order_lines_stock _ _ _ _ _ Hloop) as [Happ Hstock].
      simpl in Happ. subst app.
      eexists _, ps, _. repeat split; try reflexivity; [exact Hloop|exact Hstock].
Qed.

(** C1 at a cart with two rows of 3 units of product 7 (stock 5): each row
    passes the validation, the second fails the check inside the loop after
    the first has taken 3 units, and the database is left as it was. *)
Lemma create_order_all_or_nothing_witness :
  create_order_from_cart sample_double_db 1 sample_shipping "stripe" sample_date
    sample_bytes 100
  = (failure "Insufficient stock for GA-2100", None, sample_double_db) /\
  order_lines (products sample_double_db) [] (checkout_lines sample_double_db 1)
  = inr (inl "Insufficient stock for GA-2100"%string) /\
  (success (failure "Insufficient stock for GA-2100") = false ->
   @None (Order.t Q) = None /\ sample_double_db = sample_double_db).
Proof.
  split; [reflexivity|]. split; [reflexivity|].
  exact (proj1 (proj2 (create_order_all_or_nothing sample_double_db sample_double_db 1
                         sample_shipping "stripe" sample_date sample_bytes 100
                         (failure "Insufficient stock for GA-2100") None eq_refl))).
Defined.

(** A checkout that succeeds: one watch leaves the stock, the cart is
    emptied and order 1 is linked to product 7. *)
Example checkout_one_watch :
  let '(result, _, db') :=
    create_order_from_cart sample_cart_db 1 sample_shipping "stripe" sample_date
      sample_bytes 100 in
  success result = true /\
  Product.stock_quantity <$> products db' !! 7 = Some 4 /\
  cart_items db' = [] /\
  map Order.order_number (orders db') = ["CW2026110300ABFF1F"%string] /\
  order_items db' = [(1, 7)].
Proof. vm_compute. repeat split. Qed.

(** ** Order numbers *)


Lemma digit_char_cases (n : Z) :
  0 <= n < 10 ->
  is_digit (digit_char n) = true /\ Z.of_N (N_of_ascii (digit_char n)) - 48 = n.
Proof.
  intros H. destruct n as [|p|p]; [split; reflexivity| |lia].
  do 4 (destruct p as [p|p|]; try lia; try (split; reflexivity)).
Qed.

Lemma is_digit_mod10 (n : Z) : is_digit (digit_char (n mod 10)) = true.
Proof. apply digit_char_cases. apply Z.mod_pos_bound. lia. Qed.

Lemma digit_value_mod10 (n : Z) :
  Z.of_N (N_of_ascii (digit_char (n mod 10))) - 48 = n mod 10.
Proof. apply digit_char_cases. apply Z.mod_pos_bound. lia. Qed.

Lemma upper_hex_byte (b : Byte.byte) :
  is_upper_hex (upper_char (hex_char (Byte.to_N b / 16))) = true /\
  is_upper_hex (upper_char (hex_char (Byte.to_N b mod 16))) = true.
Proof. destruct b; split; reflexivity. Qed.

(** An order number drawn from 4 random bytes has the shape "CW" + 8
    digits + 8 uppercase hexadecimal digits, and for a date with a year of
    four digits the 8 digits spell YYYYMMDD. *)
Lemma generate_order_number_shape (today : Date) (random_bytes : list Byte.byte) :
  length random_bytes = 4%nat ->
  order_number_ok (_generate_order_number today random_bytes) = true /\
  (1000 <= year today <= 9999 -> 1 <= month today <= 12 -> 1 <= day today <= 31 ->
   order_number_date (_generate_order_number today random_bytes)
   = year today * 10000 + month today * 100 + day today).
Proof.
  intros Hlen.
  destruct random_bytes as [|b0 [|b1 [|b2 [|b3 [|? ?]]]]]; try discriminate Hlen.
  destruct today as [y m d]. split.
  - unfold order_number_ok, _generate_order_number, strftime_Ymd.
    cbv [year month day zero_pad String.append token_hex upper list_ascii_of_string].
    cbn [length Nat.eqb firstn skipn forallb andb].
    rewrite !is_digit_mod10.
    destruct (upper_hex_byte b0) as [-> ->], (upper_hex_byte b1) as [-> ->],
             (upper_hex_byte b2) as [-> ->], (upper_hex_byte b3) as [-> ->].
    reflexivity.
  - intros Hy Hm Hd.
    unfold order_number_date, _generate_order_number, strftime_Ymd, digits_value.
    cbv [zero_pad String.append token_hex upper list_ascii_of_string].
    cbn [year month day firstn skipn fold_left] in *.
    rewrite !digit_value_mod10. Z.div_mod_to_equations. lia.
Qed.

Lemma filter_not_then_filter {T : Type} (f : T -> bool) (l : list T) :
  filter f (filter (fun x => negb (f x)) l) = [].
Proof.
  induction l as [|x l IH]; [reflexivity|].
  rewrite filter_cons_bool. destruct (f x) eqn:Hfx; cbn [negb]; [exact IH|].
  rewrite filter_cons_bool, Hfx. exact IH.
Qed.

(** C5. After a checkout that returns a success, the user has no row left
    in the cart, and the order returned is a row of the orders table, owned
    by the user, with status and payment status "pending" and an order
    number made of "CW", 8 decimal digits and 8 uppercase hexadecimal
    digits; the 8 digits spell the date of the call as YYYYMMDD. The date is
    one the clock can return, with a year of four digits, and the entropy
    source returned the 4 bytes asked for. *)
Theorem create_order_success_state {F : Type} {arith : Arith F}
    (db db' : DB F) (user_id : Z) (shipping_info : ShippingInfo)
    (payment_method : string) (today : Date) (random_bytes : list Byte.byte) (now : Z)
    (result : ServiceResult) (order : option (Order.t F))
    (Hcall : create_order_from_cart db user_id shipping_info payment_method today
               random_bytes now = (result, order, db'))
    (Hok : success result = true)
    (Hyear : 1000 <= year today <= 9999)
    (Hmonth : 1 <= month today <= 12)
    (Hday : 1 <= day today <= 31)
    (Hbytes : length random_bytes = 4%nat) :
  filter (in_cart_of user_id) (cart_items db') = [] /\
  exists o,
    order = Some o /\ In o (orders db') /\
    Order.user_id o = user_id /\
    Order.status o = "pending"%string /\
    Order.payment_status o = "pending"%string /\
    order_number_ok (Order.order_number o) = true /\
    order_number_date (Order.order_number o)
    = year today * 10000 + month today * 100 + day today.
Proof.
  destruct (create_order_from_cart_cases db user_id shipping_info payment_method
              today random_bytes now) as [[m H]|(ps & app & _ & H)];
    rewrite Hcall in H; injection H as -> -> ->; [discriminate Hok|].
  destruct (generate_order_number_shape today random_bytes Hbytes) as [Hshape Hdate].
  split.
  - cbn [checkout_db cart_items]. apply filter_not_then_filter.
  - exists (checkout_order db user_id shipping_info payment_method today random_bytes now).
    split; [reflexivity|]. split.
    { cbn [checkout_db orders]. apply in_or_app. right. now left. }
    repeat split; [exact Hshape|now apply Hdate].
Qed.

(** C5 at the cart holding one watch, on 2026-11-03 with the random bytes
    00 ab ff 1f. *)
Lemma create_order_success_state_witness :
  exists result order db',
    create_order_from_cart sample_cart_db 1 sample_shipping "stripe" sample_date
      sample_bytes 100 = (result, order, db') /\
    success result = true /\
    filter (in_cart_of 1) (cart_items db') = [] /\
    exists o,
      order = Some o /\ In o (orders db') /\
      Order.user_id o = 1 /\
      Order.status o = "pending"%string /\
      Order.payment_status o = "pending"%string /\
      order_number_ok (Order.order_number o) = true /\
      order_number_date (Order.order_number o) = 20261103.
Proof.
  eexists _, _, _. split; [reflexivity|]. split; [reflexivity|].
  apply (create_order_success_state sample_cart_db _ 1 sample_shipping "stripe"
           sample_date sample_bytes 100 _ _ eq_refl eq_refl);
    [cbn; lia|cbn; lia|cbn; lia|reflexivity].
Defined.

(** ** Cancellation *)


Section CancelFacts.
Context {F : Type}.

Lemma times_in_nonneg product_id ids : 0 <= times_in product_id ids.
Proof.
  induction ids as [|i rest IH]; cbn [times_in]; [lia|].
  destruct (i =? product_id); lia.
Qed.

(** The loop of [cancel_order] gives every product one unit per
    occurrence in [order.products]. *)
Lemma restore_fold (ids : list Z) :
  forall (ps : gmap Z (Product.t F)) product_id,
  fold_left restore_one ids ps !! product_id =
  (fun p => Product.set_stock_quantity p
              (Product.stock_quantity p + times_in product_id ids))
    <$> ps !! product_id.
Proof.
  induction ids as [|i rest IH]; intros ps pid; cbn [fold_left times_in].
  - destruct (ps !! pid) as [p|]; [|reflexivity]. cbn.
    destruct p. unfold Product.set_stock_quantity. cbn. now rewrite Z.add_0_r.
  - rewrite IH. unfold restore_one.
    destruct (Z.eqb_spec i pid) as [->|Hne].
    + rewrite lookup_alter_eq. destruct (ps !! pid) as [p|]; [|reflexivity].
      cbn. unfold Product.set_stock_quantity. cbn. do 2 f_equal. lia.
    + rewrite lookup_alter_ne by exact Hne. reflexivity.
Qed.


Lemma ids_of_order_cons row rows order_id :
  ids_of_order (row :: rows) order_id =
  if fst row =? order_id then snd row :: ids_of_order rows order_id
  else ids_of_order rows order_id.
Proof.
  unfold ids_of_order. rewrite filter_cons_bool. now destruct (fst row =? order_id).
Qed.

Lemma times_in_absent rows order_id product_id :
  ~ In (order_id, product_id) rows ->
  times_in product_id (ids_of_order rows order_id) = 0.
Proof.
  induction rows as [|[o i] rows IH]; intros Hnot; [reflexivity|].
  rewrite ids_of_order_cons. cbn [fst snd].
  assert (Hrest : ~ In (order_id, product_id) rows) by (intros H; apply Hnot; now right).
  destruct (Z.eqb_spec o order_id) as [->|Ho]; [|now apply IH].
  cbn [times_in]. rewrite (IH Hrest).
  destruct (Z.eqb_spec i product_id) as [->|Hi]; [|reflexivity].
  exfalso. apply Hnot. now left.
Qed.

Lemma times_in_present rows order_id product_id :
  NoDup rows -> In (order_id, product_id) rows ->
  times_in product_id (ids_of_order rows order_id) = 1.
Proof.
  induction rows as [|[o i] rows IH]; intros Hnd Hin; [destruct Hin|].
  inversion Hnd as [|? ? Hnotin Hnd']; subst.
  rewrite ids_of_order_cons. cbn [fst snd].
  destruct Hin as [Heq|Hin].
  - injection Heq as -> ->. rewrite Z.eqb_refl. cbn [times_in].
    rewrite Z.eqb_refl.
    rewrite times_in_absent; [reflexivity|].
    intros H. apply Hnotin. now apply list_elem_of_In.
  - destruct (Z.eqb_spec o order_id) as [->|Ho]; [|now apply IH].
    cbn [times_in]. rewrite (IH Hnd' Hin).
    destruct (Z.eqb_spec i product_id) as [->|Hi]; [|reflexivity].
    exfalso. apply Hnotin. now apply list_elem_of_In.
Qed.

Lemma find_update_first {T : Type} (f : T -> bool) (g : T -> T) (l : list T) x :
  (forall y, f (g y) = f y) -> find f l = Some x ->
  find f (update_first f g l) = Some (g x).
Proof.
  intros Hg. induction l as [|y l IH]; [discriminate|]. cbn [find update_first].
  destruct (f y) eqn:Hy.
  - intros H. injection H as <-. cbn [find]. now rewrite Hg, Hy.
  - intros H. cbn [find]. rewrite Hy. now apply IH.
Qed.

Lemma not_cancellable_iff (status : string) :
  not_cancellable status = true <->
  status = "shipped"%string \/ status = "delivered"%string
  \/ status = "cancelled"%string.
Proof.
  unfold not_cancellable. cbn [existsb]. rewrite !orb_true_iff, !String.eqb_eq.
  intuition discriminate.
Qed.

End CancelFacts.

(** C6. For an order that the lookup of [cancel_order] finds, in a database
    whose association table respects its primary key: when the status is
    "shipped", "delivered" or "cancelled" the call fails and the database is
    unchanged; otherwise it succeeds, the order found afterwards is the same
    order with status "cancelled", every product the association table links
    to the order has exactly one unit more in stock, whatever quantity was
    bought, and every other product and table is unchanged. *)
Theorem cancel_order_restores_one {F : Type}
    (db : DB F) (order_id : Z) (user_id : option Z) (now : Z) (order : Order.t F)
    (Hfind : find (order_matches order_id user_id) (orders db) = Some order)
    (Hpk : NoDup (order_items db)) :
  (Order.status order = "shipped"%string \/ Order.status order = "delivered"%string
   \/ Order.status order = "cancelled"%string ->
   cancel_order db order_id user_id now = (failure "Order cannot be cancelled", db)) /\
  (Order.status order <> "shipped"%string ->
   Order.status order <> "delivered"%string ->
   Order.status order <> "cancelled"%string ->
   exists db',
     cancel_order db order_id user_id now = (ok "Order cancelled successfully", db') /\
     find (order_matches order_id user_id) (orders db')
     = Some (Order.set_status order "cancelled" now) /\
     (forall product_id p,
        In (order_id, product_id) (order_items db) ->
        products db !! product_id = Some p ->
        products db' !! product_id
        = Some (Product.set_stock_quantity p (Product.stock_quantity p + 1))) /\
     (forall product_id,
        ~ In (order_id, product_id) (order_items db) ->
        products db' !! product_id = products db !! product_id) /\
     users db' = users db /\ cart_items db' = cart_items db /\
     order_items db' = order_items db).
Proof.
  assert (Hid : Order.id order = order_id).
  { apply find_some_in in Hfind. destruct Hfind as [_ Hm].
    unfold order_matches in Hm. apply andb_true_iff in Hm.
    destruct Hm as [Hm _]. now apply Z.eqb_eq in Hm. }
  unfold cancel_order. cbn [get_session working committed close].
  rewrite Hfind. split.
  - intros Hstatus. apply not_cancellable_iff in Hstatus. now rewrite Hstatus.
  - intros H1 H2 H3.
    destruct (not_cancellable (Order.status order)) eqn:Hnc.
    { apply not_cancellable_iff in Hnc. tauto. }
    eexists. split; [reflexivity|].
    cbn [close commit stage get_session working committed set_orders set_products
         users products cart_items orders order_items].
    rewrite Hid. split; [|split; [|split]].
    + apply (find_update_first (order_matches order_id user_id)
               (fun o => Order.set_status o "cancelled" now));
        [intros y; reflexivity|exact Hfind].
    + intros pid p Hin Hp. unfold order_product_ids. rewrite restore_fold, Hp.
      fold (ids_of_order (order_items db) order_id).
      now rewrite (times_in_present _ _ _ Hpk Hin).
    + intros pid Hnot. unfold order_product_ids. rewrite restore_fold.
      fold (ids_of_order (order_items db) order_id).
      rewrite (times_in_absent _ _ _ Hnot).
      destruct (products db !! pid) as [p|]; [|reflexivity].
      cbn. destruct p. unfold Product.set_stock_quantity. cbn. now rewrite Z.add_0_r.
    + repeat split.
Qed.

(** C6 at order 1 of user 1, pending, holding product 7 (stock 2), of which
    3 units were bought: the cancellation succeeds and the stock is 3. *)
Lemma cancel_order_restores_one_witness :
  find (order_matches 1 (Some 1)) (orders sample_order_db) = Some sample_order /\
  NoDup (order_items sample_order_db) /\
  exists db',
    cancel_order sample_order_db 1 (Some 1) 200
    = (ok "Order cancelled successfully", db') /\
    Order.status <$> find (order_matches 1 (Some 1)) (orders db')
    = Some "cancelled"%string /\
    Product.stock_quantity <$> products db' !! 7 = Some 3.
Proof.
  assert (Hpk : NoDup (order_items sample_order_db)).
  { constructor; [intros H; inversion H|constructor]. }
  split; [reflexivity|]. split; [exact Hpk|].
  destruct (proj2 (cancel_order_restores_one sample_order_db 1 (Some 1) 200
                     sample_order eq_refl Hpk))
    as (db' & Hcall & Hfound & Hstock & _); try discriminate.
  exists db'. split; [exact Hcall|]. split.
  - now rewrite Hfound.
  - rewrite (Hstock 7 (Product.set_stock_quantity sample_watch 2)
               (or_introl eq_refl) eq_refl).
    reflexivity.
Defined.

(** The scenario of the specification: a shipped order cannot be cancelled
    and nothing changes. *)
Example cancel_shipped_order :
  let db : DB Q :=
    mkDB [] ∅ [] [Order.set_status sample_order "shipped" 150] [(1, 7)] in
  cancel_order db 1 None 200 = (failure "Order cannot be cancelled", db).
Proof. reflexivity. Qed.

(** ** Stock never goes below zero *)

Section StockFacts.
Context {F : Type} {arith : Arith F}.


Lemma order_lines_stock_ok (rows : list CartItem.t) :
  forall (ps ps' : gmap Z (Product.t F)) appended appended' product_id,
  order_lines ps appended rows = inr (inr (ps', appended')) ->
  stock_ok ps product_id -> stock_ok ps' product_id.
Proof.
  induction rows as [|c rest IH]; intros ps ps' appended appended' pid H Hok;
    cbn in H.
  - injection H as <- <-. exact Hok.
  - destruct (ps !! CartItem.product_id c) as [product|] eqn:Hp; [|discriminate].
    destruct (Product.stock_quantity product <? CartItem.quantity c) eqn:Hlt;
      [discriminate|].
    apply (IH _ _ _ _ pid) in H; [exact H|].
    destruct (Z.eq_dec (CartItem.product_id c) pid) as [<-|Hne].
    + eexists. split; [apply lookup_insert_eq|]. cbn. apply Z.ltb_ge in Hlt. lia.
    + destruct Hok as (p & Hp' & Hnn). exists p.
      split; [now rewrite lookup_insert_ne|exact Hnn].
Qed.

Lemma products_add_to_cart (db : DB F) u p q :
  products (snd (add_to_cart db u p q)) = products db.
Proof.
  unfold add_to_cart. cbn [get_session working committed close].
  destruct (active_product db p) as [product|]; [|reflexivity].
  destruct (Product.stock_quantity product <? q); [reflexivity|].
  destruct (find (is_cart_row u p) (cart_items db)) as [e|]; [|reflexivity].
  now destruct (Product.stock_quantity product <? CartItem.quantity e + q).
Qed.

Lemma products_remove_from_cart (db : DB F) u p :
  products (snd (remove_from_cart db u p)) = products db.
Proof.
  unfold remove_from_cart. cbn [get_session working committed close].
  now destruct (find (is_cart_row u p) (cart_items db)).
Qed.

Lemma products_update_cart_item_quantity (db : DB F) u p q :
  products (snd (update_cart_item_quantity db u p q)) = products db.
Proof.
  unfold update_cart_item_quantity. cbn [get_session working committed close].
  destruct (q <=? 0); [apply products_remove_from_cart|].
  destruct (find (is_cart_row u p) (cart_items db)); [|reflexivity].
  destruct (products db !! p) as [product|]; [|reflexivity].
  now destruct (Product.stock_quantity product <? q).
Qed.

Lemma stock_ok_cancel_order (db : DB F) o u now product_id :
  stock_ok (products db) product_id ->
  stock_ok (products (snd (cancel_order db o u now))) product_id.
Proof.
  intros Hok. unfold cancel_order. cbn [get_session working committed close].
  destruct (find (order_matches o u) (orders db)) as [order|]; [|exact Hok].
  destruct (not_cancellable (Order.status order)); [exact Hok|].
  cbn. destruct Hok as (p & Hp & Hnn). unfold stock_ok.
  rewrite restore_fold, Hp. eexists. split; [reflexivity|]. cbn.
  pose proof (times_in_nonneg product_id (order_product_ids db (Order.id order))).
  lia.
Qed.

Lemma stock_ok_update_stock (db : DB F) p d product_id :
  stock_ok (products db) product_id ->
  stock_ok (products (snd (update_stock db p d))) product_id.
Proof.
  intros Hok. unfold update_stock. cbn [get_session working committed close].
  destruct (products db !! p) as [product|] eqn:Hp; [|exact Hok].
  destruct (Product.stock_quantity product + d <? 0) eqn:Hlt; [exact Hok|].
  cbn. destruct (Z.eq_dec p product_id) as [<-|Hne].
  - eexists. split; [apply lookup_insert_eq|]. cbn. apply Z.ltb_ge in Hlt. lia.
  - destruct Hok as (p' & Hp' & Hnn). exists p'.
    split; [now rewrite lookup_insert_ne|exact Hnn].
Qed.

Lemma stock_ok_create_order (db : DB F) u info pm today rb now product_id :
  stock_ok (products db) product_id ->
  stock_ok (products (snd (create_order_from_cart db u info pm today rb now)))
           product_id.
Proof.
  intros Hok.
  destruct (create_order_from_cart_cases db u info pm today rb now)
    as [[m ->]|(ps & app & Hloop & ->)]; [exact Hok|].
  cbn. now apply (order_lines_stock_ok _ _ _ _ _ _ Hloop).
Qed.

(** No call takes the stock of a product below zero. *)
Lemma stock_ok_step (db : DB F) (op : Op) product_id :
  stock_ok (products db) product_id -> stock_ok (products (step db op)) product_id.
Proof.
  intros Hok. destruct op; cbn [step].
  - now rewrite products_add_to_cart.
  - now rewrite products_update_cart_item_quantity.
  - now rewrite products_remove_from_cart.
  - exact Hok.
  - now apply stock_ok_create_order.
  - now apply stock_ok_cancel_order.
  - now apply stock_ok_update_stock.
Qed.

End StockFacts.

(** C2. A product whose stock is not negative keeps a stock that is not
    negative through every sequence of calls executed one after the other:
    adds to the cart, checkouts and cancellations, and also changes of
    quantity, removals, clearings of the cart and stock updates. *)
Theorem stock_never_negative {F : Type} {arith : Arith F}
    (ops : list Op) (db : DB F) (product_id : Z) (p : Product.t F)
    (Hp : products db !! product_id = Some p)
    (Hstock : 0 <= Product.stock_quantity p) :
  exists p',
    products (run db ops) !! product_id = Some p' /\ 0 <= Product.stock_quantity p'.
Proof.
  assert (Hok : stock_ok (products db) product_id) by (exists p; now split).
  clear Hp Hstock. revert db Hok. unfold run.
  induction ops as [|op ops IH]; intros db Hok; [exact Hok|].
  cbn [fold_left]. apply IH. now apply stock_ok_step.
Qed.

(** C2 on a run that adds 3 watches, checks out, cancels the order, tries
    to add 9 and checks out again: the stock of product 7 goes 5, 2, 3 and
    is never negative. *)
Lemma stock_never_negative_witness :
  products sample_db !! 7 = Some sample_watch /\
  0 <= Product.stock_quantity sample_watch /\
  exists p',
    products (run sample_db
                [OpAdd 1 7 3;
                 OpCheckout 1 sample_shipping "stripe" sample_date sample_bytes 100;
                 OpCancel 1 None 200;
                 OpAdd 1 7 9;
                 OpCheckout 1 sample_shipping "stripe" sample_date sample_bytes 300])
      !! 7 = Some p' /\
    0 <= Product.stock_quantity p'.
Proof.
  split; [reflexivity|]. split; [cbn; lia|].
  apply (stock_never_negative _ sample_db 7 sample_watch eq_refl). cbn. lia.
Defined.

Example stock_after_sample_run :
  Product.stock_quantity <$>
    products (run sample_db
                [OpAdd 1 7 3;
                 OpCheckout 1 sample_shipping "stripe" sample_date sample_bytes 100;
                 OpCancel 1 None 200]) !! 7 = Some 3.
Proof. reflexivity. Qed.

(** ** Registration and authentication *)

(** C7 fails on the code. [auth_service.py] imports [and_] from sqlalchemy
    but not [or_], which the query of [register_user] uses: evaluating the
    filter raises [NameError], the handler rolls back, and every call, for a
    fresh username and email as for a taken one, returns the failure
    "Registration failed: name 'or_' is not defined" and creates no user. *)
Theorem register_user_name_error {F : Type} (sha256_hexdigest : string -> string)
    (db : DB F) (username email password : string) (full_name : option string)
    (random_bytes : list Byte.byte) (now : Z) :
  register_user sha256_hexdigest auth_service_globals db username email password
    full_name random_bytes now
  = (failure "Registration failed: name 'or_' is not defined", None, db).
Proof. reflexivity. Qed.

(** C8 fails on the code, by the same missing import: the query of
    [authenticate_user] raises [NameError] and every call returns the
    failure "Authentication failed: name 'or_' is not defined", for a right
    password as for a wrong one. *)
Theorem authenticate_user_name_error {F : Type} (sha256_hexdigest : string -> string)
    (db : DB F) (username password : string) (now : Z) :
  authenticate_user sha256_hexdigest auth_service_globals db username password now
  = (failure "Authentication failed: name 'or_' is not defined", None, db).
Proof. reflexivity. Qed.

(** The administrator that [create_admin_user] creates cannot log in with
    the password the call returns. *)
Example admin_cannot_authenticate :
  let db : DB Q :=
    snd (create_admin_user sample_digest (mkDB [] ∅ [] [] []) sample_bytes 0) in
  map User.username (users db) = ["admin"%string] /\
  success (fst (fst (authenticate_user sample_digest auth_service_globals db
                       "admin" "admin123" 1))) = false.
Proof. split; reflexivity. Qed.

Section AuthIntended.
Context {F : Type}.
Variable sha256_hexdigest : string -> string.
Variable globals : list string.
Hypothesis or_in_scope : lookup_global globals "or_" = ret tt.


Lemma find_none_existsb {T : Type} (f : T -> bool) (l : list T) :
  find f l = None -> existsb f l = false.
Proof.
  induction l as [|x l IH]; [reflexivity|]. cbn [find existsb].
  destruct (f x); [discriminate|exact IH].
Qed.

Lemma existsb_weaken {T : Type} (f g : T -> bool) (l : list T) :
  (forall x, g x = true -> f x = true) -> existsb f l = false -> existsb g l = false.
Proof.
  intros Hfg. induction l as [|x l IH]; [reflexivity|]. cbn [existsb].
  destruct (f x) eqn:Hf; [discriminate|]. cbn [orb]. intros H.
  destruct (g x) eqn:Hg; [apply Hfg in Hg; congruence|]. now apply IH.
Qed.

(** With [or_] in scope, a fresh username and email are registered as an
    active user without admin rights whose credential is "salt:hash". *)
Lemma register_user_fresh (db : DB F) username email password full_name
    random_bytes now :
  find (taken username email) (users db) = None ->
  let user :=
    User.mk (next_id (map User.id (users db))) username email full_name
      (token_hex random_bytes +:+ ":" +:+
       sha256_hexdigest (password +:+ token_hex random_bytes))
      true false now in
  register_user sha256_hexdigest globals db username email password full_name
    random_bytes now
  = (ok "User registered successfully", Some user, set_users db (users db ++ [user])).
Proof.
  intros Hfresh user. unfold register_user, register_body.
  rewrite or_in_scope. cbn [bind ret get_session working committed].
  fold (taken username email). rewrite Hfresh.
  apply find_none_existsb in Hfresh.
  unfold flush_user. cbn [User.username User.email].
  rewrite (existsb_weaken (taken username email)); [|intros x Hx|exact Hfresh].
  2:{ unfold taken. now rewrite Hx. }
  rewrite (existsb_weaken (taken username email)); [|intros x Hx|exact Hfresh].
  2:{ unfold taken. rewrite Hx. now rewrite orb_true_r. }
  reflexivity.
Qed.

(** With [or_] in scope, a taken username or email is refused, the
    message naming the field, and nothing changes. *)
Lemma register_user_taken (db : DB F) username email password full_name
    random_bytes now existing_user :
  find (taken username email) (users db) = Some existing_user ->
  register_user sha256_hexdigest globals db username email password full_name
    random_bytes now
  = (failure (if String.eqb (User.username existing_user) username
              then "Username already exists" else "Email already registered"),
     None, db).
Proof.
  intros Htaken. unfold register_user, register_body.
  rewrite or_in_scope. cbn [bind ret get_session working committed].
  fold (taken username email). rewrite Htaken.
  now destruct (String.eqb (User.username existing_user) username).
Qed.

End AuthIntended.

(** With [or_] imported the scenario of the specification goes through:
    alice registers, a second alice is refused by name, the right password
    authenticates and a wrong one does not. *)
Example alice_with_or_imported :
  let g := "or_"%string :: auth_service_globals in
  let empty : DB Q := mkDB [] ∅ [] [] [] in
  let '(r1, _, db1) :=
    register_user sample_digest g empty "alice" "alice@x.com" "pw1" None sample_bytes 0 in
  let '(r2, _, db2) :=
    register_user sample_digest g db1 "alice" "other@x.com" "pw2" None sample_bytes 1 in
  success r1 = true /\
  r2 = failure "Username already exists" /\ db2 = db1 /\
  success (fst (fst (authenticate_user sample_digest g db1 "alice" "pw1" 2))) = true /\
  fst (fst (authenticate_user sample_digest g db1 "alice" "wrong" 2))
  = failure "Invalid credentials".
Proof. vm_compute. repeat split. Qed.

(** ** Order statistics *)

(** C9 fails on the code. [order_service.py] does not import [func], which
    the revenue query of [get_order_statistics] uses; the method has no
    [except] clause, so for every database the [NameError] leaves the method
    and no record is returned. *)
Theorem get_order_statistics_name_error {F : Type} {arith : Arith F} (db : DB F) :
  get_order_statistics order_service_globals db = raise (NameError "func").
Proof. reflexivity. Qed.

(** With [func] imported the statistics of the sample order are returned. *)
Example statistics_with_func_imported :
  match get_order_statistics ("func"%string :: order_service_globals) sample_order_db with
  | inr s =>
    total_orders s = 1 /\ pending_orders s = 1 /\ completed_orders s = 0 /\
    (total_revenue s == 0)%Q /\ map recent_id (recent_orders s) = [1]
  | inl _ => False
  end.
Proof. vm_compute. repeat split. Qed.

(** * Further properties of the services *)

(** ** Removing, replacing and clearing cart rows *)

Section MoreListFacts.
Context {T : Type}.
Implicit Types (f p : T -> bool) (g : T -> T) (l : list T).

Lemma filter_negb_delete_first f l :
  filter (fun x => negb (f x)) (delete_first f l) = filter (fun x => negb (f x)) l.
Proof.
  induction l as [|x l IH]; [reflexivity|]. cbn [delete_first].
  destruct (f x) eqn:Hfx; rewrite !filter_cons_bool, ?Hfx; cbn [negb];
    [reflexivity|now rewrite IH].
Qed.

Lemma filter_delete_first_pred f l :
  length (filter f (delete_first f l)) = Nat.pred (length (filter f l)).
Proof.
  induction l as [|x l IH]; [reflexivity|]. cbn [delete_first].
  destruct (f x) eqn:Hfx; rewrite !filter_cons_bool, ?Hfx; [reflexivity|exact IH].
Qed.

Lemma filter_negb_update_first f g l :
  (forall x, f (g x) = f x) ->
  filter (fun x => negb (f x)) (update_first f g l) = filter (fun x => negb (f x)) l.
Proof.
  intros Hg. induction l as [|x l IH]; [reflexivity|]. cbn [update_first].
  destruct (f x) eqn:Hfx; rewrite !filter_cons_bool, ?Hg, ?Hfx; cbn [negb];
    [reflexivity|now rewrite IH].
Qed.

(** Rows that [p] selects are untouched when the row replaced or deleted
    is not one of them. *)
Lemma filter_update_first_other p f g l :
  (forall x, f x = true -> p x = false) -> (forall x, f x = true -> p (g x) = false) ->
  filter p (update_first f g l) = filter p l.
Proof.
  intros Hf Hg. induction l as [|x l IH]; [reflexivity|]. cbn [update_first].
  destruct (f x) eqn:Hfx; rewrite !filter_cons_bool.
  - now rewrite (Hf x Hfx), (Hg x Hfx).
  - now rewrite IH.
Qed.

Lemma filter_delete_first_other p f l :
  (forall x, f x = true -> p x = false) ->
  filter p (delete_first f l) = filter p l.
Proof.
  intros Hf. induction l as [|x l IH]; [reflexivity|]. cbn [delete_first].
  destruct (f x) eqn:Hfx; rewrite !filter_cons_bool.
  - now rewrite (Hf x Hfx).
  - now rewrite IH.
Qed.

Lemma filter_filter_other p f l :
  (forall x, p x = true -> f x = true) -> filter p (filter f l) = filter p l.
Proof.
  intros Hpf. induction l as [|x l IH]; [reflexivity|].
  rewrite !filter_cons_bool. destruct (f x) eqn:Hfx.
  - rewrite filter_cons_bool. now rewrite IH.
  - destruct (p x) eqn:Hpx; [apply Hpf in Hpx; congruence|exact IH].
Qed.

Lemma length_update_first f g l : length (update_first f g l) = length l.
Proof.
  induction l as [|x l IH]; [reflexivity|]. cbn [update_first].
  destruct (f x); cbn [length]; [reflexivity|now rewrite IH].
Qed.

Lemma filter_idempotent f l : filter f (filter f l) = filter f l.
Proof. apply filter_filter_other. auto. Qed.

Lemma filter_in_length f l x :
  In x l -> f x = true -> (1 <= length (filter f l))%nat.
Proof.
  induction l as [|y l IH]; intros Hin Hfx; [destruct Hin|].
  rewrite filter_cons_bool. destruct Hin as [->|Hin].
  - rewrite Hfx. cbn. lia.
  - destruct (f y); cbn [length]; [lia|now apply IH].
Qed.

Lemma filter_nil_forall f l : filter f l = [] -> forall x, In x l -> f x = false.
Proof.
  induction l as [|y l IH]; intros H x Hin; [destruct Hin|].
  rewrite filter_cons_bool in H. destruct (f y) eqn:Hfy; [discriminate|].
  destruct Hin as [->|Hin]; [exact Hfy|now apply IH].
Qed.

End MoreListFacts.

(** X1. [remove_from_cart] fails with "Item not found in cart" and changes
    nothing when the user has no row for the product; otherwise it deletes
    exactly one row of the pair (the only one when the pair is unique) and
    leaves every other row and table as it was. *)
Theorem remove_from_cart_one_row {F : Type} (db : DB F) (user_id product_id : Z) :
  (find (is_cart_row user_id product_id) (cart_items db) = None ->
   remove_from_cart db user_id product_id = (failure "Item not found in cart", db)) /\
  (forall c,
     find (is_cart_row user_id product_id) (cart_items db) = Some c ->
     exists db',
       remove_from_cart db user_id product_id = (ok "Item removed from cart", db') /\
       length (filter (is_cart_row user_id product_id) (cart_items db'))
       = Nat.pred (length (filter (is_cart_row user_id product_id) (cart_items db))) /\
       filter (fun c => negb (is_cart_row user_id product_id c)) (cart_items db')
       = filter (fun c => negb (is_cart_row user_id product_id c)) (cart_items db) /\
       users db' = users db /\ products db' = products db /\
       orders db' = orders db /\ order_items db' = order_items db).
Proof.
  unfold remove_from_cart. cbn [get_session working committed close]. split.
  - intros ->. reflexivity.
  - intros c ->. eexists. split; [reflexivity|].
    cbn [close get_session commit stage working committed set_cart_items cart_items
         users products orders order_items].
    repeat split.
    + apply filter_delete_first_pred.
    + apply filter_negb_delete_first.
Qed.

(** X2. [update_cart_item_quantity] with a quantity that is not positive is
    [remove_from_cart]. With a positive quantity, for a row the user holds
    and a product of the table (active or not): a quantity within the stock
    overwrites the quantity of the row, whatever it was, and touches nothing
    else; a quantity above the stock fails with "Insufficient stock" and
    changes nothing. *)
Theorem update_cart_item_quantity_overwrites {F : Type}
    (db : DB F) (user_id product_id quantity : Z) :
  (quantity <= 0 ->
   update_cart_item_quantity db user_id product_id quantity
   = remove_from_cart db user_id product_id) /\
  (forall c product,
     0 < quantity ->
     find (is_cart_row user_id product_id) (cart_items db) = Some c ->
     products db !! product_id = Some product ->
     (quantity <= Product.stock_quantity product ->
      exists db',
        update_cart_item_quantity db user_id product_id quantity
        = (ok "Cart updated", db') /\
        find (is_cart_row user_id product_id) (cart_items db')
        = Some (CartItem.set_quantity c quantity) /\
        filter (fun c => negb (is_cart_row user_id product_id c)) (cart_items db')
        = filter (fun c => negb (is_cart_row user_id product_id c)) (cart_items db) /\
        length (cart_items db') = length (cart_items db) /\
        products db' = products db) /\
     (Product.stock_quantity product < quantity ->
      update_cart_item_quantity db user_id product_id quantity
      = (failure "Insufficient stock", db))).
Proof.
  unfold update_cart_item_quantity. cbn [get_session working committed close]. split.
  - intros Hq. apply Z.leb_le in Hq. now rewrite Hq.
  - intros c product Hq Hfind Hp. apply Z.leb_gt in Hq. rewrite Hq, Hfind, Hp. split.
    + intros Hs. apply Z.ltb_ge in Hs. rewrite Hs. eexists. split; [reflexivity|].
      cbn [close get_session commit stage working committed set_cart_items
           cart_items products].
      split; [|split; [|split]].
      * apply (find_update_first (is_cart_row user_id product_id)
                 (fun c => CartItem.set_quantity c quantity));
          [intros y; reflexivity|exact Hfind].
      * apply filter_negb_update_first. intros x. reflexivity.
      * apply length_update_first.
      * reflexivity.
    + intros Hs. apply Z.ltb_lt in Hs. now rewrite Hs.
Qed.

(** X1 at the cart holding one watch: the row is deleted and the pair has
    no row left. *)
Lemma remove_from_cart_one_row_witness :
  find (is_cart_row 1 7) (cart_items sample_cart_db) = Some (CartItem.mk 1 1 7 1) /\
  exists db',
    remove_from_cart sample_cart_db 1 7 = (ok "Item removed from cart", db') /\
    length (filter (is_cart_row 1 7) (cart_items db')) = 0%nat.
Proof.
  split; [reflexivity|].
  destruct (proj2 (remove_from_cart_one_row sample_cart_db 1 7) _ eq_refl)
    as (db' & Hcall & Hlen & _).
  exists db'. split; [exact Hcall|]. rewrite Hlen. reflexivity.
Defined.

(** X2 at the cart holding one watch (stock 5): setting 4 overwrites the 1,
    setting 6 is refused. *)
Lemma update_cart_item_quantity_overwrites_witness :
  (exists db',
     update_cart_item_quantity sample_cart_db 1 7 4 = (ok "Cart updated", db') /\
     find (is_cart_row 1 7) (cart_items db') = Some (CartItem.mk 1 1 7 4)) /\
  update_cart_item_quantity sample_cart_db 1 7 6
  = (failure "Insufficient stock", sample_cart_db).
Proof.
  split.
  - destruct (proj2 (update_cart_item_quantity_overwrites sample_cart_db 1 7 4)
                (CartItem.mk 1 1 7 1) sample_watch) as [Hok _];
      [lia|reflexivity|reflexivity|].
    destruct Hok as (db' & Hcall & Hfind & _); [cbn; lia|].
    exists db'. split; [exact Hcall|exact Hfind].
  - apply (proj2 (update_cart_item_quantity_overwrites sample_cart_db 1 7 6)
             (CartItem.mk 1 1 7 1) sample_watch); [lia|reflexivity|reflexivity|].
    cbn. lia.
Defined.

Section CartListing.
Context {F : Type} {arith : Arith F}.

Lemma cart_line_product (db : DB F) (c : CartItem.t) (line : CartLine F) :
  cart_line db c = Some line ->
  line_product_id line = CartItem.product_id c /\
  line_quantity line = CartItem.quantity c /\
  hidden_row db c = false.
Proof.
  unfold cart_line, hidden_row, active_product.
  destruct (products db !! CartItem.product_id c) as [p|]; [|discriminate].
  destruct (Product.is_active p); [|discriminate].
  intros H. injection H as <-. now repeat split.
Qed.

Lemma cart_line_hidden (db : DB F) (c : CartItem.t) :
  cart_line db c = None <-> hidden_row db c = true.
Proof.
  unfold cart_line, hidden_row, active_product.
  destruct (products db !! CartItem.product_id c) as [p|]; [|tauto].
  destruct (Product.is_active p); split; intros H; discriminate || reflexivity.
Qed.

Lemma in_omap_cart_line (db : DB F) (rows : list CartItem.t) (line : CartLine F) :
  In line (omap (cart_line db) rows) ->
  exists c, In c rows /\ cart_line db c = Some line.
Proof.
  induction rows as [|c rows IH]; [intros []|]. cbn [omap list_omap].
  destruct (cart_line db c) as [l|] eqn:Hc.
  - intros [<-|Hin]; [exists c; split; [now left|exact Hc]|].
    destruct (IH Hin) as (c' & Hc' & Hl). exists c'. split; [now right|exact Hl].
  - intros Hin. destruct (IH Hin) as (c' & Hc' & Hl).
    exists c'. split; [now right|exact Hl].
Qed.

Lemma in_omap_cart_issue (db : DB F) (rows : list CartItem.t) c msg :
  In c rows -> cart_issue db c = Some msg -> In msg (omap (cart_issue db) rows).
Proof.
  induction rows as [|c' rows IH]; [intros []|]. cbn [omap list_omap].
  intros [->|Hin] Hmsg.
  - rewrite Hmsg. now left.
  - destruct (cart_issue db c'); [right|]; now apply IH.
Qed.

Lemma in_filter_bool (f : CartItem.t -> bool) (rows : list CartItem.t) c :
  In c (filter f rows) <-> In c rows /\ f c = true.
Proof.
  induction rows as [|x rows IH]; [cbn; tauto|].
  rewrite filter_cons_bool. destruct (f x) eqn:Hfx; cbn [In]; rewrite ?IH;
    intuition (subst; congruence).
Qed.

Lemma fold_left_add_from (l : list Z) (a : Z) :
  fold_left Z.add l a = a + fold_left Z.add l 0.
Proof.
  revert a. induction l as [|x l IH]; intros a; cbn [fold_left]; [lia|].
  rewrite (IH (a + x)), (IH (0 + x)). lia.
Qed.

End CartListing.

(** X3. A product that has been deactivated while a user holds it in the
    cart: a further add is refused with "Product not found" and changes
    nothing, the row is left out of the listing of the cart, and the
    validation for checkout fails with the issue "Product <id> is no longer
    available"; yet a change of the quantity within the stock still
    succeeds. *)
Theorem inactive_product_in_cart {F : Type} {arith : Arith F}
    (db : DB F) (user_id product_id quantity : Z) (product : Product.t F)
    (c : CartItem.t)
    (Hproduct : products db !! product_id = Some product)
    (Hinactive : Product.is_active product = false)
    (Hrow : find (is_cart_row user_id product_id) (cart_items db) = Some c) :
  add_to_cart db user_id product_id quantity = (failure "Product not found", db) /\
  ~ In product_id (map line_product_id (get_cart_items db user_id)) /\
  valid (validate_cart_for_checkout db user_id) = false /\
  In ("Product " +:+ pretty product_id +:+ " is no longer available")
     (issues (validate_cart_for_checkout db user_id)) /\
  (0 < quantity <= Product.stock_quantity product ->
   fst (update_cart_item_quantity db user_id product_id quantity) = ok "Cart updated").
Proof.
  assert (Hnone : active_product db product_id = None).
  { unfold active_product. now rewrite Hproduct, Hinactive. }
  apply find_some_in in Hrow. destruct Hrow as [Hin Hc].
  assert (Hkeys : CartItem.user_id c = user_id /\ CartItem.product_id c = product_id).
  { unfold is_cart_row in Hc. apply andb_true_iff in Hc.
    destruct Hc as [H1 H2]. apply Z.eqb_eq in H1, H2. now split. }
  destruct Hkeys as [Hu Hp].
  assert (Hline : In c (filter (in_cart_of user_id) (cart_items db))).
  { apply in_filter_bool. split; [exact Hin|]. unfold in_cart_of.
    now apply Z.eqb_eq. }
  assert (Hissue : cart_issue db c
                   = Some ("Product " +:+ pretty product_id +:+ " is no longer available")).
  { unfold cart_issue. now rewrite Hp, Hnone. }
  split; [|split; [|split; [|split]]].
  - unfold add_to_cart. cbn [get_session working committed close]. now rewrite Hnone.
  - intros Hlisted. apply in_map_iff in Hlisted. destruct Hlisted as (line & Hid & Hl).
    apply in_omap_cart_line in Hl. destruct Hl as (c' & _ & Hc').
    apply cart_line_product in Hc'. destruct Hc' as (Hpid & _ & Hhidden).
    unfold hidden_row in Hhidden. rewrite <- Hpid, Hid, Hnone in Hhidden.
    discriminate.
  - unfold validate_cart_for_checkout.
    destruct (filter (in_cart_of user_id) (cart_items db)) as [|x l] eqn:Hl;
      [reflexivity|].
    pose proof (in_omap_cart_issue db (x :: l) c _ Hline Hissue) as Hm.
    destruct (omap (cart_issue db) (x :: l)); [destruct Hm|reflexivity].
  - unfold validate_cart_for_checkout.
    destruct (filter (in_cart_of user_id) (cart_items db)) as [|x l] eqn:Hl;
      [destruct Hline|].
    pose proof (in_omap_cart_issue db (x :: l) c _ Hline Hissue) as Hm.
    destruct (omap (cart_issue db) (x :: l)); [destruct Hm|exact Hm].
  - intros [Hpos Hstock]. unfold update_cart_item_quantity.
    cbn [get_session working committed close].
    apply Z.leb_gt in Hpos. rewrite Hpos.
    destruct (find (is_cart_row user_id product_id) (cart_items db)) eqn:Hfind.
    + rewrite Hproduct. apply Z.ltb_ge in Hstock. now rewrite Hstock.
    + apply find_none_filter in Hfind.
      pose proof (filter_nil_forall _ _ Hfind c Hin). congruence.
Qed.

(** X3 at the withdrawn watch in the cart of user 1. *)
Lemma inactive_product_in_cart_witness :
  add_to_cart sample_inactive_db 1 7 1 = (failure "Product not found", sample_inactive_db) /\
  get_cart_items sample_inactive_db 1 = [] /\
  issues (validate_cart_for_checkout sample_inactive_db 1)
  = ["Product 7 is no longer available"%string] /\
  fst (update_cart_item_quantity sample_inactive_db 1 7 3) = ok "Cart updated".
Proof.
  pose proof (inactive_product_in_cart sample_inactive_db 1 7 3 _ _
                eq_refl eq_refl eq_refl) as (_ & _ & _ & _ & Hset).
  split; [reflexivity|]. split; [reflexivity|]. split; [reflexivity|].
  apply Hset. cbn. lia.
Defined.

(** X4. [clear_cart] always succeeds; afterwards the user has no row, the
    rows of every other user are as before and in the same order, no other
    table has changed, the count of the cart is 0, and clearing again changes
    nothing. *)
Theorem clear_cart_only_user {F : Type} (db : DB F) (user_id : Z) :
  exists db',
    clear_cart db user_id = (ok "Cart cleared", db') /\
    filter (in_cart_of user_id) (cart_items db') = [] /\
    (forall other, other <> user_id ->
       filter (in_cart_of other) (cart_items db')
       = filter (in_cart_of other) (cart_items db)) /\
    get_cart_count db' user_id = 0 /\
    clear_cart db' user_id = (ok "Cart cleared", db') /\
    users db' = users db /\ products db' = products db /\
    orders db' = orders db /\ order_items db' = order_items db.
Proof.
  eexists. split; [reflexivity|].
  cbn [close get_session commit stage working committed set_cart_items cart_items
       users products orders order_items].
  split; [apply filter_not_then_filter|]. split; [|split; [|split]].
  - intros other Hne. apply filter_filter_other. intros c Hc.
    unfold in_cart_of in *. apply Z.eqb_eq in Hc. rewrite Hc.
    apply Z.eqb_neq in Hne. now rewrite Hne.
  - unfold get_cart_count. cbn [cart_items set_cart_items].
    now rewrite filter_not_then_filter.
  - unfold clear_cart.
    cbn [close get_session commit stage working committed set_cart_items cart_items
         users products orders order_items].
    now rewrite filter_idempotent.
  - repeat split.
Qed.

(** X4 with two users: clearing the cart of user 1 keeps the row of user
    2. *)
Lemma clear_cart_only_user_witness :
  exists db',
    clear_cart sample_two_carts_db 1 = (ok "Cart cleared", db') /\
    filter (in_cart_of 2) (cart_items db') = [CartItem.mk 2 2 7 1].
Proof.
  destruct (clear_cart_only_user sample_two_carts_db 1) as (db' & Hcall & _ & Hother & _).
  exists db'. split; [exact Hcall|]. rewrite (Hother 2); [reflexivity|lia].
Defined.

(** X5. The count of the cart and the [total_items] of the summary differ
    by the rows whose product is missing or not active: [get_cart_count]
    adds up every row of the user, the summary only the rows it lists. *)
Theorem get_cart_count_counts_hidden {F : Type} {arith : Arith F}
    (db : DB F) (user_id : Z) :
  get_cart_count db user_id
  = total_items (get_cart_summary db user_id)
    + sum_int (map CartItem.quantity
                 (filter (hidden_row db)
                    (filter (in_cart_of user_id) (cart_items db)))).
Proof.
  unfold get_cart_count, get_cart_summary, get_cart_items. cbn [total_items].
  unfold sum_int.
  induction (filter (in_cart_of user_id) (cart_items db)) as [|c rows IH];
    [reflexivity|].
  rewrite filter_cons_bool. cbn [map omap list_omap fold_left].
  destruct (cart_line db c) as [line|] eqn:Hline.
  - apply cart_line_product in Hline. destruct Hline as (_ & Hq & Hh).
    rewrite Hh. cbn [map fold_left]. rewrite Hq.
    rewrite (fold_left_add_from _ (0 + _)), IH.
    rewrite (fold_left_add_from (map line_quantity _) (0 + _)). lia.
  - apply cart_line_hidden in Hline. rewrite Hline. cbn [map fold_left].
    rewrite (fold_left_add_from _ (0 + _)), IH.
    rewrite (fold_left_add_from (map CartItem.quantity _) (0 + _)). lia.
Qed.

(** X6. The validation for checkout accepts a cart exactly when the user
    holds at least one row and every row has an active product with the
    units in stock. An empty cart is refused with "Cart is empty"; otherwise
    a refusal carries "Cart validation failed" and at least one issue. *)
Theorem validate_cart_for_checkout_iff {F : Type} (db : DB F) (user_id : Z) :
  let rows := filter (in_cart_of user_id) (cart_items db) in
  let v := validate_cart_for_checkout db user_id in
  (valid v = true <-> rows <> [] /\ Forall (row_in_stock db) rows) /\
  (rows = [] -> v = mkValidation false "Cart is empty" []) /\
  (rows <> [] -> valid v = false ->
   validation_message v = "Cart validation failed"%string /\ issues v <> []).
Proof.
  cbn zeta. unfold validate_cart_for_checkout.
  assert (Hissues : forall rows : list CartItem.t,
             omap (cart_issue db) rows = [] <-> Forall (row_in_stock db) rows).
  { induction rows as [|c rows IH]; [split; [constructor|reflexivity]|].
    cbn [omap list_omap]. unfold cart_issue at 1, row_in_stock.
    rewrite List.Forall_cons_iff, <- IH.
    destruct (active_product db (CartItem.product_id c)) as [p|].
    - destruct (Z.ltb_spec (Product.stock_quantity p) (CartItem.quantity c)).
      + split; [discriminate|]. intros [(p' & Hp' & Hq) _].
        injection Hp' as <-. lia.
      + split; [|tauto]. intros H'. split; [|exact H']. exists p. split; [reflexivity|lia].
    - split; [discriminate|]. intros [(p' & Hp' & _) _]. discriminate. }
  destruct (filter (in_cart_of user_id) (cart_items db)) as [|c rows].
  - split; [|split]; [|reflexivity|intros H; now destruct H].
    split; [discriminate|]. intros [H _]. now destruct H.
  - specialize (Hissues (c :: rows)).
    destruct (omap (cart_issue db) (c :: rows)) as [|m ms].
    + split; [|split]; [|discriminate|discriminate].
      split; [|reflexivity]. intros _. split; [discriminate|]. now apply Hissues.
    + split; [|split]; [|discriminate|].
      * split; [discriminate|]. intros [_ H]. apply Hissues in H. discriminate.
      * intros _ _. split; [reflexivity|discriminate].
Qed.

(** X6 at the cart holding one watch, which is in stock. *)
Lemma validate_cart_for_checkout_iff_witness :
  valid (validate_cart_for_checkout sample_cart_db 1) = true /\
  validate_cart_for_checkout sample_db 1 = mkValidation false "Cart is empty" [].
Proof.
  destruct (validate_cart_for_checkout_iff sample_cart_db 1) as [Hiff _].
  destruct (validate_cart_for_checkout_iff sample_db 1) as (_ & Hempty & _).
  split; [|now apply Hempty].
  apply Hiff. split; [discriminate|].
  constructor; [|constructor]. exists sample_watch. split; [reflexivity|cbn; lia].
Defined.

(** ** When a checkout goes through *)

Section CheckoutSuccess.
Context {F : Type} {arith : Arith F}.

Lemma next_id_above (ids : list Z) (x : Z) : In x ids -> x < next_id ids.
Proof.
  unfold next_id. induction ids as [|y ids IH]; [intros []|].
  cbn [fold_right]. intros [->|Hin]; [lia|]. specialize (IH Hin). lia.
Qed.

Lemma existsb_same_pair (row : Z * Z) (table : list (Z * Z)) :
  existsb (same_pair row) table = false <-> ~ In row table.
Proof.
  induction table as [|x table IH]; [cbn; tauto|]. cbn [existsb In].
  rewrite orb_false_iff, IH. unfold same_pair.
  destruct row as [a b], x as [c d]. cbn [fst snd]. split.
  - intros [Hne Hnot] [Heq|Hin]; [|tauto]. injection Heq as -> ->.
    now rewrite !Z.eqb_refl in Hne.
  - intros Hnot. split; [|tauto].
    destruct (Z.eqb_spec a c) as [->|]; [|reflexivity].
    destruct (Z.eqb_spec b d) as [->|]; [|reflexivity]. exfalso. apply Hnot. now left.
Qed.

(** The association rows of an order are inserted when the pairs are new
    and the collection holds no product twice. *)
Lemma flush_order_items_succeeds (order_id : Z) (appended : list Z) :
  forall table,
  NoDup appended ->
  (forall product_id, In product_id appended -> ~ In (order_id, product_id) table) ->
  flush_order_items table order_id appended
  = inr (table ++ map (fun product_id => (order_id, product_id)) appended).
Proof.
  induction appended as [|pid rest IH]; intros table Hnd Hnew; cbn.
  - now rewrite app_nil_r.
  - inversion Hnd as [|? ? Hnotin Hnd']; subst.
    assert (Hpid : existsb (same_pair (order_id, pid)) table = false).
    { apply existsb_same_pair. apply Hnew. now left. }
    rewrite Hpid, IH; [now rewrite <- app_assoc|exact Hnd'|].
    intros p Hp Hin. apply in_app_or in Hin. destruct Hin as [Hin|[Heq|[]]].
    + apply (Hnew p); [now right|exact Hin].
    + injection Heq as ->. apply Hnotin. now apply list_elem_of_In.
Qed.

(** The primary key of the association table survives the inserts. *)
Lemma flush_order_items_nodup (order_id : Z) (appended : list Z) :
  forall table rows,
  flush_order_items table order_id appended = inr rows -> NoDup table -> NoDup rows.
Proof.
  induction appended as [|pid rest IH]; intros table rows H Hnd; cbn in H.
  - now injection H as <-.
  - destruct (existsb (same_pair (order_id, pid)) table) eqn:Hpid; [discriminate|].
    apply (IH _ _ H). apply NoDup_app. split; [exact Hnd|]. split.
    + intros x Hx Hx'. apply list_elem_of_In in Hx, Hx'. destruct Hx' as [<-|[]].
      apply existsb_same_pair in Hpid. now apply Hpid.
    + constructor; [intros Hx; apply list_elem_of_In in Hx; destruct Hx|constructor].
Qed.

(** The loop of the checkout goes through when no product occurs in two
    rows and every row finds its units. *)
Lemma order_lines_succeeds (rows : list CartItem.t) :
  forall (ps : gmap Z (Product.t F)) appended,
  NoDup (map CartItem.product_id rows) ->
  (forall c, In c rows ->
     exists p, ps !! CartItem.product_id c = Some p /\
               CartItem.quantity c <= Product.stock_quantity p) ->
  exists ps',
    order_lines ps appended rows
    = inr (inr (ps', appended ++ map CartItem.product_id rows)).
Proof.
  induction rows as [|c rows IH]; intros ps appended Hnd Hstock; cbn.
  - exists ps. now rewrite app_nil_r.
  - inversion Hnd as [|? ? Hnotin Hnd']; subst.
    destruct (Hstock c (or_introl eq_refl)) as (p & Hp & Hq).
    rewrite Hp. apply Z.ltb_ge in Hq. rewrite Hq.
    destruct (IH (<[CartItem.product_id c :=
                      Product.set_stock_quantity p
                        (Product.stock_quantity p - CartItem.quantity c)]> ps)
                 (appended ++ [CartItem.product_id c]) Hnd') as (ps' & Hps').
    + intros c' Hc'. destruct (Hstock c' (or_intror Hc')) as (p' & Hp' & Hq').
      exists p'. split; [|exact Hq']. rewrite lookup_insert_ne; [exact Hp'|].
      intros Heq. apply Hnotin. apply list_elem_of_In. rewrite Heq.
      now apply in_map.
    + exists ps'. rewrite Hps', <- app_assoc. reflexivity.
Qed.

Lemma cart_issue_none (db : DB F) (c : CartItem.t) :
  cart_issue db c = None ->
  exists p, active_product db (CartItem.product_id c) = Some p /\
            CartItem.quantity c <= Product.stock_quantity p.
Proof.
  unfold cart_issue.
  destruct (active_product db (CartItem.product_id c)) as [p|]; [|discriminate].
  destruct (Z.ltb_spec (Product.stock_quantity p) (CartItem.quantity c));
    [discriminate|]. intros _. exists p. split; [reflexivity|lia].
Qed.

Lemma omap_cart_issue_nil (db : DB F) (rows : list CartItem.t) :
  omap (cart_issue db) rows = [] -> forall c, In c rows -> cart_issue db c = None.
Proof.
  induction rows as [|x rows IH]; [intros _ c []|]. cbn [omap list_omap].
  destruct (cart_issue db x) eqn:Hx; [discriminate|].
  intros H c [<-|Hin]; [exact Hx|now apply IH].
Qed.

(** What a valid cart holds. *)
Lemma validate_valid_rows (db : DB F) (user_id : Z) :
  valid (validate_cart_for_checkout db user_id) = true ->
  checkout_lines db user_id <> [] /\
  forall c, In c (checkout_lines db user_id) -> cart_issue db c = None.
Proof.
  unfold validate_cart_for_checkout, checkout_lines.
  destruct (filter (in_cart_of user_id) (cart_items db)) as [|c rows]; [discriminate|].
  destruct (omap (cart_issue db) (c :: rows)) eqn:Hissues; [|discriminate].
  intros _. split; [discriminate|]. now apply omap_cart_issue_nil.
Qed.

Lemma active_product_lookup (db : DB F) (product_id : Z) (p : Product.t F) :
  active_product db product_id = Some p -> products db !! product_id = Some p.
Proof.
  unfold active_product. destruct (products db !! product_id) as [q|]; [|discriminate].
  destruct (Product.is_active q); [tauto|discriminate].
Qed.

(** One row per user and product gives the rows of a user distinct
    products. *)
Lemma unique_rows_distinct_products (rows : list CartItem.t) (user_id : Z) :
  (forall product_id,
     (length (filter (is_cart_row user_id product_id) rows) <= 1)%nat) ->
  NoDup (map CartItem.product_id (filter (in_cart_of user_id) rows)).
Proof.
  induction rows as [|c rows IH]; intros Hu; [constructor|].
  assert (Hrest : forall product_id,
             (length (filter (is_cart_row user_id product_id) rows) <= 1)%nat).
  { intros p. specialize (Hu p). rewrite filter_cons_bool in Hu.
    destruct (is_cart_row user_id p c); cbn [length] in Hu; lia. }
  rewrite filter_cons_bool. destruct (in_cart_of user_id c) eqn:Hc; [|now apply IH].
  cbn [map]. constructor; [|now apply IH].
  intros Hin. apply list_elem_of_In in Hin.
  apply in_map_iff in Hin. destruct Hin as (c' & Hpid & Hc').
  apply in_filter_bool in Hc'. destruct Hc' as [Hin' Hu'].
  specialize (Hu (CartItem.product_id c)). rewrite filter_cons_bool in Hu.
  assert (Hrow : is_cart_row user_id (CartItem.product_id c) c = true).
  { unfold is_cart_row. unfold in_cart_of in Hc. now rewrite Hc, Z.eqb_refl. }
  assert (Hrow' : is_cart_row user_id (CartItem.product_id c) c' = true).
  { unfold is_cart_row. unfold in_cart_of in Hu'. rewrite Hu', Hpid.
    now rewrite Z.eqb_refl. }
  rewrite Hrow in Hu. cbn [length] in Hu.
  pose proof (filter_in_length _ _ _ Hin' Hrow'). lia.
Qed.

(** The steps of a checkout, when each of them goes through. *)
Lemma create_order_from_cart_run (db : DB F) user_id shipping_info payment_method
    today random_bytes now ps appended :
  valid (validate_cart_for_checkout db user_id) = true ->
  existsb (fun o => String.eqb (Order.order_number o)
                      (_generate_order_number today random_bytes)) (orders db) = false ->
  order_lines (products db) [] (checkout_lines db user_id) = inr (inr (ps, appended)) ->
  flush_order_items (order_items db)
    (Order.id (checkout_order db user_id shipping_info payment_method today
                 random_bytes now)) appended
  = inr (order_items db
         ++ map (fun product_id =>
                   (Order.id (checkout_order db user_id shipping_info payment_method
                                today random_bytes now), product_id)) appended) ->
  create_order_from_cart db user_id shipping_info payment_method today random_bytes now
  = (ok "Order created successfully",
     Some (checkout_order db user_id shipping_info payment_method today random_bytes now),
     checkout_db db user_id shipping_info payment_method today random_bytes now
       ps appended).
Proof.
  intros Hvalid Hfresh Hloop Hflush.
  destruct (validate_valid_rows db user_id Hvalid) as [Hne Hrows].
  unfold create_order_from_cart. rewrite Hvalid. cbn [negb].
  assert (Hitems : items (get_cart_summary db user_id) <> []).
  { cbn [get_cart_summary items]. unfold get_cart_items.
    unfold checkout_lines in Hne, Hrows.
    destruct (filter (in_cart_of user_id) (cart_items db)) as [|c rows];
      [now destruct Hne|].
    destruct (cart_issue_none db c (Hrows c (or_introl eq_refl))) as (p & Hp & _).
    cbn [omap list_omap]. unfold cart_line at 1. unfold active_product in Hp.
    destruct (products db !! CartItem.product_id c) as [q|]; [|discriminate].
    destruct (Product.is_active q); [discriminate|discriminate]. }
  destruct (items (get_cart_summary db user_id)) as [|line lines] eqn:Hl;
    [now destruct Hitems|].
  unfold create_order_body. cbn [get_session working committed stage].
  unfold flush_order.
  change (Order.order_number (new_order db (get_cart_summary db user_id) user_id
                                shipping_info payment_method today random_bytes now))
    with (_generate_order_number today random_bytes).
  rewrite Hfresh. cbn [bind raise ret].
  cbn [set_orders cart_items products]. fold (checkout_lines db user_id).
  rewrite Hloop. cbn [bind].
  cbn [set_orders set_products set_cart_items set_order_items working committed
       stage commit get_session order_items cart_items users products orders].
  fold (checkout_order db user_id shipping_info payment_method today random_bytes now).
  rewrite Hflush. reflexivity.
Qed.

End CheckoutSuccess.

(** X7. A checkout succeeds whenever the validation accepts the cart, the
    user holds at most one row per product, the order number drawn is not
    the number of an order of the table, and every association row belongs
    to an order of the table. It then returns the new order and commits the
    order, one association row per cart row, the stock of every row and the
    emptied cart. *)
Theorem create_order_from_cart_succeeds {F : Type} {arith : Arith F}
    (db : DB F) (user_id : Z) (shipping_info : ShippingInfo)
    (payment_method : string) (today : Date) (random_bytes : list Byte.byte) (now : Z)
    (Hvalid : valid (validate_cart_for_checkout db user_id) = true)
    (Hunique : forall product_id,
        (length (filter (is_cart_row user_id product_id) (cart_items db)) <= 1)%nat)
    (Hfresh : forall o, In o (orders db) ->
        Order.order_number o <> _generate_order_number today random_bytes)
    (Howned : order_items_owned db) :
  exists ps,
    create_order_from_cart db user_id shipping_info payment_method today random_bytes now
    = (ok "Order created successfully",
       Some (checkout_order db user_id shipping_info payment_method today
               random_bytes now),
       checkout_db db user_id shipping_info payment_method today random_bytes now ps
         (map CartItem.product_id (checkout_lines db user_id))) /\
    forall product_id,
      ps !! product_id =
      (fun p => Product.set_stock_quantity p
                  (Product.stock_quantity p
                   - units_of product_id (checkout_lines db user_id)))
        <$> products db !! product_id.
Proof.
  destruct (validate_valid_rows db user_id Hvalid) as [_ Hrows].
  pose proof (unique_rows_distinct_products _ _ Hunique) as Hnd.
  fold (checkout_lines db user_id) in Hnd.
  destruct (order_lines_succeeds (checkout_lines db user_id) (products db) [] Hnd)
    as (ps & Hloop).
  { intros c Hc. destruct (cart_issue_none db c (Hrows c Hc)) as (p & Hp & Hq).
    exists p. split; [now apply active_product_lookup|exact Hq]. }
  cbn [app] in Hloop. exists ps. split.
  - apply create_order_from_cart_run; [exact Hvalid| |exact Hloop|].
    + apply not_true_is_false. intros Hex. apply existsb_exists in Hex.
      destruct Hex as (o & Ho & Heq). apply String.eqb_eq in Heq.
      now apply (Hfresh o Ho).
    + apply flush_order_items_succeeds; [exact Hnd|].
      intros pid _ Hin. apply Howned in Hin. cbn [fst] in Hin.
      apply next_id_above in Hin. cbn in Hin. lia.
  - now apply (order_lines_stock _ _ _ _ _ Hloop).
Qed.

(** X7 at the cart holding one watch, with no order in the table yet. *)
Lemma create_order_from_cart_succeeds_witness :
  exists ps,
    create_order_from_cart sample_cart_db 1 sample_shipping "stripe" sample_date
      sample_bytes 100
    = (ok "Order created successfully",
       Some (checkout_order sample_cart_db 1 sample_shipping "stripe" sample_date
               sample_bytes 100),
       checkout_db sample_cart_db 1 sample_shipping "stripe" sample_date sample_bytes
         100 ps [7]) /\
    Product.stock_quantity <$> ps !! 7 = Some 4.
Proof.
  destruct (create_order_from_cart_succeeds sample_cart_db 1 sample_shipping "stripe"
              sample_date sample_bytes 100 eq_refl) as (ps & Hcall & Hstock).
  - intros p. cbn [sample_cart_db cart_items]. rewrite filter_cons_bool.
    destruct (is_cart_row 1 p (CartItem.mk 1 1 7 1)); cbn; lia.
  - intros o [].
  - intros row [].
  - exists ps. split; [exact Hcall|]. rewrite Hstock. reflexivity.
Defined.



(** ** Checkout followed by cancellation *)

Section CheckoutThenCancel.
Context {F : Type} {arith : Arith F}.

Lemma order_product_ids_of (db : DB F) (order_id : Z) :
  order_product_ids db order_id = ids_of_order (order_items db) order_id.
Proof. reflexivity. Qed.

Lemma ids_of_order_app (rows rows' : list (Z * Z)) (order_id : Z) :
  ids_of_order (rows ++ rows') order_id
  = ids_of_order rows order_id ++ ids_of_order rows' order_id.
Proof. unfold ids_of_order. now rewrite filter_app_bool, map_app. Qed.

Lemma ids_of_order_new (order_id : Z) (appended : list Z) :
  ids_of_order (map (fun product_id => (order_id, product_id)) appended) order_id
  = appended.
Proof.
  induction appended as [|p rest IH]; [reflexivity|]. cbn [map].
  rewrite ids_of_order_cons. cbn [fst snd]. now rewrite Z.eqb_refl, IH.
Qed.

Lemma ids_of_order_none (rows : list (Z * Z)) (order_id : Z) :
  (forall row, In row rows -> fst row <> order_id) -> ids_of_order rows order_id = [].
Proof.
  induction rows as [|row rows IH]; intros Hne; [reflexivity|].
  rewrite ids_of_order_cons.
  destruct (Z.eqb_spec (fst row) order_id) as [Heq|_];
    [now destruct (Hne row (or_introl eq_refl))|].
  apply IH. intros r Hr. apply Hne. now right.
Qed.

Lemma find_has_no_id (os : list (Order.t F)) (order_id : Z) (user_id : option Z) :
  ~ In order_id (map Order.id os) -> find (order_matches order_id user_id) os = None.
Proof.
  induction os as [|o os IH]; intros Hnot; [reflexivity|]. cbn [find].
  unfold order_matches at 1.
  destruct (Z.eqb_spec (Order.id o) order_id) as [Heq|_].
  - exfalso. apply Hnot. left. exact Heq.
  - cbn [andb]. apply IH. intros Hin. apply Hnot. now right.
Qed.

End CheckoutThenCancel.

(** X9. Cancelling an order right after the checkout that created it does
    not give the stock back: every product gets one unit per cart row of the
    order, while it lost the units of those rows, so a row of [q] units
    leaves the stock [q - 1] short. The association rows of the database
    belong to orders of the table. *)
Theorem checkout_then_cancel_stock {F : Type} {arith : Arith F}
    (db db' : DB F) (user_id : Z) (shipping_info : ShippingInfo)
    (payment_method : string) (today : Date) (random_bytes : list Byte.byte)
    (now later : Z) (result : ServiceResult) (o : Order.t F)
    (Hcall : create_order_from_cart db user_id shipping_info payment_method today
               random_bytes now = (result, Some o, db'))
    (Howned : order_items_owned db) :
  exists db'',
    cancel_order db' (Order.id o) None later = (ok "Order cancelled successfully", db'') /\
    forall product_id,
      products db'' !! product_id =
      (fun p => Product.set_stock_quantity p
                  (Product.stock_quantity p
                   - units_of product_id (checkout_lines db user_id)
                   + times_in product_id
                       (map CartItem.product_id (checkout_lines db user_id))))
        <$> products db !! product_id.
Proof.
  destruct (create_order_from_cart_cases db user_id shipping_info payment_method
              today random_bytes now) as [[m H]|(ps & app & Hloop & H)];
    rewrite Hcall in H; [discriminate H|injection H as -> -> ->].
  destruct (order_lines_stock _ _ _ _ _ Hloop) as [Happ Hstock].
  simpl in Happ. subst app.
  set (order := checkout_order db user_id shipping_info payment_method today
                  random_bytes now) in *.
  assert (Hnew : ~ In (Order.id order) (map Order.id (orders db))).
  { intros Hin. apply next_id_above in Hin. cbn in Hin. lia. }
  unfold cancel_order. cbn [get_session working committed close checkout_db orders].
  rewrite (find_app_none _ _ _ (find_has_no_id _ _ None Hnew)).
  cbn [find]. unfold order_matches at 1. rewrite Z.eqb_refl. cbn [truthy andb].
  change (not_cancellable (Order.status order)) with false. cbv iota.
  eexists. split; [reflexivity|].
  cbn [close get_session commit stage working committed set_orders set_products
       users products cart_items orders order_items].
  intros pid. rewrite order_product_ids_of. unfold checkout_db.
  cbn [order_items products]. fold order.
  rewrite ids_of_order_app, ids_of_order_new, ids_of_order_none.
  - cbn [app]. rewrite restore_fold, Hstock.
    destruct (products db !! pid) as [p|]; reflexivity.
  - intros row Hrow Heq. apply Hnew. rewrite <- Heq. now apply Howned.
Qed.

(** X9 at a cart of three watches (stock 5): after the checkout and the
    cancellation the stock is 3, not 5. *)
Lemma checkout_then_cancel_stock_witness :
  exists result o db' db'',
    create_order_from_cart sample_three_db 1 sample_shipping "stripe" sample_date
      sample_bytes 100 = (result, Some o, db') /\
    cancel_order db' (Order.id o) None 200 = (ok "Order cancelled successfully", db'') /\
    Product.stock_quantity <$> products db'' !! 7 = Some 3.
Proof.
  eexists _, _, _. 
  destruct (checkout_then_cancel_stock sample_three_db _ 1 sample_shipping "stripe"
              sample_date sample_bytes 100 200 _ _ eq_refl) as (db'' & Hcancel & Hstock);
    [intros row []|].
  exists db''. split; [reflexivity|]. split; [exact Hcancel|].
  rewrite Hstock. reflexivity.
Defined.

(** ** What the calls leave alone *)

Section Frames.
Context {F : Type} {arith : Arith F}.

Lemma set_cart_items_same (db : DB F) : set_cart_items db (cart_items db) = db.
Proof. now destruct db. Qed.

Lemma other_user_row (user_id other : Z) (c : CartItem.t) :
  other <> user_id -> in_cart_of user_id c = true -> in_cart_of other c = false.
Proof.
  unfold in_cart_of. intros Hne Hc. apply Z.eqb_eq in Hc. rewrite Hc.
  now apply Z.eqb_neq.
Qed.

Lemma is_cart_row_in_cart (user_id product_id : Z) (c : CartItem.t) :
  is_cart_row user_id product_id c = true -> in_cart_of user_id c = true.
Proof. unfold is_cart_row, in_cart_of. intros H. now apply andb_true_iff in H. Qed.

(** A cart call returns the database with other cart rows, and the rows of
    the other users are the same. *)
Lemma cart_op_rows (db : DB F) (op : Op) (user_id : Z) :
  cart_op_user op = Some user_id ->
  exists rows,
    step db op = set_cart_items db rows /\
    forall other, other <> user_id ->
      filter (in_cart_of other) rows = filter (in_cart_of other) (cart_items db).
Proof.
  assert (Hsame : exists rows,
             db = set_cart_items db rows /\
             forall other, other <> user_id ->
               filter (in_cart_of other) rows = filter (in_cart_of other) (cart_items db)).
  { exists (cart_items db). split; [now rewrite set_cart_items_same|reflexivity]. }
  assert (Hupd : forall p n other, other <> user_id ->
             filter (in_cart_of other)
               (update_first (is_cart_row user_id p)
                  (fun c => CartItem.set_quantity c n) (cart_items db))
             = filter (in_cart_of other) (cart_items db)).
  { intros p n other Hne. apply filter_update_first_other; intros x Hx;
      apply (other_user_row user_id); [exact Hne| |exact Hne|];
      now apply (is_cart_row_in_cart _ p). }
  assert (Hdel : forall p other, other <> user_id ->
             filter (in_cart_of other)
               (delete_first (is_cart_row user_id p) (cart_items db))
             = filter (in_cart_of other) (cart_items db)).
  { intros p other Hne. apply filter_delete_first_other. intros x Hx.
    apply (other_user_row user_id); [exact Hne|]. now apply (is_cart_row_in_cart _ p). }
  assert (Hrem : forall p, exists rows,
             snd (remove_from_cart db user_id p) = set_cart_items db rows /\
             forall other, other <> user_id ->
               filter (in_cart_of other) rows
               = filter (in_cart_of other) (cart_items db)).
  { intros p. unfold remove_from_cart. cbn [get_session working committed close].
    destruct (find (is_cart_row user_id p) (cart_items db)); [|exact Hsame].
    eexists. split; [reflexivity|]. apply Hdel. }
  destruct op as [u p q|u p q|u p|u| | |]; cbn [cart_op_user]; intros Hop;
    try discriminate Hop; injection Hop as ->; cbn [step].
  - unfold add_to_cart. cbn [get_session working committed close].
    destruct (active_product db p) as [product|]; [|exact Hsame].
    destruct (Product.stock_quantity product <? q); [exact Hsame|].
    destruct (find (is_cart_row user_id p) (cart_items db)) as [e|].
    + destruct (Product.stock_quantity product <? CartItem.quantity e + q);
        [exact Hsame|].
      eexists. split; [reflexivity|]. apply Hupd.
    + eexists. split; [reflexivity|]. intros other Hne.
      rewrite filter_app_bool, filter_cons_bool.
      rewrite (other_user_row user_id other _ Hne);
        [now rewrite app_nil_r|apply Z.eqb_refl].
  - unfold update_cart_item_quantity. cbn [get_session working committed close].
    destruct (q <=? 0); [apply Hrem|].
    destruct (find (is_cart_row user_id p) (cart_items db)); [|exact Hsame].
    destruct (products db !! p) as [product|]; [|exact Hsame].
    destruct (Product.stock_quantity product <? q); [exact Hsame|].
    eexists. split; [reflexivity|]. apply Hupd.
  - apply Hrem.
  - eexists. split; [reflexivity|]. intros other Hne.
    apply filter_filter_other. intros c Hc.
    unfold in_cart_of in *. apply Z.eqb_eq in Hc. rewrite Hc.
    apply Z.eqb_neq in Hne. now rewrite Hne.
Qed.

End Frames.

(** X10. A call on the cart of a user (add, change of quantity, removal,
    clearing) changes nothing but rows of that user: the users, products,
    orders and association rows are as before, and so are the cart rows of
    every other user, in the same order. *)
Theorem cart_calls_confined {F : Type} {arith : Arith F}
    (db : DB F) (op : Op) (user_id : Z)
    (Hop : cart_op_user op = Some user_id) :
  users (step db op) = users db /\
  products (step db op) = products db /\
  orders (step db op) = orders db /\
  order_items (step db op) = order_items db /\
  forall other, other <> user_id ->
    filter (in_cart_of other) (cart_items (step db op))
    = filter (in_cart_of other) (cart_items db).
Proof.
  destruct (cart_op_rows db op user_id Hop) as (rows & -> & Hother).
  repeat split. exact Hother.
Qed.

(** X10 with two users: user 1 removes the watch, the row of user 2
    stays. *)
Lemma cart_calls_confined_witness :
  cart_op_user (OpRemove 1 7) = Some 1 /\
  filter (in_cart_of 2) (cart_items (step sample_two_carts_db (OpRemove 1 7)))
  = [CartItem.mk 2 2 7 1].
Proof.
  split; [reflexivity|].
  destruct (cart_calls_confined sample_two_carts_db (OpRemove 1 7) 1 eq_refl)
    as (_ & _ & _ & _ & Hother).
  rewrite (Hother 2); [reflexivity|lia].
Defined.

(** ** Invariants of every run *)

Section RunInvariants.
Context {F : Type} {arith : Arith F}.

Lemma map_update_first {T U : Type} (h : T -> U) (f : T -> bool) (g : T -> T)
    (l : list T) :
  (forall x, h (g x) = h x) -> map h (update_first f g l) = map h l.
Proof.
  intros Hg. induction l as [|x l IH]; [reflexivity|]. cbn [update_first].
  destruct (f x); cbn [map]; [now rewrite Hg|now rewrite IH].
Qed.

(** A checkout that succeeds drew a number that no order had, and its
    association rows passed the primary key. *)
Lemma create_order_from_cart_inv (db : DB F) user_id shipping_info payment_method
    today random_bytes now :
  (exists msg,
     create_order_from_cart db user_id shipping_info payment_method today
       random_bytes now = (failure msg, None, db)) \/
  (exists ps appended,
     create_order_from_cart db user_id shipping_info payment_method today
       random_bytes now
     = (ok "Order created successfully",
        Some (checkout_order db user_id shipping_info payment_method today
                random_bytes now),
        checkout_db db user_id shipping_info payment_method today random_bytes now
          ps appended) /\
     ~ In (_generate_order_number today random_bytes)
          (map Order.order_number (orders db)) /\
     flush_order_items (order_items db)
       (Order.id (checkout_order db user_id shipping_info payment_method today
                    random_bytes now)) appended
     = inr (order_items
              (checkout_db db user_id shipping_info payment_method today
                 random_bytes now ps appended))).
Proof.
  unfold create_order_from_cart.
  destruct (valid (validate_cart_for_checkout db user_id)); cbn [negb];
    [|left; eexists; reflexivity].
  destruct (items (get_cart_summary db user_id)); [left; eexists; reflexivity|].
  unfold create_order_body. cbn [get_session working committed stage].
  fold (checkout_order db user_id shipping_info payment_method today random_bytes now).
  unfold flush_order.
  destruct (existsb _ (orders db)) eqn:Hnumber; cbn [bind raise ret];
    [left; eexists; reflexivity|].
  cbn [set_orders cart_items products]. fold (checkout_lines db user_id).
  destruct (order_lines (products db) [] (checkout_lines db user_id))
    as [e|[msg|[ps appended]]]; cbn [bind];
    [left; eexists; reflexivity|left; eexists; reflexivity|].
  cbn [set_orders set_products set_cart_items set_order_items working committed
       stage commit get_session order_items cart_items users products orders].
  destruct (flush_order_items (order_items db)
              (Order.id (checkout_order db user_id shipping_info payment_method
                           today random_bytes now)) appended)
    as [e|rows] eqn:Hflush; cbn [bind ret];
    [left; eexists; reflexivity|].
  right. exists ps, appended.
  pose proof (flush_order_items_ok _ _ _ _ Hflush) as ->.
  split; [reflexivity|]. split; [|exact Hflush].
  intros Hin. apply in_map_iff in Hin. destruct Hin as (o & Ho & Hin).
  apply not_true_iff_false in Hnumber. apply Hnumber.
  apply existsb_exists. exists o. split; [exact Hin|]. now apply String.eqb_eq.
Qed.

Lemma order_keys_step (db : DB F) (op : Op) :
  order_keys_ok db -> order_items_owned db ->
  order_keys_ok (step db op) /\ order_items_owned (step db op).
Proof.
  intros Hkeys Howned.
  destruct (cart_op_user op) as [u|] eqn:Hop.
  { destruct (cart_op_rows db op u Hop) as (rows & -> & _). now split. }
  destruct op as [| | | |u info pm today rb now|o u now|p d]; try discriminate Hop;
    cbn [step].
  - destruct (create_order_from_cart_inv db u info pm today rb now)
      as [[m ->]|(ps & app & -> & Hnumber & Hflush)]; [now split|].
    destruct Hkeys as (Hids & Hnumbers & Hpk). cbn [snd]. split; [split; [|split]|].
    + cbn [checkout_db orders]. rewrite map_app. apply NoDup_app.
      split; [exact Hids|]. split; [|constructor; [|constructor]].
      * intros x Hx Hx'. apply list_elem_of_In in Hx, Hx'. destruct Hx' as [<-|[]].
        apply next_id_above in Hx. cbn in Hx. lia.
      * intros Hx. apply list_elem_of_In in Hx. destruct Hx.
    + cbn [checkout_db orders]. rewrite map_app. apply NoDup_app.
      split; [exact Hnumbers|]. split; [|constructor; [|constructor]].
      * intros x Hx Hx'. apply list_elem_of_In in Hx, Hx'. destruct Hx' as [<-|[]].
        now apply Hnumber.
      * intros Hx. apply list_elem_of_In in Hx. destruct Hx.
    + apply (flush_order_items_nodup _ _ _ _ Hflush Hpk).
    + intros row Hrow. cbn [checkout_db order_items orders] in *.
      rewrite map_app. apply in_or_app. apply in_app_or in Hrow.
      destruct Hrow as [Hrow|Hrow]; [left; now apply Howned|right].
      apply in_map_iff in Hrow. destruct Hrow as (pid & <- & _). now left.
  - unfold cancel_order. cbn [get_session working committed close].
    destruct (find (order_matches o u) (orders db)) as [order|]; [|now split].
    destruct (not_cancellable (Order.status order)); [now split|].
    cbn [snd close commit stage working committed set_orders set_products].
    unfold order_keys_ok, order_items_owned.
    cbn [orders order_items set_orders set_products].
    rewrite !map_update_first by (intros x; reflexivity).
    now split.
  - unfold update_stock. cbn [get_session working committed close].
    destruct (products db !! p) as [product|]; [|now split].
    destruct (Product.stock_quantity product + d <? 0); now split.
Qed.

Lemma cart_items_cancel_order (db : DB F) o u now :
  cart_items (snd (cancel_order db o u now)) = cart_items db.
Proof.
  unfold cancel_order. cbn [get_session working committed close].
  destruct (find (order_matches o u) (orders db)) as [order|]; [|reflexivity].
  now destruct (not_cancellable (Order.status order)).
Qed.

Lemma cart_items_update_stock (db : DB F) p d :
  cart_items (snd (update_stock db p d)) = cart_items db.
Proof.
  unfold update_stock. cbn [get_session working committed close].
  destruct (products db !! p) as [product|]; [|reflexivity].
  now destruct (Product.stock_quantity product + d <? 0).
Qed.

Lemma cart_wf_step (db : DB F) (op : Op) :
  match op with OpAdd _ _ q => 1 <= q | _ => True end ->
  cart_wf (cart_items db) -> cart_wf (cart_items (step db op)).
Proof.
  intros Hq Hwf. destruct op as [u p q|u p q|u p|u|u info pm today rb now|o u now|p d];
    cbn [step].
  - now apply cart_wf_add_to_cart.
  - now apply cart_wf_update_cart_item_quantity.
  - now apply cart_wf_remove_from_cart.
  - now apply cart_wf_clear_cart.
  - destruct (create_order_from_cart_cases db u info pm today rb now)
      as [[m ->]|(ps & app & _ & ->)]; [exact Hwf|].
    cbn [snd checkout_db cart_items]. now apply cart_wf_filter.
  - now rewrite cart_items_cancel_order.
  - now rewrite cart_items_update_stock.
Qed.

End RunInvariants.

(** X11. Every run of calls keeps the keys of the order tables: order ids
    pairwise distinct, order numbers pairwise distinct, no association row
    twice, and every association row attached to an order of the table. *)
Theorem order_keys_kept {F : Type} {arith : Arith F} (ops : list Op) (db : DB F)
    (Hkeys : order_keys_ok db) (Howned : order_items_owned db) :
  order_keys_ok (run db ops) /\ order_items_owned (run db ops).
Proof.
  revert db Hkeys Howned. unfold run.
  induction ops as [|op ops IH]; intros db Hkeys Howned; [now split|].
  cbn [fold_left]. destruct (order_keys_step db op Hkeys Howned) as [H1 H2].
  now apply IH.
Qed.

(** X12. A run in which every add asks for at least one unit keeps the
    invariant of the cart table: quantities of at least 1 and at most one
    row per user and product, through checkouts and cancellations too. *)
Theorem cart_wf_kept {F : Type} {arith : Arith F} (ops : list Op) (db : DB F)
    (Hadds : adds_positive ops) (Hwf : cart_wf (cart_items db)) :
  cart_wf (cart_items (run db ops)).
Proof.
  revert db Hwf. unfold run.
  induction ops as [|op ops IH]; intros db Hwf; [exact Hwf|].
  apply List.Forall_cons_iff in Hadds. destruct Hadds as [Hop Hadds].
  cbn [fold_left]. apply (IH Hadds). now apply cart_wf_step.
Qed.

(** X11 from the empty order tables, through an add, a checkout and a
    cancellation. *)
Lemma order_keys_kept_witness :
  order_keys_ok sample_db /\ order_items_owned sample_db /\
  order_keys_ok
    (run sample_db
       [OpAdd 1 7 3;
        OpCheckout 1 sample_shipping "stripe" sample_date sample_bytes 100;
        OpCancel 1 None 200]).
Proof.
  assert (Hkeys : order_keys_ok sample_db) by (repeat split; constructor).
  assert (Howned : order_items_owned sample_db) by (intros row []).
  split; [exact Hkeys|]. split; [exact Howned|].
  exact (proj1 (order_keys_kept _ sample_db Hkeys Howned)).
Defined.

(** X12 from the empty cart, through two adds of the same watch, a change
    of quantity and a checkout. *)
Lemma cart_wf_kept_witness :
  adds_positive
    [OpAdd 1 7 1; OpAdd 1 7 2; OpSetQuantity 1 7 4;
     OpCheckout 1 sample_shipping "stripe" sample_date sample_bytes 100] /\
  cart_wf (cart_items sample_db) /\
  cart_wf
    (cart_items
       (run sample_db
          [OpAdd 1 7 1; OpAdd 1 7 2; OpSetQuantity 1 7 4;
           OpCheckout 1 sample_shipping "stripe" sample_date sample_bytes 100])).
Proof.
  assert (Hadds : adds_positive
            [OpAdd 1 7 1; OpAdd 1 7 2; OpSetQuantity 1 7 4;
             OpCheckout 1 sample_shipping "stripe" sample_date sample_bytes 100]).
  { repeat constructor; lia. }
  assert (Hwf : cart_wf (cart_items sample_db)).
  { split; [constructor|]. intros u p. cbn. lia. }
  split; [exact Hadds|]. split; [exact Hwf|].
  exact (cart_wf_kept _ sample_db Hadds Hwf).
Defined.

(** ** Who may cancel an order *)

(** X13. [cancel_order] checks the owner only for a user id that is not 0:
    with a user id other than 0 that owns no order of that id, the call
    fails with "Order not found" and changes nothing; with the user id 0,
    as with none, the order is cancelled whoever owns it. *)
Theorem cancel_order_ownership {F : Type}
    (db : DB F) (order_id : Z) (now : Z) :
  cancel_order db order_id (Some 0) now = cancel_order db order_id None now /\
  (forall user_id,
     user_id <> 0 ->
     (forall o, In o (orders db) -> Order.id o = order_id ->
                Order.user_id o <> user_id) ->
     cancel_order db order_id (Some user_id) now = (failure "Order not found", db)).
Proof.
  split; [reflexivity|].
  intros user_id Hne Hother. unfold cancel_order.
  cbn [get_session working committed close].
  assert (Hfind : find (order_matches order_id (Some user_id)) (orders db) = None).
  { induction (orders db) as [|o os IH]; [reflexivity|]. cbn [find].
    unfold order_matches at 1. cbn [truthy].
    apply Z.eqb_neq in Hne. rewrite Hne.
    destruct (Z.eqb_spec (Order.id o) order_id) as [Hid|_]; cbn [andb].
    - pose proof (Hother o (or_introl eq_refl) Hid) as Hu.
      apply Z.eqb_neq in Hu. rewrite Hu. apply IH.
      intros o' Ho'. apply Hother. now right.
    - apply IH. intros o' Ho'. apply Hother. now right. }
  now rewrite Hfind.
Qed.

(** X13 at the sample order of user 1: user 2 cannot cancel it, user id 0
    can. *)
Lemma cancel_order_ownership_witness :
  cancel_order sample_order_db 1 (Some 2) 200 = (failure "Order not found", sample_order_db) /\
  fst (cancel_order sample_order_db 1 (Some 0) 200) = ok "Order cancelled successfully".
Proof.
  destruct (cancel_order_ownership sample_order_db 1 200) as [Hzero Hother].
  split.
  - apply Hother; [lia|]. intros o [<-|[]] _. cbn. lia.
  - rewrite Hzero. reflexivity.
Defined.

(** ** Stock updates *)

(** X14. [update_stock] returns [False] and changes nothing when the
    product is missing or the change would take the stock below zero;
    otherwise it returns [True], the stock of the product is the old stock
    plus the change, and nothing else changes. In particular it succeeds for
    the removal of any quantity that [check_stock_availability] reports as
    available. *)
Theorem update_stock_spec {F : Type} (db : DB F) (product_id quantity_change : Z) :
  (products db !! product_id = None ->
   update_stock db product_id quantity_change = (false, db)) /\
  (forall product,
     products db !! product_id = Some product ->
     (Product.stock_quantity product + quantity_change < 0 ->
      update_stock db product_id quantity_change = (false, db)) /\
     (0 <= Product.stock_quantity product + quantity_change ->
      update_stock db product_id quantity_change
      = (true,
         set_products db
           (<[product_id := Product.set_stock_quantity product
                              (Product.stock_quantity product + quantity_change)]>
              (products db))))) /\
  (forall requested,
     check_stock_availability db product_id requested = true ->
     fst (update_stock db product_id (- requested)) = true).
Proof.
  unfold update_stock, check_stock_availability.
  cbn [get_session working committed close]. split; [|split].
  - intros ->. reflexivity.
  - intros product ->. split; intros H.
    + apply Z.ltb_lt in H. now rewrite H.
    + apply Z.ltb_ge in H. now rewrite H.
  - intros requested. destruct (products db !! product_id) as [product|];
      [|discriminate].
    intros H. apply Z.geb_le in H.
    destruct (Z.ltb_spec (Product.stock_quantity product + - requested) 0);
      [lia|reflexivity].
Qed.

(** X14 at the watch (stock 5): 5 are available and can be taken, 6 are
    not. *)
Lemma update_stock_spec_witness :
  fst (update_stock sample_db 7 (-5)) = true /\
  update_stock sample_db 7 (-6) = (false, sample_db).
Proof.
  destruct (update_stock_spec sample_db 7 (-5)) as (_ & _ & Havailable).
  destruct (update_stock_spec sample_db 7 (-6)) as (_ & Hproduct & _).
  split.
  - apply (Havailable 5). reflexivity.
  - apply (Hproduct sample_watch eq_refl). cbn. lia.
Defined.

(** X15. A stock update that succeeds is undone by the opposite update,
    provided the stock was not negative to begin with: the products are
    then exactly as before. *)
Theorem update_stock_round_trip {F : Type}
    (db db' : DB F) (product_id quantity_change : Z) (product : Product.t F)
    (Hproduct : products db !! product_id = Some product)
    (Hstock : 0 <= Product.stock_quantity product)
    (Hcall : update_stock db product_id quantity_change = (true, db')) :
  exists db'',
    update_stock db' product_id (- quantity_change) = (true, db'') /\
    products db'' = products db.
Proof.
  unfold update_stock in *. cbn [get_session working committed close] in *.
  rewrite Hproduct in Hcall.
  destruct (Product.stock_quantity product + quantity_change <? 0); [discriminate|].
  injection Hcall as <-.
  cbn [commit stage working committed set_products products].
  rewrite lookup_insert_eq. cbn [Product.set_stock_quantity Product.stock_quantity].
  destruct (Z.ltb_spec (Product.stock_quantity product + quantity_change
                        + - quantity_change) 0); [lia|].
  eexists. split; [reflexivity|]. cbn [products].
  rewrite insert_insert_eq.
  apply insert_id. rewrite Hproduct. f_equal.
  destruct product. unfold Product.set_stock_quantity. cbn. f_equal. lia.
Qed.

(** X15 at the watch: 4 units out, 4 units back. *)
Lemma update_stock_round_trip_witness :
  exists db' db'',
    update_stock sample_db 7 (-4) = (true, db') /\
    update_stock db' 7 4 = (true, db'') /\
    products db'' = products sample_db.
Proof.
  exists (snd (update_stock sample_db 7 (-4))).
  destruct (update_stock_round_trip sample_db (snd (update_stock sample_db 7 (-4)))
              7 (-4) sample_watch eq_refl)
    as (db'' & Hback & Hsame); [cbn; lia|reflexivity|].
  exists db''. split; [reflexivity|]. split; [exact Hback|exact Hsame].
Defined.

(** ** Order status *)

Section StatusFacts.
Context {F : Type}.

Lemma find_ext {T : Type} (f g : T -> bool) (l : list T) :
  (forall x, f x = g x) -> find f l = find g l.
Proof.
  intros H. induction l as [|x l IH]; [reflexivity|]. cbn [find].
  now rewrite H, IH.
Qed.

Lemma has_id_matches (order_id : Z) (o : Order.t F) :
  has_id order_id o = order_matches order_id None o.
Proof. unfold has_id, order_matches. cbn [truthy]. now rewrite andb_true_r. Qed.

Lemma extra_of_update_extra (f : Order.t F -> bool) (g : OrderExtra -> OrderExtra)
    (os : list (Order.t F)) :
  forall extra,
  extra_of f os (update_extra f g os extra) = g <$> extra_of f os extra.
Proof.
  induction os as [|o os IH]; intros extra; [reflexivity|].
  cbn [extra_of update_extra]. destruct (f o); [reflexivity|].
  cbn [tl]. apply IH.
Qed.

Lemma extra_of_found (f : Order.t F -> bool) (os : list (Order.t F)) (o : Order.t F) :
  forall extra,
  find f os = Some o -> exists x, extra_of f os extra = Some x.
Proof.
  induction os as [|o' os IH]; intros extra; [discriminate|].
  cbn [find extra_of]. destruct (f o'); [eauto|]. apply IH.
Qed.

Lemma valid_status_iff (status : string) :
  existsb (String.eqb status) valid_statuses = true <-> In status valid_statuses.
Proof.
  rewrite existsb_exists. split.
  - intros (s & Hs & Heq). apply String.eqb_eq in Heq. now subst.
  - intros Hs. exists status. split; [exact Hs|apply String.eqb_refl].
Qed.

(** A cancellation that goes through, as one equation. *)
Lemma cancel_order_ok (db : DB F) (order_id : Z) (user_id : option Z) (now : Z)
    (o : Order.t F) :
  find (order_matches order_id user_id) (orders db) = Some o ->
  not_cancellable (Order.status o) = false ->
  cancel_order db order_id user_id now
  = (ok "Order cancelled successfully",
     set_orders
       (set_products db
          (fold_left restore_one (ids_of_order (order_items db) (Order.id o))
             (products db)))
       (update_first (order_matches order_id user_id)
          (fun o => Order.set_status o "cancelled" now) (orders db))).
Proof.
  intros Hfind Hstatus. unfold cancel_order.
  cbn [get_session working committed close]. now rewrite Hfind, Hstatus.
Qed.

End StatusFacts.

(** X16. [update_order_status] refuses an order id that is not in the
    table with "Order not found" and, for an order of the table, a status
    outside the six known ones with "Invalid status"; either way nothing
    changes. *)
Theorem update_order_status_refusals {F : Type}
    (db : DB F) (extra : list OrderExtra) (order_id : Z) (status : string)
    (reference : option string) (now stamped : Z) :
  (find (has_id order_id) (orders db) = None ->
   update_order_status db extra order_id status reference now stamped
   = (failure "Order not found", db, extra)) /\
  (forall o,
     find (has_id order_id) (orders db) = Some o ->
     ~ In status valid_statuses ->
     update_order_status db extra order_id status reference now stamped
     = (failure "Invalid status", db, extra)).
Proof.
  unfold update_order_status. cbn [get_session working committed close]. split.
  - intros ->. reflexivity.
  - intros o -> Hstatus.
    destruct (existsb (String.eqb status) valid_statuses) eqn:Hex; [|reflexivity].
    apply valid_status_iff in Hex. contradiction.
Qed.

(** X16 at the sample order: no order 9, and "Shipped" with a capital is
    not a status. *)
Lemma update_order_status_refusals_witness :
  update_order_status sample_order_db [] 9 "shipped" None 300 301
  = (failure "Order not found", sample_order_db, []) /\
  update_order_status sample_order_db [] 1 "Shipped" None 300 301
  = (failure "Invalid status", sample_order_db, []).
Proof.
  destruct (update_order_status_refusals sample_order_db [] 9 "shipped" None 300 301)
    as [Hmissing _].
  destruct (update_order_status_refusals sample_order_db [] 1 "Shipped" None 300 301)
    as [_ Hinvalid].
  split; [now apply Hmissing|].
  apply (Hinvalid sample_order eq_refl). cbn. intuition discriminate.
Defined.

(** X17. For an order of the table, [update_order_status] accepts each of
    the six statuses whatever the current status is, a cancelled, shipped or
    delivered order included. The order then has the new status; its payment
    status is "paid" when a payment reference that is not empty is given and
    unchanged otherwise; [shipped_at] is stamped for "shipped" and
    [delivered_at] for "delivered", and a stamp is never cleared by a later
    status. The other orders, the products (so the stock), the carts and the
    association rows are unchanged. *)
Theorem update_order_status_any_transition {F : Type}
    (db : DB F) (extra : list OrderExtra) (order_id : Z) (status : string)
    (reference : option string) (now stamped : Z) (o : Order.t F)
    (Hfind : find (has_id order_id) (orders db) = Some o)
    (Hstatus : In status valid_statuses) :
  exists db' extra' o' x x',
    update_order_status db extra order_id status reference now stamped
    = (ok ("Order status updated to " +:+ status), db', extra') /\
    find (has_id order_id) (orders db') = Some o' /\
    Order.status o' = status /\
    Order.payment_status o'
    = (if truthy_str reference then "paid"%string else Order.payment_status o) /\
    Order.order_number o' = Order.order_number o /\
    Order.user_id o' = Order.user_id o /\
    extra_of (has_id order_id) (orders db) extra = Some x /\
    extra_of (has_id order_id) (orders db) extra' = Some x' /\
    shipped_at x'
    = (if String.eqb status "shipped" then Some stamped else shipped_at x) /\
    delivered_at x'
    = (if String.eqb status "delivered" then Some stamped else delivered_at x) /\
    filter (fun o => negb (has_id order_id o)) (orders db')
    = filter (fun o => negb (has_id order_id o)) (orders db) /\
    products db' = products db /\ cart_items db' = cart_items db /\
    users db' = users db /\ order_items db' = order_items db.
Proof.
  destruct (extra_of_found _ _ _ extra Hfind) as (x & Hx).
  unfold update_order_status. cbn [get_session working committed close].
  rewrite Hfind. apply valid_status_iff in Hstatus. rewrite Hstatus. cbn [negb].
  eexists _, _, (set_order_status o status reference now), x,
    (stamp_extra x status reference stamped).
  split; [reflexivity|].
  cbn [commit stage working committed set_orders orders products cart_items users
       order_items].
  split.
  { apply (find_update_first (has_id order_id)
             (fun o => set_order_status o status reference now));
      [intros y; reflexivity|exact Hfind]. }
  split; [reflexivity|]. split; [reflexivity|]. split; [reflexivity|].
  split; [reflexivity|]. split; [exact Hx|]. split.
  { rewrite extra_of_update_extra, Hx. reflexivity. }
  split; [reflexivity|]. split.
  { cbn [stamp_extra delivered_at].
    destruct (String.eqb_spec status "shipped") as [->|_]; reflexivity. }
  split; [|repeat split].
  apply filter_negb_update_first. intros y. reflexivity.
Qed.

(** X17 at the cancelled sample order: it is put back to "pending" and
    the stock stays at 3. *)
Lemma update_order_status_any_transition_witness :
  exists db' extra',
    update_order_status sample_cancelled_db [] 1 "pending" None 300 301
    = (ok "Order status updated to pending", db', extra') /\
    Order.status <$> find (has_id 1) (orders db') = Some "pending"%string /\
    Product.stock_quantity <$> products db' !! 7 = Some 3.
Proof.
  destruct (update_order_status_any_transition sample_cancelled_db [] 1 "pending" None
              300 301 _ eq_refl)
    as (db' & extra' & o' & x & x' & Hcall & Hfound & Hnew & _ & _ & _ & _ & _ & _ & _
        & _ & Hproducts & _); [now left|].
  exists db', extra'. split; [exact Hcall|]. split.
  - rewrite Hfound. cbn. now rewrite Hnew.
  - rewrite Hproducts. reflexivity.
Defined.

(** X18. An order that is cancelled, put back to a status that can be
    cancelled, and cancelled again gives its products their unit twice:
    nothing records that the stock has already been given back. The
    association table respects its primary key. *)
Theorem cancel_reopen_cancel_restores_twice {F : Type}
    (db : DB F) (extra : list OrderExtra) (order_id product_id : Z)
    (status : string) (reference : option string) (t1 t2 stamped t3 : Z)
    (o : Order.t F) (p : Product.t F)
    (Hfind : find (order_matches order_id None) (orders db) = Some o)
    (Hopen : not_cancellable (Order.status o) = false)
    (Hstatus : In status valid_statuses)
    (Hreopen : not_cancellable status = false)
    (Hpk : NoDup (order_items db))
    (Hlinked : In (order_id, product_id) (order_items db))
    (Hproduct : products db !! product_id = Some p) :
  exists db1 db2 extra2 db3,
    cancel_order db order_id None t1 = (ok "Order cancelled successfully", db1) /\
    update_order_status db1 extra order_id status reference t2 stamped
    = (ok ("Order status updated to " +:+ status), db2, extra2) /\
    cancel_order db2 order_id None t3 = (ok "Order cancelled successfully", db3) /\
    products db1 !! product_id
    = Some (Product.set_stock_quantity p (Product.stock_quantity p + 1)) /\
    products db3 !! product_id
    = Some (Product.set_stock_quantity p (Product.stock_quantity p + 2)).
Proof.
  assert (Hid : Order.id o = order_id).
  { apply find_some_in in Hfind. destruct Hfind as [_ Hm].
    rewrite <- has_id_matches in Hm. now apply Z.eqb_eq in Hm. }
  pose proof (cancel_order_ok db order_id None t1 o Hfind Hopen) as Hc1.
  rewrite Hid in Hc1.
  set (ids := ids_of_order (order_items db) order_id) in *.
  set (ps1 := fold_left restore_one ids (products db)) in *.
  set (os1 := update_first (order_matches order_id None)
                (fun o => Order.set_status o "cancelled" t1) (orders db)) in *.
  set (db1 := set_orders (set_products db ps1) os1) in *.
  assert (Hfind1 : find (has_id order_id) (orders db1)
                   = Some (Order.set_status o "cancelled" t1)).
  { rewrite (find_ext _ _ _ (has_id_matches order_id)). unfold db1, os1.
    cbn [orders set_orders].
    apply (find_update_first (order_matches order_id None)
             (fun o => Order.set_status o "cancelled" t1));
      [intros y; reflexivity|exact Hfind]. }
  set (o2 := set_order_status (Order.set_status o "cancelled" t1) status reference t2).
  set (os2 := update_first (has_id order_id)
                (fun o => set_order_status o status reference t2) (orders db1)).
  set (db2 := set_orders db1 os2).
  assert (Hc2 : update_order_status db1 extra order_id status reference t2 stamped
                = (ok ("Order status updated to " +:+ status), db2,
                   update_extra (has_id order_id)
                     (fun x => stamp_extra x status reference stamped)
                     (orders db1) extra)).
  { unfold update_order_status. cbn [get_session working committed close].
    rewrite Hfind1. apply valid_status_iff in Hstatus. now rewrite Hstatus. }
  assert (Hfind2 : find (order_matches order_id None) (orders db2) = Some o2).
  { rewrite <- (find_ext _ _ _ (has_id_matches order_id)). unfold db2, os2.
    cbn [orders set_orders].
    apply (find_update_first (has_id order_id)
             (fun o => set_order_status o status reference t2));
      [intros y; reflexivity|exact Hfind1]. }
  pose proof (cancel_order_ok db2 order_id None t3 o2 Hfind2 Hreopen) as Hc3.
  change (Order.id o2) with (Order.id o) in Hc3. rewrite Hid in Hc3.
  change (order_items db2) with (order_items db) in Hc3.
  change (products db2) with ps1 in Hc3. fold ids in Hc3.
  eexists _, _, _, _. split; [exact Hc1|]. split; [exact Hc2|]. split; [exact Hc3|].
  pose proof (times_in_present _ _ _ Hpk Hlinked) as Hone. fold ids in Hone.
  split.
  - unfold db1. cbn [products set_orders set_products]. unfold ps1.
    now rewrite restore_fold, Hproduct, Hone.
  - cbn [products set_orders set_products]. unfold ps1.
    rewrite !restore_fold, Hproduct, Hone. cbn.
    unfold Product.set_stock_quantity. cbn. do 2 f_equal. lia.
Qed.

(** X18 at the sample order (stock 2 after 3 were bought): cancelled,
    re-opened as "pending" and cancelled again, the stock is 4. *)
Lemma cancel_reopen_cancel_restores_twice_witness :
  exists db1 db2 extra2 db3,
    cancel_order sample_order_db 1 None 200 = (ok "Order cancelled successfully", db1) /\
    update_order_status db1 [] 1 "pending" None 300 301
    = (ok "Order status updated to pending", db2, extra2) /\
    cancel_order db2 1 None 400 = (ok "Order cancelled successfully", db3) /\
    Product.stock_quantity <$> products db3 !! 7 = Some 4.
Proof.
  assert (Hpk : NoDup (order_items sample_order_db)).
  { constructor; [intros H; inversion H|constructor]. }
  destruct (cancel_reopen_cancel_restores_twice sample_order_db [] 1 7 "pending" None
              200 300 301 400 sample_order (Product.set_stock_quantity sample_watch 2)
              eq_refl eq_refl (or_introl eq_refl) eq_refl Hpk (or_introl eq_refl)
              eq_refl)
    as (db1 & db2 & extra2 & db3 & H1 & H2 & H3 & _ & Hstock).
  exists db1, db2, extra2, db3. split; [exact H1|]. split; [exact H2|].
  split; [exact H3|]. rewrite Hstock. reflexivity.
Defined.

(** ** Stored credentials *)

Section CredentialFacts.

Lemma append_cons (c : ascii) (a s : string) : String c a +:+ s = String c (a +:+ s).
Proof. reflexivity. Qed.

Lemma append_empty (s : string) : EmptyString +:+ s = s.
Proof. reflexivity. Qed.

Lemma split_on_nonempty (sep : ascii) (s : string) : split_on sep s <> [].
Proof.
  destruct s as [|c s]; cbn [split_on]; [discriminate|].
  destruct (Ascii.eqb c sep); [discriminate|].
  destruct (split_on sep s); discriminate.
Qed.

(** [split] gives one piece more than there are separators. *)
Lemma split_on_length (s : string) :
  length (split_on ":" s) = S (colons s).
Proof.
  unfold colons. induction s as [|c s IH]; [reflexivity|].
  cbn [split_on list_ascii_of_string]. rewrite filter_cons_bool.
  destruct (Ascii.eqb c ":"); cbn [length]; [now rewrite IH|].
  destruct (split_on ":" s) as [|piece pieces] eqn:Hs;
    [now destruct (split_on_nonempty ":" s)|].
  cbn [length] in *. exact IH.
Qed.

Lemma split_on_colon_free (s : string) : colon_free s -> split_on ":" s = [s].
Proof.
  unfold colon_free. induction s as [|c s IH]; [reflexivity|].
  cbn [split_on list_ascii_of_string In]. intros Hfree.
  destruct (Ascii.eqb_spec c ":") as [->|_]; [exfalso; apply Hfree; now left|].
  rewrite IH; [reflexivity|]. intros Hin. apply Hfree. now right.
Qed.

Lemma split_on_salted (salt digest : string) :
  colon_free salt -> colon_free digest ->
  split_on ":" (salt +:+ ":" +:+ digest) = [salt; digest].
Proof.
  intros Hsalt Hdigest. unfold colon_free in Hsalt.
  induction salt as [|c salt IH].
  - rewrite append_empty, append_cons, append_empty. cbn [split_on].
    rewrite Ascii.eqb_refl. now rewrite split_on_colon_free.
  - rewrite append_cons. cbn [split_on list_ascii_of_string In] in *.
    destruct (Ascii.eqb_spec c ":") as [->|_]; [exfalso; apply Hsalt; now left|].
    rewrite IH; [reflexivity|]. intros Hin. apply Hsalt. now right.
Qed.

Lemma hex_char_not_colon (b : Byte.byte) :
  hex_char (Byte.to_N b / 16) <> ":"%char /\ hex_char (Byte.to_N b mod 16) <> ":"%char.
Proof. destruct b; split; discriminate. Qed.

Lemma token_hex_colon_free (random_bytes : list Byte.byte) :
  colon_free (token_hex random_bytes).
Proof.
  unfold colon_free. induction random_bytes as [|b rest IH]; [intros []|].
  cbn [token_hex list_ascii_of_string In].
  destruct (hex_char_not_colon b) as [H1 H2].
  intros [H|[H|H]]; [now apply H1|now apply H2|now apply IH].
Qed.

End CredentialFacts.

(** X19. A credential made by [_hash_password] verifies the password it
    was made from, and verifies another password exactly when the digests
    of the two passwords with the salt coincide. The digest of the password
    with the salt holds no colon, as a hexadecimal digest does. *)
Theorem verify_password_round_trip (sha256_hexdigest : string -> string)
    (password : string) (random_bytes : list Byte.byte)
    (Hdigest : colon_free (sha256_hexdigest (password +:+ token_hex random_bytes))) :
  _verify_password sha256_hexdigest password
    (_hash_password sha256_hexdigest password random_bytes) = true /\
  forall other,
    _verify_password sha256_hexdigest other
      (_hash_password sha256_hexdigest password random_bytes) = true
    <-> sha256_hexdigest (other +:+ token_hex random_bytes)
        = sha256_hexdigest (password +:+ token_hex random_bytes).
Proof.
  unfold _verify_password, _hash_password.
  rewrite (split_on_salted _ _ (token_hex_colon_free random_bytes) Hdigest).
  split; [apply String.eqb_refl|]. intros other. apply String.eqb_eq.
Qed.

(** X19 with the stand-in digest and the password of the administrator. *)
Lemma verify_password_round_trip_witness :
  _verify_password sample_digest "admin123"
    (_hash_password sample_digest "admin123" sample_bytes) = true /\
  _verify_password sample_digest "admin124"
    (_hash_password sample_digest "admin123" sample_bytes) = false.
Proof.
  assert (Hdigest : colon_free (sample_digest ("admin123" +:+ token_hex sample_bytes))).
  { unfold colon_free. cbv. intuition discriminate. }
  destruct (verify_password_round_trip sample_digest "admin123" sample_bytes Hdigest)
    as [Hsame Hother].
  split; [exact Hsame|].
  apply not_true_is_false. intros H. apply Hother in H. discriminate H.
Defined.

(** X20. A stored credential that does not hold exactly one colon verifies
    no password at all. *)
Theorem verify_password_malformed (sha256_hexdigest : string -> string)
    (password hashed_password : string)
    (Hcolons : colons hashed_password <> 1%nat) :
  _verify_password sha256_hexdigest password hashed_password = false.
Proof.
  unfold _verify_password. pose proof (split_on_length hashed_password) as Hlen.
  destruct (split_on ":" hashed_password) as [|salt [|digest [|extra pieces]]];
    try reflexivity.
  cbn [length] in Hlen. injection Hlen as Hlen. congruence.
Qed.

(** X20 for a credential stored without salt and for one with two
    colons. *)
Lemma verify_password_malformed_witness :
  _verify_password sample_digest "pw" "h(pw)" = false /\
  _verify_password sample_digest "pw" "a:b:c" = false.
Proof.
  split; apply verify_password_malformed; cbv; discriminate.
Defined.

(** ** Accounts *)



Section AccountFacts.
Context {F : Type}.

Lemma map_update_first_found {T U : Type} (h : T -> U) (f : T -> bool) (g : T -> T)
    (l : list T) (u : T) :
  find f l = Some u -> h (g u) = h u -> map h (update_first f g l) = map h l.
Proof.
  intros Hfind Hg. induction l as [|x l IH]; [reflexivity|].
  cbn [find update_first] in *. destruct (f x).
  - injection Hfind as ->. cbn [map]. now rewrite Hg.
  - cbn [map]. now rewrite IH.
Qed.

Lemma nodup_map_injective {T U : Type} (h : T -> U) (l : list T) (a b : T) :
  NoDup (map h l) -> In a l -> In b l -> h a = h b -> a = b.
Proof.
  induction l as [|x l IH]; intros Hnd Ha Hb Heq; [destruct Ha|].
  cbn [map] in Hnd. inversion Hnd as [|? ? Hnotin Hnd']; subst.
  destruct Ha as [->|Ha], Hb as [->|Hb].
  - reflexivity.
  - exfalso. apply Hnotin. apply list_elem_of_In. rewrite Heq. now apply in_map.
  - exfalso. apply Hnotin. apply list_elem_of_In. rewrite <- Heq. now apply in_map.
  - now apply IH.
Qed.

(** Replacing the key of the row found by a key that no row has keeps the
    keys distinct. *)
Lemma nodup_map_update_first {T U : Type} (h : T -> U) (f : T -> bool) (g : T -> T)
    (l : list T) (u : T) :
  NoDup (map h l) -> find f l = Some u -> ~ In (h (g u)) (map h l) ->
  NoDup (map h (update_first f g l)).
Proof.
  induction l as [|x l IH]; intros Hnd Hfind Hnew; [constructor|].
  cbn [map] in Hnd. inversion Hnd as [|? ? Hnotin Hnd']; subst.
  cbn [find update_first] in *. destruct (f x) eqn:Hfx.
  - injection Hfind as ->. cbn [map]. constructor; [|exact Hnd'].
    intros Hin. apply list_elem_of_In in Hin. apply Hnew. now right.
  - cbn [map]. constructor.
    + intros Hin. apply list_elem_of_In in Hin.
      apply in_map_iff in Hin. destruct Hin as (y & Hy & Hin).
      assert (Hcases : y = g u \/ In y l).
      { clear - Hin Hfind. induction l as [|z l IHl]; [destruct Hin|].
        cbn [find update_first] in *. destruct (f z).
        - injection Hfind as ->. destruct Hin as [<-|Hin]; [now left|right; now right].
        - destruct Hin as [<-|Hin]; [right; now left|].
          destruct (IHl Hfind Hin) as [->|H]; [now left|right; now right]. }
      destruct Hcases as [->|Hy'].
      * apply Hnew. left. now rewrite Hy.
      * apply Hnotin. apply list_elem_of_In. rewrite <- Hy. now apply in_map.
    + apply IH; [exact Hnd'|exact Hfind|]. intros Hin. apply Hnew. now right.
Qed.

End AccountFacts.

(** X22. [change_password] fails with "User not found" for an unknown id
    and with "Current password is incorrect" when the current password does
    not verify, and then changes nothing. Otherwise it succeeds, for an
    inactive user as for an active one: the row of the user carries the
    credential made from the new password, its id, username, email and
    rights are unchanged, and the other rows are untouched. *)
Theorem change_password_spec {F : Type} (sha256_hexdigest : string -> string)
    (db : DB F) (user_id : Z) (current_password new_password : string)
    (random_bytes : list Byte.byte) (now : Z) :
  (find (has_user_id user_id) (users db) = None ->
   change_password sha256_hexdigest db user_id current_password new_password
     random_bytes now = (failure "User not found", db)) /\
  (forall user,
     find (has_user_id user_id) (users db) = Some user ->
     (_verify_password sha256_hexdigest current_password (User.hashed_password user)
      = false ->
      change_password sha256_hexdigest db user_id current_password new_password
        random_bytes now = (failure "Current password is incorrect", db)) /\
     (_verify_password sha256_hexdigest current_password (User.hashed_password user)
      = true ->
      exists db',
        change_password sha256_hexdigest db user_id current_password new_password
          random_bytes now = (ok "Password changed successfully", db') /\
        find (has_user_id user_id) (users db')
        = Some (set_password user
                  (_hash_password sha256_hexdigest new_password random_bytes) now) /\
        map User.username (users db') = map User.username (users db) /\
        map User.email (users db') = map User.email (users db) /\
        map User.is_admin (users db') = map User.is_admin (users db) /\
        filter (fun u => negb (has_user_id user_id u)) (users db')
        = filter (fun u => negb (has_user_id user_id u)) (users db))).
Proof.
  unfold change_password. cbn [get_session working committed close]. split.
  - intros ->. reflexivity.
  - intros user Hfind. rewrite Hfind. split; intros ->; cbn [negb]; [reflexivity|].
    eexists. split; [reflexivity|].
    cbn [commit stage working committed set_users users].
    split; [|split; [|split; [|split]]].
    + apply (find_update_first (has_user_id user_id)
               (fun u => set_password u
                           (_hash_password sha256_hexdigest new_password random_bytes)
                           now)); [intros y; reflexivity|exact Hfind].
    + apply map_update_first. intros x. reflexivity.
    + apply map_update_first. intros x. reflexivity.
    + apply map_update_first. intros x. reflexivity.
    + apply filter_negb_update_first. intros x. reflexivity.
Qed.

(** X22 at bob, who is not active: the wrong current password is refused,
    the right one changes the credential. *)
Lemma change_password_spec_witness :
  change_password sample_digest sample_users_db 2 "bad" "new" sample_bytes 5
  = (failure "Current password is incorrect", sample_users_db) /\
  exists db',
    change_password sample_digest sample_users_db 2 "pw2" "new" sample_bytes 5
    = (ok "Password changed successfully", db') /\
    User.hashed_password <$> find (has_user_id 2) (users db')
    = Some (_hash_password sample_digest "new" sample_bytes).
Proof.
  destruct (proj2 (change_password_spec sample_digest sample_users_db 2 "bad" "new"
                     sample_bytes 5) sample_bob eq_refl) as [Hbad _].
  destruct (proj2 (change_password_spec sample_digest sample_users_db 2 "pw2" "new"
                     sample_bytes 5) sample_bob eq_refl) as [_ Hgood].
  split; [now apply Hbad|].
  destruct (Hgood eq_refl) as (db' & Hcall & Hfound & _).
  exists db'. split; [exact Hcall|]. now rewrite Hfound.
Defined.

(** X23. [update_user_profile] keeps the e-mail addresses of the users
    pairwise distinct, given distinct ids: a new address that another user
    has is refused with "Email already in use" and nothing changes. No call
    changes an id, a username, a credential or the rights of a user. *)
Theorem update_user_profile_keeps_emails {F : Type}
    (db : DB F) (user_id : Z) (email full_name : option string) (now : Z)
    (Hids : NoDup (map User.id (users db)))
    (Hemails : NoDup (map User.email (users db))) :
  let db' := snd (update_user_profile db user_id email full_name now) in
  NoDup (map User.email (users db')) /\
  map User.id (users db') = map User.id (users db) /\
  map User.username (users db') = map User.username (users db) /\
  map User.hashed_password (users db') = map User.hashed_password (users db) /\
  map User.is_admin (users db') = map User.is_admin (users db) /\
  (forall user e other,
     find (has_user_id user_id) (users db) = Some user ->
     email_change user email = Some e ->
     find (other_with_email e user_id) (users db) = Some other ->
     update_user_profile db user_id email full_name now
     = (failure "Email already in use", None, db)).
Proof.
  cbn zeta. unfold update_user_profile. cbn [get_session working committed close].
  destruct (find (has_user_id user_id) (users db)) as [user|] eqn:Hfind.
  2:{ cbn [snd]. repeat split; try assumption; intros; discriminate. }
  destruct (email_change user email) as [e|] eqn:Hchange.
  - destruct (find (other_with_email e user_id) (users db)) as [other|] eqn:Hother.
    { cbn [snd]. repeat split; try assumption; intros; reflexivity. }
    cbn [snd close get_session commit stage working committed set_users users].
    split; [|repeat split; try (apply map_update_first; intros x; reflexivity)].
    + apply (nodup_map_update_first User.email _ _ _ user Hemails Hfind).
      cbn [set_profile User.email]. intros Hin.
      apply in_map_iff in Hin. destruct Hin as (u' & He & Hu').
      pose proof (find_none _ _ Hother u' Hu') as Hno.
      unfold other_with_email in Hno. rewrite He, String.eqb_refl in Hno.
      cbn [andb] in Hno. apply negb_false_iff in Hno. apply Z.eqb_eq in Hno.
      apply find_some_in in Hfind. destruct Hfind as [Huser Hid].
      unfold has_user_id in Hid. apply Z.eqb_eq in Hid.
      assert (u' = user).
      { apply (nodup_map_injective User.id (users db)); try assumption. congruence. }
      subst u'. unfold email_change in Hchange.
      destruct email as [e'|]; [|discriminate].
      destruct (String.eqb_spec e' EmptyString); [discriminate|].
      destruct (String.eqb_spec e' (User.email user)); [discriminate|].
      cbn in Hchange. congruence.
    + intros ? ? ? H1 H2 H3. injection H1 as <-. rewrite Hchange in H2.
      injection H2 as <-. rewrite Hother in H3. discriminate H3.
  - cbn [snd close get_session commit stage working committed set_users users].
    split; [|repeat split; try (apply map_update_first; intros x; reflexivity)].
    + rewrite (map_update_first_found User.email (has_user_id user_id)
                 (fun u => set_profile u (User.email user) full_name now)
                 (users db) user Hfind eq_refl).
      exact Hemails.
    + intros ? ? ? H1 H2. injection H1 as <-. rewrite Hchange in H2. discriminate H2.
Qed.

(** X23 at the two sample users: bob cannot take the address of the
    administrator, and may take a new one. *)
Lemma update_user_profile_keeps_emails_witness :
  update_user_profile sample_users_db 2 (Some "admin@casio-watches.com"%string) None 9
  = (failure "Email already in use", None, sample_users_db) /\
  map User.email
    (users (snd (update_user_profile sample_users_db 2 (Some "bob@y.com"%string)
                   None 9)))
  = ["admin@casio-watches.com"; "bob@y.com"]%string /\
  NoDup (map User.email
           (users (snd (update_user_profile sample_users_db 2
                          (Some "bob@y.com"%string) None 9)))).
Proof.
  assert (Hids : NoDup (map User.id (users sample_users_db))).
  { cbn. constructor; [intros H; apply list_elem_of_In in H; cbn in H; intuition lia|].
    constructor; [intros H; inversion H|constructor]. }
  assert (Hemails : NoDup (map User.email (users sample_users_db))).
  { cbn. constructor;
      [intros H; apply list_elem_of_In in H; cbn in H; intuition discriminate|].
    constructor; [intros H; inversion H|constructor]. }
  split; [|split].
  - apply (proj2 (proj2 (proj2 (proj2 (proj2
             (update_user_profile_keeps_emails sample_users_db 2
                (Some "admin@casio-watches.com"%string) None 9 Hids Hemails)))))
             sample_bob "admin@casio-watches.com"%string sample_admin);
      reflexivity.
  - reflexivity.
  - exact (proj1 (update_user_profile_keeps_emails sample_users_db 2
                    (Some "bob@y.com"%string) None 9 Hids Hemails)).
Defined.

(** ** Order numbers and the bytes drawn *)

Lemma decode_hex_byte (b : Byte.byte) :
  Byte.of_N (16 * unhex (upper_char (hex_char (Byte.to_N b / 16)))
             + unhex (upper_char (hex_char (Byte.to_N b mod 16)))) = Some b.
Proof. destruct b; reflexivity. Qed.

Lemma decode_hex_token (random_bytes : list Byte.byte) :
  decode_hex (upper (token_hex random_bytes)) = Some random_bytes.
Proof.
  induction random_bytes as [|b rest IH]; [reflexivity|].
  cbn [token_hex upper decode_hex]. now rewrite decode_hex_byte, IH.
Qed.

(** X24. The random bytes can be read back from an order number: the text
    after its first 10 characters decodes to the bytes drawn. So two order
    numbers of the same day are equal only when the same bytes were
    drawn. *)
Theorem order_number_decodes (today : Date) (random_bytes : list Byte.byte) :
  decode_hex (drop_chars 10 (_generate_order_number today random_bytes))
  = Some random_bytes /\
  forall today' random_bytes',
    _generate_order_number today random_bytes
    = _generate_order_number today' random_bytes' ->
    random_bytes = random_bytes'.
Proof.
  assert (Hdecode : forall d bs,
             decode_hex (drop_chars 10 (_generate_order_number d bs)) = Some bs).
  { intros d bs. unfold _generate_order_number, strftime_Ymd.
    cbv [zero_pad String.append]. cbn [drop_chars]. apply decode_hex_token. }
  split; [apply Hdecode|].
  intros today' random_bytes' Heq.
  pose proof (Hdecode today random_bytes) as H. rewrite Heq, Hdecode in H.
  now injection H as <-.
Qed.

(** ** Orders are only ever appended *)

Section OrderHistory.
Context {F : Type} {arith : Arith F}.

Lemma order_core_step (db : DB F) (op : Op) :
  exists newer,
    map order_core (orders (step db op)) = map order_core (orders db) ++ newer.
Proof.
  destruct (cart_op_user op) as [u|] eqn:Hop.
  { destruct (cart_op_rows db op u Hop) as (rows & -> & _). exists [].
    now rewrite app_nil_r. }
  destruct op as [| | | |u info pm today rb now|o u now|p d]; try discriminate Hop;
    cbn [step].
  - destruct (create_order_from_cart_cases db u info pm today rb now)
      as [[m ->]|(ps & app & _ & ->)].
    + exists []. now rewrite app_nil_r.
    + eexists. cbn [snd checkout_db orders]. now rewrite map_app.
  - exists []. rewrite app_nil_r. unfold cancel_order.
    cbn [get_session working committed close].
    destruct (find (order_matches o u) (orders db)) as [order|]; [|reflexivity].
    destruct (not_cancellable (Order.status order)); [reflexivity|].
    cbn [snd close commit stage working committed set_orders set_products orders].
    apply map_update_first. intros x. reflexivity.
  - exists []. rewrite app_nil_r. unfold update_stock.
    cbn [get_session working committed close].
    destruct (products db !! p) as [product|]; [|reflexivity].
    now destruct (Product.stock_quantity product + d <? 0).
Qed.

End OrderHistory.

(** X25. No run of calls deletes or reorders an order, or changes its id,
    number, owner, amounts, payment method or creation time: the orders
    after the run are the orders before it, with at most a status and an
    update time changed, followed by the orders the run created. *)
Theorem orders_append_only {F : Type} {arith : Arith F} (ops : list Op) (db : DB F) :
  exists newer,
    map order_core (orders (run db ops)) = map order_core (orders db) ++ newer.
Proof.
  revert db. unfold run. induction ops as [|op ops IH]; intros db.
  - exists []. now rewrite app_nil_r.
  - cbn [fold_left]. destruct (IH (step db op)) as (newer & ->).
    destruct (order_core_step db op) as (newer' & ->).
    exists (newer' ++ newer). now rewrite app_assoc.
Qed.

(** ** The orders of a user, newest first *)

Section ListingFacts.
Context {F : Type}.

Lemma in_insert_newest (row x : Order.t F * OrderExtra) sorted :
  In x (insert_newest row sorted) <-> x = row \/ In x sorted.
Proof.
  induction sorted as [|y rest IH]; cbn [insert_newest In]; [intuition|].
  destruct (Order.created_at (fst y) <? Order.created_at (fst row)); cbn [In].
  - intuition.
  - rewrite IH. intuition.
Qed.

Lemma length_insert_newest (row : Order.t F * OrderExtra) sorted :
  length (insert_newest row sorted) = S (length sorted).
Proof.
  induction sorted as [|y rest IH]; [reflexivity|]. cbn [insert_newest].
  destruct (Order.created_at (fst y) <? Order.created_at (fst row)); cbn [length];
    [reflexivity|now rewrite IH].
Qed.

Lemma descending_insert_newest (row : Order.t F * OrderExtra) sorted :
  descending (map row_time sorted) ->
  descending (map row_time (insert_newest row sorted)).
Proof.
  induction sorted as [|y rest IH]; intros Hs.
  - cbn. split; [constructor|exact I].
  - cbn [map descending] in Hs. destruct Hs as [Hall Hrest]. cbn [insert_newest].
    destruct (Z.ltb_spec (Order.created_at (fst y)) (Order.created_at (fst row)))
      as [Hlt|Hge].
    + cbn [map descending]. split; [|split; [exact Hall|exact Hrest]].
      constructor; [unfold row_time; lia|].
      rewrite List.Forall_forall in *. intros t Ht. specialize (Hall t Ht).
      unfold row_time in *. lia.
    + cbn [map descending]. split; [|now apply IH].
      rewrite List.Forall_forall in *. intros t Ht.
      apply in_map_iff in Ht. destruct Ht as (x & <- & Hx).
      apply in_insert_newest in Hx. destruct Hx as [->|Hx].
      * unfold row_time. lia.
      * apply Hall. now apply in_map.
Qed.

(** The sort keeps the rows, their number, and puts the newest first. *)
Lemma newest_first_sorts (rows : list (Order.t F * OrderExtra)) :
  forall sorted,
  descending (map row_time sorted) ->
  descending (map row_time (fold_left (fun s r => insert_newest r s) rows sorted)) /\
  length (fold_left (fun s r => insert_newest r s) rows sorted)
  = (length rows + length sorted)%nat /\
  forall x, In x (fold_left (fun s r => insert_newest r s) rows sorted)
            <-> In x rows \/ In x sorted.
Proof.
  induction rows as [|r rows IH]; intros sorted Hs; cbn [fold_left].
  - split; [exact Hs|]. split; [reflexivity|]. intros x. cbn. tauto.
  - destruct (IH (insert_newest r sorted) (descending_insert_newest r sorted Hs))
      as (Hd & Hl & Hin).
    split; [exact Hd|]. split.
    + rewrite Hl, length_insert_newest. cbn [length]. lia.
    + intros x. rewrite Hin, in_insert_newest. cbn [In]. intuition.
Qed.

Lemma descending_skipn (n : nat) (times : list Z) :
  descending times -> descending (skipn n times).
Proof.
  revert times. induction n as [|n IH]; intros times Hd; [exact Hd|].
  destruct times as [|t rest]; [exact I|]. cbn [skipn]. apply IH. now destruct Hd.
Qed.

Lemma in_firstn_in {T : Type} (n : nat) (l : list T) (x : T) :
  In x (firstn n l) -> In x l.
Proof.
  revert l. induction n as [|n IH]; intros l; [intros []|].
  destruct l as [|y l]; [intros []|]. cbn [firstn In]. intuition.
Qed.

Lemma in_skipn_in {T : Type} (n : nat) (l : list T) (x : T) :
  In x (skipn n l) -> In x l.
Proof.
  revert l. induction n as [|n IH]; intros l; [tauto|].
  destruct l as [|y l]; [intros []|]. cbn [skipn In]. intuition.
Qed.

Lemma descending_firstn (n : nat) (times : list Z) :
  descending times -> descending (firstn n times).
Proof.
  revert times. induction n as [|n IH]; intros times Hd; [exact I|].
  destruct times as [|t rest]; [exact I|]. cbn [firstn descending].
  destruct Hd as [Hall Hrest]. split; [|now apply IH].
  rewrite List.Forall_forall in *. intros x Hx. apply Hall.
  now apply (in_firstn_in n).
Qed.

Lemma descending_page (offset limit : Z) (times : list Z) :
  descending times -> descending (page offset limit times).
Proof.
  intros Hd. unfold page. destruct (limit <? 0).
  - now apply descending_skipn.
  - apply descending_firstn. now apply descending_skipn.
Qed.

Lemma in_page {T : Type} (offset limit : Z) (l : list T) (x : T) :
  In x (page offset limit l) -> In x l.
Proof.
  unfold page. destruct (limit <? 0); intros H.
  - now apply (in_skipn_in (Z.to_nat offset)).
  - apply (in_skipn_in (Z.to_nat offset)). now apply (in_firstn_in (Z.to_nat limit)).
Qed.

Lemma map_page {T U : Type} (h : T -> U) (offset limit : Z) (l : list T) :
  map h (page offset limit l) = page offset limit (map h l).
Proof.
  unfold page. destruct (limit <? 0).
  - symmetry. apply skipn_map.
  - rewrite skipn_map. symmetry. apply firstn_map.
Qed.

Lemma in_with_extra (os : list (Order.t F)) :
  forall extra row, In row (with_extra os extra) -> In (fst row) os.
Proof.
  induction os as [|o os IH]; intros extra row; [intros []|].
  cbn [with_extra In]. intros [<-|Hin]; [now left|right].
  now apply (IH (tl extra)).
Qed.

Lemma firstn_then_next {T : Type} (n m : nat) (l : list T) :
  firstn n l ++ firstn m (skipn n l) = firstn (n + m) l.
Proof.
  revert l. induction n as [|n IH]; intros l; [reflexivity|].
  destruct l as [|x l]; [now destruct m|]. cbn [firstn skipn Nat.add].
  rewrite <- IH. reflexivity.
Qed.

Lemma skipn_then_skipn {T : Type} (n m : nat) (l : list T) :
  skipn m (skipn n l) = skipn (n + m) l.
Proof.
  revert l. induction n as [|n IH]; intros l; [reflexivity|].
  destruct l as [|x l]; [now destruct m|]. cbn [skipn Nat.add]. apply IH.
Qed.

(** Two pages that follow each other are the page of twice the size. *)
Lemma page_then_next {T : Type} (offset limit : Z) (l : list T) :
  0 <= offset -> 0 <= limit ->
  page offset limit l ++ page (offset + limit) limit l = page offset (2 * limit) l.
Proof.
  intros Ho Hl. unfold page.
  destruct (Z.ltb_spec limit 0) as [|_]; [lia|].
  destruct (Z.ltb_spec (2 * limit) 0) as [|_]; [lia|].
  rewrite Z2Nat.inj_add by lia. rewrite <- skipn_then_skipn.
  rewrite firstn_then_next. f_equal. lia.
Qed.

End ListingFacts.

(** X26. [get_user_orders] lists rows of the orders table that belong to
    the user, each with the number of its association rows whose product
    exists, newest first; with a limit that is not negative it lists at most
    that many; and for an offset and a limit that are not negative, the page
    at [offset] followed by the page at [offset + limit] is the page of
    twice the size at [offset]: no order is skipped or listed twice between
    pages. *)
Theorem get_user_orders_listing {F : Type} (db : DB F) (extra : list OrderExtra)
    (user_id limit offset : Z) :
  (forall entry,
     In entry (get_user_orders db extra user_id limit offset) ->
     In (fst (fst entry)) (orders db) /\
     Order.user_id (fst (fst entry)) = user_id /\
     snd entry = item_count db (Order.id (fst (fst entry)))) /\
  descending (map entry_created_at (get_user_orders db extra user_id limit offset)) /\
  (0 <= limit ->
   (length (get_user_orders db extra user_id limit offset) <= Z.to_nat limit)%nat) /\
  (0 <= offset -> 0 <= limit ->
   get_user_orders db extra user_id limit offset
   ++ get_user_orders db extra user_id limit (offset + limit)
   = get_user_orders db extra user_id (2 * limit) offset).
Proof.
  unfold get_user_orders.
  set (rows := filter (fun row : Order.t F * OrderExtra =>
                         Order.user_id (fst row) =? user_id)
                 (with_extra (orders db) extra)).
  destruct (newest_first_sorts rows [] I) as (Hsorted & _ & Hin).
  fold (newest_first rows) in Hsorted, Hin.
  split; [|split; [|split]].
  - intros entry Hentry. apply in_map_iff in Hentry.
    destruct Hentry as (row & <- & Hrow). cbn [fst snd].
    apply in_page, Hin in Hrow. destruct Hrow as [Hrow|[]].
    unfold rows in Hrow.
    assert (Hrow' : In row (with_extra (orders db) extra)
                    /\ (Order.user_id (fst row) =? user_id) = true).
    { clear - Hrow. induction (with_extra (orders db) extra) as [|x l IH];
        [destruct Hrow|].
      rewrite filter_cons_bool in Hrow.
      destruct (Order.user_id (fst x) =? user_id) eqn:Hx.
      - destruct Hrow as [<-|Hrow]; [split; [now left|exact Hx]|].
        destruct (IH Hrow) as [H1 H2]. split; [now right|exact H2].
      - destruct (IH Hrow) as [H1 H2]. split; [now right|exact H2]. }
    destruct Hrow' as [Hrow' Huser]. split; [now apply (in_with_extra _ extra)|].
    split; [now apply Z.eqb_eq|reflexivity].
  - rewrite map_map. cbn [entry_created_at fst].
    change (map (fun x : Order.t F * OrderExtra => Order.created_at (fst x)))
      with (map (@row_time F)).
    rewrite map_page. now apply descending_page.
  - intros Hl. rewrite length_map. unfold page.
    destruct (Z.ltb_spec limit 0) as [|_]; [lia|].
    rewrite length_firstn. lia.
  - intros Ho Hl. rewrite <- map_app. f_equal. now apply page_then_next.
Qed.

(** X26 at three orders, two of them of user 1: the first page of size 1
    holds order 3, the newer one, and the two pages of size 1 make the page
    of size 2. *)
Lemma get_user_orders_listing_witness :
  map (fun entry => Order.id (fst (fst entry)))
      (get_user_orders sample_orders_db [] 1 1 0) = [3] /\
  (length (get_user_orders sample_orders_db [] 1 1 0) <= 1)%nat /\
  get_user_orders sample_orders_db [] 1 1 0
  ++ get_user_orders sample_orders_db [] 1 1 (0 + 1)
  = get_user_orders sample_orders_db [] 1 (2 * 1) 0.
Proof.
  destruct (get_user_orders_listing sample_orders_db [] 1 1 0)
    as (_ & _ & Hlimit & Hpages).
  split; [reflexivity|]. split; [apply Hlimit; lia|apply Hpages; lia].
Defined.

(** X24 at the sample order number: its last 8 characters spell the
    sample bytes. *)
Lemma order_number_decodes_witness :
  decode_hex (drop_chars 10 "CW2026110300ABFF1F") = Some sample_bytes /\
  (_generate_order_number sample_date sample_bytes
   = _generate_order_number sample_date sample_bytes ->
   sample_bytes = sample_bytes).
Proof.
  destruct (order_number_decodes sample_date sample_bytes) as [Hdecode Hsame].
  split; [exact Hdecode|]. apply Hsame.
Defined.
